(** * Canvas OAuth bridge: a shallow embedding of the Worker's dispatcher

    The repository ships one Cloudflare Worker, [src/index.js], and an
    earlier copy of the same dispatcher whose file name is not recorded.
    Both export an object with a single [fetch(request)] handler.  The
    development below embeds both handlers as Rocq functions and states
    the request/response contract of the written specification over them.

    Conventions.
    - A JavaScript string is a Rocq [string]: the UTF-8 bytes of a
      well-formed string (what [URLSearchParams] and [FormData] deliver).
      The four characters [escapeHtml] rewrites and every character
      [encodeURIComponent] keeps are ASCII, so both act byte by byte.
    - An [async] function is a function into [Completion]: it either
      returns a value or throws.
    - A body on the wire is a Rocq [string] too: its bytes, whatever they
      are. Reading a body as text, [text()], decodes the bytes as UTF-8
      the way the Encoding standard prescribes; sending a string encodes
      it, which under the first convention leaves the bytes as they are.
    - What the platform computes from a request (the parsed URL, the
      results of [request.formData()] and [request.json()], the bytes its
      body delivers) is a field of the request record; the global [fetch]
      that reaches the upstream host and the URL parser behind
      [Response.redirect] are parameters of the handler. *)

From Stdlib Require Import String Ascii List Bool Arith ZArith Lia.
Import ListNotations.
Open Scope string_scope.

(** ** JavaScript values and built-ins *)

Module JS.

(** The quotation mark and the line feed, built from their codes. *)
Definition dq : string := String (ascii_of_nat 34) EmptyString.
Definition nl : string := String (ascii_of_nat 10) EmptyString.

Variant JsError : Type :=
| TypeError
| RangeError
| SyntaxError.

(** The outcome of an [async] call once awaited. *)
Inductive Completion (A : Type) : Type :=
| Return (a : A)
| Throw (e : JsError).
Arguments Return {A} a.
Arguments Throw {A} e.

Definition bind {A B : Type} (c : Completion A) (k : A -> Completion B)
  : Completion B :=
  match c with
  | Return a => k a
  | Throw e => Throw e
  end.

(** [x <- c ;; k] reads [const x = await c; k]. *)
Notation "x <- c ;; k" := (bind c (fun x => k))
  (at level 61, c at next level, right associativity).

(** A number is kept through the two observations the dispatcher can make
    of it: whether it is falsy (zero), and how [JSON.stringify] prints it. *)
Record JsNumber : Type := { num_falsy : bool; num_text : string }.

(** A value as [JSON.parse] produces it, and [undefined]. An object
    lists its own properties in the order [JSON.stringify] visits them. *)
#[local] Set Warnings "-register-all".
Inductive JsValue : Type :=
| JUndefined
| JNull
| JBool (b : bool)
| JNumber (n : JsNumber)
| JString (s : string)
| JArray (items : list JsValue)
| JObject (props : list (string * JsValue)).

(** [ToBoolean]: what [!v] negates. *)
Definition ToBoolean (v : JsValue) : bool :=
  match v with
  | JUndefined | JNull => false
  | JBool b => b
  | JNumber n => negb (num_falsy n)
  | JString s => negb (s =? "")
  | JArray _ | JObject _ => true
  end.

(** A nullable string, as [get] of [URLSearchParams], [FormData] and
    [Headers] returns it. *)
Definition of_nullable (o : option string) : JsValue :=
  match o with
  | Some s => JString s
  | None => JNull
  end.

(** [o || d] on a nullable string. *)
Definition or_else (o : option string) (d : string) : string :=
  match o with
  | Some s => if s =? "" then d else s
  | None => d
  end.

(** [!o] on a nullable string. *)
Definition falsy (o : option string) : bool :=
  negb (ToBoolean (of_nullable o)).

(** [ToString] of a nullable string, as a template literal and
    [encodeURIComponent] apply it. *)
Definition ToString (o : option string) : string :=
  match o with
  | Some s => s
  | None => "null"
  end.

(** First entry under a key: [URLSearchParams.get] and [FormData.get]. *)
Fixpoint entries_get (name : string) (l : list (string * string))
  : option string :=
  match l with
  | [] => None
  | (k, v) :: rest => if k =? name then Some v else entries_get name rest
  end.

(** [v.code] for a parsed JSON value [v]: reading a property of [null]
    throws, a primitive or an array has no such property. *)
Fixpoint props_get (name : string) (l : list (string * JsValue)) : JsValue :=
  match l with
  | [] => JUndefined
  | (k, v) :: rest => if k =? name then v else props_get name rest
  end.

Definition get_property (v : JsValue) (name : string) : Completion JsValue :=
  match v with
  | JUndefined | JNull => Throw TypeError
  | JObject props => Return (props_get name props)
  | _ => Return JUndefined
  end.

(** [s.startsWith(p)] and [s.includes(sub)]. *)
Fixpoint startsWith (s p : string) {struct p} : bool :=
  match p with
  | EmptyString => true
  | String a p' =>
      match s with
      | String b s' => Ascii.eqb a b && startsWith s' p'
      | EmptyString => false
      end
  end.

Fixpoint includes (s sub : string) : bool :=
  if startsWith s sub then true
  else match s with
       | EmptyString => false
       | String _ rest => includes rest sub
       end.

(** [s.replace(/c/g, by)] for a one-character pattern. *)
Fixpoint replaceAll (c : ascii) (by_ : string) (s : string) : string :=
  match s with
  | EmptyString => EmptyString
  | String x rest =>
      if Ascii.eqb x c then by_ ++ replaceAll c by_ rest
      else String x (replaceAll c by_ rest)
  end.

(** Hexadecimal digits. *)
Definition hexdigit (upper : bool) (n : nat) : ascii :=
  if (n <? 10)%nat then ascii_of_nat (48 + n)
  else ascii_of_nat ((if upper then 55 else 87) + n).

Definition hex2 (upper : bool) (c : ascii) : string :=
  let n := nat_of_ascii c in
  String (hexdigit upper (n / 16)) (String (hexdigit upper (n mod 16)) EmptyString).

Definition in_range (lo hi c : ascii) : bool :=
  (nat_of_ascii lo <=? nat_of_ascii c)%nat && (nat_of_ascii c <=? nat_of_ascii hi)%nat.

Definition is_alnum (c : ascii) : bool :=
  in_range "A" "Z" c || in_range "a" "z" c || in_range "0" "9" c.

(** The characters [encodeURIComponent] leaves alone: letters, digits and
    [- _ . ! ~ * ' ( )]. *)
Definition uriUnreserved (c : ascii) : bool :=
  is_alnum c ||
  existsb (Ascii.eqb c)
    ["-"; "_"; "."; "!"; "~"; "*"; "'"; "("; ")"]%char.

(** [encodeURIComponent]: every other byte of the UTF-8 form becomes
    [%XX] with upper-case digits. *)
Fixpoint encodeURIComponent (s : string) : string :=
  match s with
  | EmptyString => EmptyString
  | String c rest =>
      if uriUnreserved c then String c (encodeURIComponent rest)
      else String "%" (hex2 true c ++ encodeURIComponent rest)
  end.

(** [QuoteJSONString]: the string between quotes, with the quote, the
    backslash and the control characters escaped. *)
Definition json_escape_char (c : ascii) : string :=
  let n := nat_of_ascii c in
  if (n =? 34)%nat then String "\" dq
  else if (n =? 92)%nat then "\\"
  else if (n =? 8)%nat then "\b"
  else if (n =? 9)%nat then "\t"
  else if (n =? 10)%nat then "\n"
  else if (n =? 12)%nat then "\f"
  else if (n =? 13)%nat then "\r"
  else if (n <? 32)%nat then "\u00" ++ hex2 false c
  else String c EmptyString.

Fixpoint json_escape (s : string) : string :=
  match s with
  | EmptyString => EmptyString
  | String c rest => json_escape_char c ++ json_escape rest
  end.

Definition QuoteJSONString (s : string) : string :=
  dq ++ json_escape s ++ dq.

(** [JSON.stringify]: [None] stands for the result [undefined]. In an
    array an undefined element prints as [null]; in an object a property
    whose value is undefined is left out. *)
Fixpoint JSON_stringify (v : JsValue) : option string :=
  match v with
  | JUndefined => None
  | JNull => Some "null"
  | JBool true => Some "true"
  | JBool false => Some "false"
  | JNumber n => Some (num_text n)
  | JString s => Some (QuoteJSONString s)
  | JArray items =>
      Some ("[" ++ String.concat ","
                     (map (fun x => match JSON_stringify x with
                                    | Some t => t
                                    | None => "null"
                                    end) items) ++ "]")
  | JObject props =>
      Some ("{" ++ String.concat ","
                     (flat_map (fun kv =>
                                  match JSON_stringify (snd kv) with
                                  | Some t => [QuoteJSONString (fst kv) ++ ":" ++ t]
                                  | None => []
                                  end) props) ++ "}")
  end.

(** [JSON.stringify] of an object literal is always a string. *)
Definition stringify_object (props : list (string * JsValue)) : string :=
  match JSON_stringify (JObject props) with
  | Some t => t
  | None => EmptyString
  end.

End JS.

(** ** The Workers platform: headers, requests, responses *)

Module Web.
Import JS.

Definition lower_ascii (c : ascii) : ascii :=
  if in_range "A" "Z" c then ascii_of_nat (nat_of_ascii c + 32) else c.

Fixpoint toLowerCase (s : string) : string :=
  match s with
  | EmptyString => EmptyString
  | String c rest => String (lower_ascii c) (toLowerCase rest)
  end.

(** A header list, in the order the object literal lists the names. *)
Definition Headers : Type := list (string * string).

(** [headers.get(name)]: names compare without case; the values of a
    repeated name are joined with a comma and a space. *)
Definition Headers_get (name : string) (hs : Headers) : option string :=
  match filter (fun kv => toLowerCase (fst kv) =? toLowerCase name) hs with
  | [] => None
  | found => Some (String.concat ", " (map snd found))
  end.

(** *** Reading a body as text

    [text()] runs the Encoding standard's "UTF-8 decode": a leading byte
    order mark is dropped, and what is not well-formed UTF-8 becomes
    U+FFFD, one for each sequence that breaks off and one for each byte
    that can open none. The result is a string, here again in its UTF-8
    bytes, so a well-formed sequence comes out as it went in and U+FFFD
    comes out as [EF BF BD]. *)

Definition byte_in (lo hi : nat) (b : ascii) : bool :=
  (lo <=? nat_of_ascii b)%nat && (nat_of_ascii b <=? hi)%nat.

(** U+FFFD and U+FEFF in UTF-8. *)
Definition replacement : string :=
  String (ascii_of_nat 239)
    (String (ascii_of_nat 191) (String (ascii_of_nat 189) EmptyString)).

Definition byte_order_mark : string :=
  String (ascii_of_nat 239)
    (String (ascii_of_nat 187) (String (ascii_of_nat 191) EmptyString)).

(** The decoder in the middle of a sequence: how many bytes it still
    needs, the bounds on the next one, and the bytes it has seen. *)
Record Pending : Type :=
  { needed : nat;
    lower : nat;
    upper : nat;
    seen : string }.

(** The decoder on a byte with no sequence pending: an ASCII byte is a
    character; [C2..DF], [E0..EF] and [F0..F4] open a sequence of two,
    three and four bytes, where [E0], [ED], [F0] and [F4] narrow the
    bounds on the second byte; any other byte is an error. *)
Definition utf8_lead (b : ascii) : string * option Pending :=
  let n := nat_of_ascii b in
  if byte_in 0 127 b then (String b EmptyString, None)
  else if byte_in 194 223 b then
    (EmptyString,
     Some {| needed := 1; lower := 128; upper := 191;
             seen := String b EmptyString |})
  else if byte_in 224 239 b then
    (EmptyString,
     Some {| needed := 2;
             lower := if (n =? 224)%nat then 160 else 128;
             upper := if (n =? 237)%nat then 159 else 191;
             seen := String b EmptyString |})
  else if byte_in 240 244 b then
    (EmptyString,
     Some {| needed := 3;
             lower := if (n =? 240)%nat then 144 else 128;
             upper := if (n =? 244)%nat then 143 else 191;
             seen := String b EmptyString |})
  else (replacement, None).

(** The decoder over the bytes [s], entered with [st] pending. A byte
    outside the bounds ends the pending sequence in an error and is then
    read again with nothing pending; the end of the bytes inside a
    sequence is an error. *)
Fixpoint utf8_run (st : option Pending) (s : string) : string :=
  match s with
  | EmptyString =>
      match st with
      | Some _ => replacement
      | None => EmptyString
      end
  | String b rest =>
      match st with
      | None =>
          let '(out, st') := utf8_lead b in out ++ utf8_run st' rest
      | Some p =>
          if byte_in (lower p) (upper p) b then
            match needed p with
            | S (S k) =>
                utf8_run
                  (Some {| needed := S k; lower := 128; upper := 191;
                           seen := seen p ++ String b EmptyString |})
                  rest
            | _ => (seen p ++ String b EmptyString) ++ utf8_run None rest
            end
          else
            replacement
              ++ (let '(out, st') := utf8_lead b in out ++ utf8_run st' rest)
      end
  end.

Definition strip_bom (s : string) : string :=
  match s with
  | String a (String b (String c rest)) =>
      if (nat_of_ascii a =? 239)%nat && (nat_of_ascii b =? 187)%nat
         && (nat_of_ascii c =? 191)%nat
      then rest else s
  | _ => s
  end.

Definition utf8_decode (bytes : string) : string :=
  utf8_run None (strip_bom bytes).

Module Response.

(** A response the handler hands back: its body is the string it was
    built from, or null. *)
Record t : Type := mk
  { status : Z;
    headers : Headers;
    body : option string }.

End Response.

Module Upstream.

(** A response of another host, as the global [fetch] resolves to it. Its
    body is still to be read: [body] is what reading it to the end
    delivers, the bytes (none for a null body) or the failure of the
    read. *)
Record t : Type := mk
  { status : Z;
    headers : Headers;
    body : Completion string }.

(** [response.text()]. *)
Definition text (r : t) : Completion string :=
  bytes <- body r ;; Return (utf8_decode bytes).

End Upstream.

(** The [init] argument of [new Response(body, init)]. *)
Record ResponseInit : Type :=
  { init_status : option Z;
    init_headers : Headers }.

Definition null_body_status (st : Z) : bool :=
  (st =? 101)%Z || (st =? 204)%Z || (st =? 205)%Z || (st =? 304)%Z.

(** [new Response(body, init)] on the Workers runtime: the status
    defaults to 200 and must lie in 200..599; on a null-body status the
    Fetch standard refuses any body, and the runtime still takes a body
    of length zero there and builds the response without a body; a string
    body brings the content type [text/plain;charset=UTF-8] unless [init]
    already names one. *)
Definition new_Response (body : option string) (init : ResponseInit)
  : Completion Response.t :=
  let st := match init_status init with Some n => n | None => 200%Z end in
  if ((st <? 200) || (599 <? st))%Z then Throw RangeError
  else
    match body with
    | None => Return (Response.mk st (init_headers init) None)
    | Some b =>
        if null_body_status st then
          if b =? "" then Return (Response.mk st (init_headers init) None)
          else Throw TypeError
        else
          let hs :=
            match Headers_get "Content-Type" (init_headers init) with
            | Some _ => init_headers init
            | None =>
                (init_headers init
                   ++ [("Content-Type", "text/plain;charset=UTF-8")])%list
            end in
          Return (Response.mk st hs (Some b))
    end.

Definition redirect_status (st : Z) : bool :=
  (st =? 301)%Z || (st =? 302)%Z || (st =? 303)%Z || (st =? 307)%Z
  || (st =? 308)%Z.

(** The arguments of a call [fetch(url, init)] to another host. *)
Record FetchCall : Type :=
  { call_url : string;
    call_method : string;
    call_headers : Headers;
    call_body : option string }.

(** What the handler asks of the platform beyond its request: the global
    [fetch], and the URL parser, which gives the serialised form of an
    absolute URL and nothing for any other string. *)
Record Platform : Type :=
  { global_fetch : FetchCall -> Completion Upstream.t;
    URL_parse : string -> option string }.

(** [Response.redirect(url, status)] as the Fetch standard defines it:
    [url] must parse, [status] must be a redirect status, and the
    response is bodiless with the serialised URL as its only header,
    [Location]. *)
Definition Response_redirect (env : Platform) (url : string) (st : Z)
  : Completion Response.t :=
  match URL_parse env url with
  | None => Throw TypeError
  | Some href =>
      if redirect_status st
      then Return (Response.mk st [("Location", href)] None)
      else Throw RangeError
  end.

Module Request.

(** A request as the handler sees it. [pathname], [search] and
    [searchParams] are those of [new URL(request.url)]; [body] is what
    reading the body to the end delivers, the bytes (none when there is
    no body) or the failure of the read; [formData] and [json] are what
    the body-reading methods of the same name resolve to. Form values
    are strings: the forms of this flow carry no file parts. *)
Record t : Type := mk
  { method : string;
    pathname : string;
    search : string;
    searchParams : list (string * string);
    headers : Headers;
    body : Completion string;
    formData : Completion (list (string * string));
    json : Completion JsValue }.

(** [request.text()]. *)
Definition text (r : t) : Completion string :=
  bytes <- body r ;; Return (utf8_decode bytes).

End Request.

End Web.

(** ** The Worker, [src/index.js] *)

Module Index.
Import JS Web.

Definition SCHOOL_NAME : string := "Grambling State University".
Definition CANVAS_DOMAIN : string := "grambling.instructure.com".

(** [escapeHtml]: nothing for a falsy argument, otherwise the four
    replacements in the order the source chains them. *)
Definition escapeHtml (str : option string) : string :=
  match str with
  | None => EmptyString
  | Some s =>
      if s =? "" then EmptyString
      else
        replaceAll ">" "&gt;"
          (replaceAll "<" "&lt;"
             (replaceAll (ascii_of_nat 34) "&quot;"
                (replaceAll "&" "&amp;" s)))
  end.

Definition getHomePage : string :=
  "<!DOCTYPE html>" ++ nl ++
  "<html lang=" ++ dq ++ "en" ++ dq ++ ">" ++ nl ++
  "<head>" ++ nl ++
  "  <meta charset=" ++ dq ++ "UTF-8" ++ dq ++ ">" ++ nl ++
  "  <meta name=" ++ dq ++ "viewport" ++ dq ++ " content=" ++ dq ++ "width=device-width, initial-scale=1.0" ++ dq ++ ">" ++ nl ++
  "  <title>Canvas GPT - " ++ SCHOOL_NAME ++ "</title>" ++ nl ++
  "  <link rel=" ++ dq ++ "stylesheet" ++ dq ++ " href=" ++ dq ++ "https://cdn.jsdelivr.net/npm/geist@1.2.0/dist/fonts/geist-sans/style.min.css" ++ dq ++ ">" ++ nl ++
  "  <style>" ++ nl ++
  "    * { box-sizing: border-box; margin: 0; padding: 0; }" ++ nl ++
  "    body {" ++ nl ++
  "      font-family: " ++ dq ++ "Geist Sans" ++ dq ++ ", -apple-system, BlinkMacSystemFont, sans-serif;" ++ nl ++
  "      background: #fff;" ++ nl ++
  "      min-height: 100vh;" ++ nl ++
  "      display: flex;" ++ nl ++
  "      align-items: center;" ++ nl ++
  "      justify-content: center;" ++ nl ++
  "      padding: 20px;" ++ nl ++
  "      color: #000;" ++ nl ++
  "    }" ++ nl ++
  "    .container {" ++ nl ++
  "      max-width: 400px;" ++ nl ++
  "      width: 100%;" ++ nl ++
  "      text-align: center;" ++ nl ++
  "    }" ++ nl ++
  "    h1 {" ++ nl ++
  "      font-size: 24px;" ++ nl ++
  "      font-weight: 600;" ++ nl ++
  "      margin-bottom: 8px;" ++ nl ++
  "    }" ++ nl ++
  "    .school {" ++ nl ++
  "      color: #666;" ++ nl ++
  "      margin-bottom: 40px;" ++ nl ++
  "      font-size: 14px;" ++ nl ++
  "    }" ++ nl ++
  "    p {" ++ nl ++
  "      color: #333;" ++ nl ++
  "      line-height: 1.5;" ++ nl ++
  "      margin-bottom: 16px;" ++ nl ++
  "      font-size: 15px;" ++ nl ++
  "    }" ++ nl ++
  "    .note {" ++ nl ++
  "      margin-top: 40px;" ++ nl ++
  "      padding-top: 20px;" ++ nl ++
  "      border-top: 1px solid #eee;" ++ nl ++
  "      font-size: 13px;" ++ nl ++
  "      color: #999;" ++ nl ++
  "    }" ++ nl ++
  "    footer {" ++ nl ++
  "      position: fixed;" ++ nl ++
  "      bottom: 20px;" ++ nl ++
  "      left: 0;" ++ nl ++
  "      right: 0;" ++ nl ++
  "      text-align: center;" ++ nl ++
  "      font-size: 13px;" ++ nl ++
  "      color: #999;" ++ nl ++
  "    }" ++ nl ++
  "    footer a {" ++ nl ++
  "      color: #666;" ++ nl ++
  "      text-decoration: none;" ++ nl ++
  "    }" ++ nl ++
  "    footer a:hover {" ++ nl ++
  "      text-decoration: underline;" ++ nl ++
  "    }" ++ nl ++
  "  </style>" ++ nl ++
  "</head>" ++ nl ++
  "<body>" ++ nl ++
  "  <div class=" ++ dq ++ "container" ++ dq ++ ">" ++ nl ++
  "    <h1>Canvas GPT</h1>" ++ nl ++
  "    <p class=" ++ dq ++ "school" ++ dq ++ ">" ++ SCHOOL_NAME ++ "</p>" ++ nl ++
  "    <p>Connect ChatGPT to your Canvas account.</p>" ++ nl ++
  "    <p>Open Canvas GPT in ChatGPT and click " ++ dq ++ "Sign in" ++ dq ++ " to get started.</p>" ++ nl ++
  "    <p class=" ++ dq ++ "note" ++ dq ++ ">Your token is sent directly to ChatGPT. No data is stored.</p>" ++ nl ++
  "  </div>" ++ nl ++
  "  <footer>Built with ❤️ by <a href=" ++ dq ++ "https://github.com/nintang/canvas-oauth" ++ dq ++ " target=" ++ dq ++ "_blank" ++ dq ++ ">@nintang</a></footer>" ++ nl ++
  "</body>" ++ nl ++
  "</html>".

(** The template of [getAuthPage], cut at its two interpolated values. *)
Definition authPage_head : string :=
  "<!DOCTYPE html>" ++ nl ++
  "<html lang=" ++ dq ++ "en" ++ dq ++ ">" ++ nl ++
  "<head>" ++ nl ++
  "  <meta charset=" ++ dq ++ "UTF-8" ++ dq ++ ">" ++ nl ++
  "  <meta name=" ++ dq ++ "viewport" ++ dq ++ " content=" ++ dq ++ "width=device-width, initial-scale=1.0" ++ dq ++ ">" ++ nl ++
  "  <title>Connect to Canvas - " ++ SCHOOL_NAME ++ "</title>" ++ nl ++
  "  <link rel=" ++ dq ++ "stylesheet" ++ dq ++ " href=" ++ dq ++ "https://cdn.jsdelivr.net/npm/geist@1.2.0/dist/fonts/geist-sans/style.min.css" ++ dq ++ ">" ++ nl ++
  "  <script src=" ++ dq ++ "https://unpkg.com/lucide@latest" ++ dq ++ "></script>" ++ nl ++
  "  <style>" ++ nl ++
  "    * { box-sizing: border-box; margin: 0; padding: 0; }" ++ nl ++
  "    body {" ++ nl ++
  "      font-family: " ++ dq ++ "Geist Sans" ++ dq ++ ", -apple-system, BlinkMacSystemFont, sans-serif;" ++ nl ++
  "      background: #fafafa;" ++ nl ++
  "      min-height: 100vh;" ++ nl ++
  "      display: flex;" ++ nl ++
  "      align-items: center;" ++ nl ++
  "      justify-content: center;" ++ nl ++
  "      padding: 20px;" ++ nl ++
  "      color: #000;" ++ nl ++
  "    }" ++ nl ++
  "    .container {" ++ nl ++
  "      background: #fff;" ++ nl ++
  "      border: 1px solid #eaeaea;" ++ nl ++
  "      padding: 40px;" ++ nl ++
  "      max-width: 420px;" ++ nl ++
  "      width: 100%;" ++ nl ++
  "    }" ++ nl ++
  "    .header {" ++ nl ++
  "      text-align: center;" ++ nl ++
  "      margin-bottom: 32px;" ++ nl ++
  "    }" ++ nl ++
  "    .header svg {" ++ nl ++
  "      margin-bottom: 16px;" ++ nl ++
  "      color: #000;" ++ nl ++
  "    }" ++ nl ++
  "    h1 {" ++ nl ++
  "      font-size: 20px;" ++ nl ++
  "      font-weight: 600;" ++ nl ++
  "      margin-bottom: 4px;" ++ nl ++
  "    }" ++ nl ++
  "    .school {" ++ nl ++
  "      color: #666;" ++ nl ++
  "      font-size: 14px;" ++ nl ++
  "    }" ++ nl ++
  "    label {" ++ nl ++
  "      display: block;" ++ nl ++
  "      margin-bottom: 8px;" ++ nl ++
  "      font-weight: 500;" ++ nl ++
  "      font-size: 14px;" ++ nl ++
  "      color: #333;" ++ nl ++
  "    }" ++ nl ++
  "    input[type=" ++ dq ++ "password" ++ dq ++ "] {" ++ nl ++
  "      width: 100%;" ++ nl ++
  "      padding: 12px;" ++ nl ++
  "      border: 1px solid #eaeaea;" ++ nl ++
  "      background: #fff;" ++ nl ++
  "      color: #000;" ++ nl ++
  "      font-size: 14px;" ++ nl ++
  "      margin-bottom: 16px;" ++ nl ++
  "      transition: border-color 0.15s;" ++ nl ++
  "    }" ++ nl ++
  "    input[type=" ++ dq ++ "password" ++ dq ++ "]:focus {" ++ nl ++
  "      outline: none;" ++ nl ++
  "      border-color: #000;" ++ nl ++
  "    }" ++ nl ++
  "    input[type=" ++ dq ++ "password" ++ dq ++ "]::placeholder {" ++ nl ++
  "      color: #999;" ++ nl ++
  "    }" ++ nl ++
  "    button {" ++ nl ++
  "      width: 100%;" ++ nl ++
  "      padding: 12px;" ++ nl ++
  "      background: #000;" ++ nl ++
  "      color: #fff;" ++ nl ++
  "      border: none;" ++ nl ++
  "      font-size: 14px;" ++ nl ++
  "      font-weight: 500;" ++ nl ++
  "      cursor: pointer;" ++ nl ++
  "      transition: background 0.15s;" ++ nl ++
  "    }" ++ nl ++
  "    button:hover {" ++ nl ++
  "      background: #333;" ++ nl ++
  "    }" ++ nl ++
  "    .divider {" ++ nl ++
  "      margin: 32px 0;" ++ nl ++
  "      border-top: 1px solid #eaeaea;" ++ nl ++
  "    }" ++ nl ++
  "    .help h3 {" ++ nl ++
  "      display: flex;" ++ nl ++
  "      align-items: center;" ++ nl ++
  "      gap: 8px;" ++ nl ++
  "      margin-bottom: 16px;" ++ nl ++
  "      font-size: 14px;" ++ nl ++
  "      font-weight: 600;" ++ nl ++
  "      color: #000;" ++ nl ++
  "    }" ++ nl ++
  "    .help h3 svg {" ++ nl ++
  "      width: 16px;" ++ nl ++
  "      height: 16px;" ++ nl ++
  "    }" ++ nl ++
  "    .help ol {" ++ nl ++
  "      padding-left: 20px;" ++ nl ++
  "      margin: 0;" ++ nl ++
  "    }" ++ nl ++
  "    .help li {" ++ nl ++
  "      margin-bottom: 8px;" ++ nl ++
  "      color: #666;" ++ nl ++
  "      font-size: 13px;" ++ nl ++
  "      line-height: 1.5;" ++ nl ++
  "    }" ++ nl ++
  "    .help a {" ++ nl ++
  "      color: #000;" ++ nl ++
  "      text-decoration: underline;" ++ nl ++
  "      text-underline-offset: 2px;" ++ nl ++
  "    }" ++ nl ++
  "    .help a:hover {" ++ nl ++
  "      color: #666;" ++ nl ++
  "    }" ++ nl ++
  "    .security {" ++ nl ++
  "      margin-top: 24px;" ++ nl ++
  "      display: flex;" ++ nl ++
  "      align-items: center;" ++ nl ++
  "      justify-content: center;" ++ nl ++
  "      gap: 8px;" ++ nl ++
  "      font-size: 12px;" ++ nl ++
  "      color: #666;" ++ nl ++
  "    }" ++ nl ++
  "    .security svg {" ++ nl ++
  "      width: 14px;" ++ nl ++
  "      height: 14px;" ++ nl ++
  "    }" ++ nl ++
  "    footer {" ++ nl ++
  "      position: fixed;" ++ nl ++
  "      bottom: 20px;" ++ nl ++
  "      left: 0;" ++ nl ++
  "      right: 0;" ++ nl ++
  "      text-align: center;" ++ nl ++
  "      font-size: 13px;" ++ nl ++
  "      color: #999;" ++ nl ++
  "    }" ++ nl ++
  "    footer a {" ++ nl ++
  "      color: #666;" ++ nl ++
  "      text-decoration: none;" ++ nl ++
  "    }" ++ nl ++
  "    footer a:hover {" ++ nl ++
  "      text-decoration: underline;" ++ nl ++
  "    }" ++ nl ++
  "  </style>" ++ nl ++
  "</head>" ++ nl ++
  "<body>" ++ nl ++
  "  <div class=" ++ dq ++ "container" ++ dq ++ ">" ++ nl ++
  "    <div class=" ++ dq ++ "header" ++ dq ++ ">" ++ nl ++
  "      <i data-lucide=" ++ dq ++ "link" ++ dq ++ " width=" ++ dq ++ "32" ++ dq ++ " height=" ++ dq ++ "32" ++ dq ++ " stroke-width=" ++ dq ++ "1.5" ++ dq ++ "></i>" ++ nl ++
  "      <h1>Connect to Canvas</h1>" ++ nl ++
  "      <p class=" ++ dq ++ "school" ++ dq ++ ">" ++ SCHOOL_NAME ++ "</p>" ++ nl ++
  "    </div>" ++ nl ++
  nl ++
  "    <form action=" ++ dq ++ "/callback" ++ dq ++ " method=" ++ dq ++ "POST" ++ dq ++ ">" ++ nl ++
  "      <input type=" ++ dq ++ "hidden" ++ dq ++ " name=" ++ dq ++ "redirect_uri" ++ dq ++ " value=" ++ dq.

Definition authPage_between : string :=
  dq ++ ">" ++ nl ++
  "      <input type=" ++ dq ++ "hidden" ++ dq ++ " name=" ++ dq ++ "state" ++ dq ++ " value=" ++ dq.

Definition authPage_tail : string :=
  dq ++ ">" ++ nl ++
  nl ++
  "      <label for=" ++ dq ++ "token" ++ dq ++ ">Access Token</label>" ++ nl ++
  "      <input" ++ nl ++
  "        type=" ++ dq ++ "password" ++ dq ++ nl ++
  "        id=" ++ dq ++ "token" ++ dq ++ nl ++
  "        name=" ++ dq ++ "token" ++ dq ++ nl ++
  "        placeholder=" ++ dq ++ "Paste your Canvas token" ++ dq ++ nl ++
  "        required" ++ nl ++
  "        autocomplete=" ++ dq ++ "off" ++ dq ++ nl ++
  "      >" ++ nl ++
  nl ++
  "      <button type=" ++ dq ++ "submit" ++ dq ++ ">Continue</button>" ++ nl ++
  "    </form>" ++ nl ++
  nl ++
  "    <div class=" ++ dq ++ "divider" ++ dq ++ "></div>" ++ nl ++
  nl ++
  "    <div class=" ++ dq ++ "help" ++ dq ++ ">" ++ nl ++
  "      <h3><i data-lucide=" ++ dq ++ "info" ++ dq ++ "></i> How to get your token</h3>" ++ nl ++
  "      <ol>" ++ nl ++
  "        <li>Go to <a href=" ++ dq ++ "https://" ++ CANVAS_DOMAIN ++ dq ++ " target=" ++ dq ++ "_blank" ++ dq ++ ">" ++ CANVAS_DOMAIN ++ "</a></li>" ++ nl ++
  "        <li>Click Account in the left sidebar, then Settings</li>" ++ nl ++
  "        <li>Scroll to Approved Integrations</li>" ++ nl ++
  "        <li>Click + New Access Token</li>" ++ nl ++
  "        <li>Enter purpose: ChatGPT</li>" ++ nl ++
  "        <li>Click Generate Token and copy it</li>" ++ nl ++
  "      </ol>" ++ nl ++
  "    </div>" ++ nl ++
  nl ++
  "    <div class=" ++ dq ++ "security" ++ dq ++ ">" ++ nl ++
  "      <i data-lucide=" ++ dq ++ "shield-check" ++ dq ++ "></i>" ++ nl ++
  "      <span>Your token is sent directly to ChatGPT. No data is stored.</span>" ++ nl ++
  "    </div>" ++ nl ++
  "  </div>" ++ nl ++
  "  <footer>Developed with ❤️ by <a href=" ++ dq ++ "https://github.com/nintang/canvas-oauth" ++ dq ++ " target=" ++ dq ++ "_blank" ++ dq ++ ">@nintang</a></footer>" ++ nl ++
  "  <script>lucide.createIcons();</script>" ++ nl ++
  "</body>" ++ nl ++
  "</html>".


Definition getAuthPage (redirectUri state : option string) : string :=
  authPage_head ++ escapeHtml redirectUri ++ authPage_between
    ++ escapeHtml state ++ authPage_tail.

Definition corsHeaders : Headers :=
  [("Access-Control-Allow-Origin", "*");
   ("Access-Control-Allow-Methods", "GET, POST, OPTIONS");
   ("Access-Control-Allow-Headers", "Content-Type")].

Definition jsonHeaders : Headers :=
  ("Content-Type", "application/json") :: corsHeaders.

Definition htmlHeaders : Headers :=
  ("Content-Type", "text/html") :: corsHeaders.

(** Step 1: the authorization page. *)
Definition authorize (request : Request.t) : Completion Response.t :=
  let redirectUri := entries_get "redirect_uri" (Request.searchParams request) in
  let state := entries_get "state" (Request.searchParams request) in
  if falsy redirectUri then
    new_Response (Some "Missing redirect_uri")
      {| init_status := Some 400%Z; init_headers := [] |}
  else
    new_Response (Some (getAuthPage redirectUri state))
      {| init_status := None; init_headers := htmlHeaders |}.

(** Step 2: the form submission. *)
Definition callback (env : Platform) (request : Request.t)
  : Completion Response.t :=
  formData <- Request.formData request ;;
  let token := entries_get "token" formData in
  let redirectUri := entries_get "redirect_uri" formData in
  let state := entries_get "state" formData in
  if falsy token || falsy redirectUri then
    new_Response (Some "Missing token or redirect_uri")
      {| init_status := Some 400%Z; init_headers := [] |}
  else
    let redirectUrl :=
      ToString redirectUri ++ "?code=" ++ encodeURIComponent (ToString token)
        ++ "&state=" ++ encodeURIComponent (or_else state "") in
    Response_redirect env redirectUrl 302.

(** Step 3, first half: where the code is read from. The right injection
    is the early [return] of the [catch] block. *)
Definition read_code (request : Request.t)
  : Completion (JsValue + Response.t) :=
  let contentType :=
    or_else (Headers_get "Content-Type" (Request.headers request)) "" in
  if includes contentType "application/x-www-form-urlencoded" then
    formData <- Request.formData request ;;
    Return (inl (of_nullable (entries_get "code" formData)))
  else if includes contentType "application/json" then
    json <- Request.json request ;;
    code <- get_property json "code" ;;
    Return (inl code)
  else
    match Request.formData request with
    | Return formData =>
        Return (inl (of_nullable (entries_get "code" formData)))
    | Throw _ =>
        r <- new_Response
               (Some (stringify_object
                        [("error", JString "Invalid request format")]))
               {| init_status := Some 400%Z; init_headers := jsonHeaders |} ;;
        Return (inr r)
    end.

(** Step 3: the token exchange. *)
Definition token (request : Request.t) : Completion Response.t :=
  got <- read_code request ;;
  match got with
  | inr response => Return response
  | inl code =>
      if negb (ToBoolean code) then
        new_Response
          (Some (stringify_object [("error", JString "Missing code")]))
          {| init_status := Some 400%Z; init_headers := jsonHeaders |}
      else
        new_Response
          (Some (stringify_object
                   [("access_token", code);
                    ("token_type", JString "Bearer");
                    ("scope", JString "read write")]))
          {| init_status := None; init_headers := jsonHeaders |}
  end.

Section Handler.

(** The platform the Worker runs on. *)
Variable env : Platform.

(** The proxy branch. The body of the upstream call is the last member
    of the object literal: it is awaited before [fetch] is called. *)
Definition proxy (request : Request.t) : Completion Response.t :=
  let authHeader := Headers_get "Authorization" (Request.headers request) in
  if falsy authHeader then
    new_Response
      (Some (stringify_object
               [("error", JString "Missing Authorization header")]))
      {| init_status := Some 401%Z; init_headers := jsonHeaders |}
  else
    let canvasUrl :=
      "https://" ++ CANVAS_DOMAIN ++ Request.pathname request
        ++ Request.search request in
    body <-
      (if negb (Request.method request =? "GET")
          && negb (Request.method request =? "HEAD")
       then text <- Request.text request ;; Return (Some text)
       else Return None) ;;
    canvasResponse <-
      global_fetch env
        {| call_url := canvasUrl;
           call_method := Request.method request;
           call_headers :=
             [("Authorization", ToString authHeader);
              ("Content-Type",
               or_else (Headers_get "Content-Type" (Request.headers request))
                 "application/json")];
           call_body := body |} ;;
    responseBody <- Upstream.text canvasResponse ;;
    new_Response (Some responseBody)
      {| init_status := Some (Upstream.status canvasResponse);
         init_headers :=
           ("Content-Type",
            or_else (Headers_get "Content-Type"
                       (Upstream.headers canvasResponse))
              "application/json") :: corsHeaders |}.

(** The exported handler. *)
Definition fetch (request : Request.t) : Completion Response.t :=
  if Request.method request =? "OPTIONS" then
    new_Response None {| init_status := None; init_headers := corsHeaders |}
  else if (Request.pathname request =? "/")
          || (Request.pathname request =? "") then
    new_Response (Some getHomePage)
      {| init_status := None; init_headers := htmlHeaders |}
  else if Request.pathname request =? "/authorize" then
    authorize request
  else if (Request.pathname request =? "/callback")
          && (Request.method request =? "POST") then
    callback env request
  else if (Request.pathname request =? "/token")
          && (Request.method request =? "POST") then
    token request
  else if startsWith (Request.pathname request) "/api/v1/" then
    proxy request
  else
    new_Response (Some "Not found")
      {| init_status := Some 404%Z; init_headers := corsHeaders |}.

End Handler.

End Index.

(** ** The earlier copy of the dispatcher (file name not recorded) *)

Module Part000.
Import JS Web.

Definition SCHOOL_NAME : string := "Grambling State University".
Definition CANVAS_DOMAIN : string := "grambling.instructure.com".

Definition getHomePage : string :=
  "<!DOCTYPE html>" ++ nl ++
  "<html lang=" ++ dq ++ "en" ++ dq ++ ">" ++ nl ++
  "<head>" ++ nl ++
  "  <meta charset=" ++ dq ++ "UTF-8" ++ dq ++ ">" ++ nl ++
  "  <meta name=" ++ dq ++ "viewport" ++ dq ++ " content=" ++ dq ++ "width=device-width, initial-scale=1.0" ++ dq ++ ">" ++ nl ++
  "  <title>Canvas GPT - " ++ SCHOOL_NAME ++ "</title>" ++ nl ++
  "  <style>" ++ nl ++
  "    * { box-sizing: border-box; margin: 0; padding: 0; }" ++ nl ++
  "    body {" ++ nl ++
  "      font-family: -apple-system, BlinkMacSystemFont, " ++ dq ++ "Segoe UI" ++ dq ++ ", Roboto, sans-serif;" ++ nl ++
  "      background: linear-gradient(135deg, #1a1a2e 0%, #16213e 100%);" ++ nl ++
  "      min-height: 100vh;" ++ nl ++
  "      display: flex;" ++ nl ++
  "      align-items: center;" ++ nl ++
  "      justify-content: center;" ++ nl ++
  "      padding: 20px;" ++ nl ++
  "      color: #fff;" ++ nl ++
  "    }" ++ nl ++
  "    .container {" ++ nl ++
  "      background: rgba(255,255,255,0.1);" ++ nl ++
  "      backdrop-filter: blur(10px);" ++ nl ++
  "      border-radius: 20px;" ++ nl ++
  "      padding: 40px;" ++ nl ++
  "      max-width: 500px;" ++ nl ++
  "      width: 100%;" ++ nl ++
  "      text-align: center;" ++ nl ++
  "      border: 1px solid rgba(255,255,255,0.2);" ++ nl ++
  "    }" ++ nl ++
  "    h1 { margin-bottom: 10px; font-size: 28px; }" ++ nl ++
  "    .school { color: #ffd700; margin-bottom: 20px; }" ++ nl ++
  "    p { color: #ccc; line-height: 1.6; margin-bottom: 20px; }" ++ nl ++
  "    .info-box {" ++ nl ++
  "      background: rgba(255,255,255,0.1);" ++ nl ++
  "      border-radius: 10px;" ++ nl ++
  "      padding: 20px;" ++ nl ++
  "      text-align: left;" ++ nl ++
  "      margin-top: 20px;" ++ nl ++
  "    }" ++ nl ++
  "    .info-box h3 { margin-bottom: 10px; color: #ffd700; }" ++ nl ++
  "    .info-box ol { padding-left: 20px; }" ++ nl ++
  "    .info-box li { margin-bottom: 8px; color: #ddd; }" ++ nl ++
  "  </style>" ++ nl ++
  "</head>" ++ nl ++
  "<body>" ++ nl ++
  "  <div class=" ++ dq ++ "container" ++ dq ++ ">" ++ nl ++
  "    <h1>🎓 Canvas GPT</h1>" ++ nl ++
  "    <p class=" ++ dq ++ "school" ++ dq ++ ">" ++ SCHOOL_NAME ++ "</p>" ++ nl ++
  "    <p>This service connects ChatGPT to your Canvas account.</p>" ++ nl ++
  "    <p>To use it, open the Canvas GPT in ChatGPT and click " ++ dq ++ "Sign in" ++ dq ++ ".</p>" ++ nl ++
  "    " ++ nl ++
  "    <div class=" ++ dq ++ "info-box" ++ dq ++ ">" ++ nl ++
  "      <h3>How it works:</h3>" ++ nl ++
  "      <ol>" ++ nl ++
  "        <li>Open Canvas GPT in ChatGPT</li>" ++ nl ++
  "        <li>Click " ++ dq ++ "Sign in" ++ dq ++ " when prompted</li>" ++ nl ++
  "        <li>Paste your Canvas access token</li>" ++ nl ++
  "        <li>Start managing your courses!</li>" ++ nl ++
  "      </ol>" ++ nl ++
  "    </div>" ++ nl ++
  "    " ++ nl ++
  "    <div class=" ++ dq ++ "info-box" ++ dq ++ ">" ++ nl ++
  "      <h3>🔒 Privacy:</h3>" ++ nl ++
  "      <p>Your token is sent directly to ChatGPT. This page does not store any data.</p>" ++ nl ++
  "    </div>" ++ nl ++
  "  </div>" ++ nl ++
  "</body>" ++ nl ++
  "</html>".

(** The template of [getAuthPage], cut at its two interpolated values. *)
Definition authPage_head : string :=
  "<!DOCTYPE html>" ++ nl ++
  "<html lang=" ++ dq ++ "en" ++ dq ++ ">" ++ nl ++
  "<head>" ++ nl ++
  "  <meta charset=" ++ dq ++ "UTF-8" ++ dq ++ ">" ++ nl ++
  "  <meta name=" ++ dq ++ "viewport" ++ dq ++ " content=" ++ dq ++ "width=device-width, initial-scale=1.0" ++ dq ++ ">" ++ nl ++
  "  <title>Connect to Canvas - " ++ SCHOOL_NAME ++ "</title>" ++ nl ++
  "  <style>" ++ nl ++
  "    * { box-sizing: border-box; margin: 0; padding: 0; }" ++ nl ++
  "    body {" ++ nl ++
  "      font-family: -apple-system, BlinkMacSystemFont, " ++ dq ++ "Segoe UI" ++ dq ++ ", Roboto, sans-serif;" ++ nl ++
  "      background: linear-gradient(135deg, #1a1a2e 0%, #16213e 100%);" ++ nl ++
  "      min-height: 100vh;" ++ nl ++
  "      display: flex;" ++ nl ++
  "      align-items: center;" ++ nl ++
  "      justify-content: center;" ++ nl ++
  "      padding: 20px;" ++ nl ++
  "      color: #fff;" ++ nl ++
  "    }" ++ nl ++
  "    .container {" ++ nl ++
  "      background: rgba(255,255,255,0.1);" ++ nl ++
  "      backdrop-filter: blur(10px);" ++ nl ++
  "      border-radius: 20px;" ++ nl ++
  "      padding: 40px;" ++ nl ++
  "      max-width: 500px;" ++ nl ++
  "      width: 100%;" ++ nl ++
  "      border: 1px solid rgba(255,255,255,0.2);" ++ nl ++
  "    }" ++ nl ++
  "    h1 { text-align: center; margin-bottom: 10px; font-size: 24px; }" ++ nl ++
  "    .school { text-align: center; color: #ffd700; margin-bottom: 30px; }" ++ nl ++
  "    label { display: block; margin-bottom: 8px; font-weight: 500; }" ++ nl ++
  "    input[type=" ++ dq ++ "password" ++ dq ++ "] {" ++ nl ++
  "      width: 100%;" ++ nl ++
  "      padding: 15px;" ++ nl ++
  "      border: 2px solid rgba(255,255,255,0.3);" ++ nl ++
  "      border-radius: 10px;" ++ nl ++
  "      background: rgba(255,255,255,0.1);" ++ nl ++
  "      color: #fff;" ++ nl ++
  "      font-size: 16px;" ++ nl ++
  "      margin-bottom: 20px;" ++ nl ++
  "    }" ++ nl ++
  "    input[type=" ++ dq ++ "password" ++ dq ++ "]:focus {" ++ nl ++
  "      outline: none;" ++ nl ++
  "      border-color: #ffd700;" ++ nl ++
  "    }" ++ nl ++
  "    input[type=" ++ dq ++ "password" ++ dq ++ "]::placeholder { color: #888; }" ++ nl ++
  "    button {" ++ nl ++
  "      width: 100%;" ++ nl ++
  "      padding: 15px;" ++ nl ++
  "      background: #ffd700;" ++ nl ++
  "      color: #1a1a2e;" ++ nl ++
  "      border: none;" ++ nl ++
  "      border-radius: 10px;" ++ nl ++
  "      font-size: 18px;" ++ nl ++
  "      font-weight: 600;" ++ nl ++
  "      cursor: pointer;" ++ nl ++
  "      transition: transform 0.2s, box-shadow 0.2s;" ++ nl ++
  "    }" ++ nl ++
  "    button:hover {" ++ nl ++
  "      transform: translateY(-2px);" ++ nl ++
  "      box-shadow: 0 5px 20px rgba(255,215,0,0.4);" ++ nl ++
  "    }" ++ nl ++
  "    .help {" ++ nl ++
  "      background: rgba(255,255,255,0.1);" ++ nl ++
  "      border-radius: 10px;" ++ nl ++
  "      padding: 20px;" ++ nl ++
  "      margin-top: 25px;" ++ nl ++
  "    }" ++ nl ++
  "    .help h3 { margin-bottom: 12px; color: #ffd700; font-size: 16px; }" ++ nl ++
  "    .help ol { padding-left: 20px; }" ++ nl ++
  "    .help li { margin-bottom: 8px; color: #ccc; font-size: 14px; line-height: 1.5; }" ++ nl ++
  "    .help a { color: #ffd700; }" ++ nl ++
  "    .security {" ++ nl ++
  "      margin-top: 20px;" ++ nl ++
  "      padding: 15px;" ++ nl ++
  "      background: rgba(0,255,0,0.1);" ++ nl ++
  "      border-radius: 10px;" ++ nl ++
  "      font-size: 13px;" ++ nl ++
  "      color: #8f8;" ++ nl ++
  "      text-align: center;" ++ nl ++
  "    }" ++ nl ++
  "  </style>" ++ nl ++
  "</head>" ++ nl ++
  "<body>" ++ nl ++
  "  <div class=" ++ dq ++ "container" ++ dq ++ ">" ++ nl ++
  "    <h1>🔐 Connect to Canvas</h1>" ++ nl ++
  "    <p class=" ++ dq ++ "school" ++ dq ++ ">" ++ SCHOOL_NAME ++ "</p>" ++ nl ++
  "    " ++ nl ++
  "    <form action=" ++ dq ++ "/callback" ++ dq ++ " method=" ++ dq ++ "POST" ++ dq ++ ">" ++ nl ++
  "      <input type=" ++ dq ++ "hidden" ++ dq ++ " name=" ++ dq ++ "redirect_uri" ++ dq ++ " value=" ++ dq.

Definition authPage_between : string :=
  dq ++ ">" ++ nl ++
  "      <input type=" ++ dq ++ "hidden" ++ dq ++ " name=" ++ dq ++ "state" ++ dq ++ " value=" ++ dq.

Definition authPage_tail : string :=
  dq ++ ">" ++ nl ++
  "      " ++ nl ++
  "      <label for=" ++ dq ++ "token" ++ dq ++ ">Canvas Access Token</label>" ++ nl ++
  "      <input " ++ nl ++
  "        type=" ++ dq ++ "password" ++ dq ++ " " ++ nl ++
  "        id=" ++ dq ++ "token" ++ dq ++ " " ++ nl ++
  "        name=" ++ dq ++ "token" ++ dq ++ " " ++ nl ++
  "        placeholder=" ++ dq ++ "Paste your token here" ++ dq ++ " " ++ nl ++
  "        required" ++ nl ++
  "        autocomplete=" ++ dq ++ "off" ++ dq ++ nl ++
  "      >" ++ nl ++
  "      " ++ nl ++
  "      <button type=" ++ dq ++ "submit" ++ dq ++ ">Connect to Canvas</button>" ++ nl ++
  "    </form>" ++ nl ++
  "    " ++ nl ++
  "    <div class=" ++ dq ++ "help" ++ dq ++ ">" ++ nl ++
  "      <h3>📋 How to get your token:</h3>" ++ nl ++
  "      <ol>" ++ nl ++
  "        <li>Go to <a href=" ++ dq ++ "https://" ++ CANVAS_DOMAIN ++ dq ++ " target=" ++ dq ++ "_blank" ++ dq ++ ">" ++ CANVAS_DOMAIN ++ "</a></li>" ++ nl ++
  "        <li>Click <strong>Account</strong> (left sidebar) → <strong>Settings</strong></li>" ++ nl ++
  "        <li>Scroll to <strong>Approved Integrations</strong></li>" ++ nl ++
  "        <li>Click <strong>+ New Access Token</strong></li>" ++ nl ++
  "        <li>Enter purpose: <strong>ChatGPT</strong></li>" ++ nl ++
  "        <li>Click <strong>Generate Token</strong></li>" ++ nl ++
  "        <li>Copy the token and paste it above</li>" ++ nl ++
  "      </ol>" ++ nl ++
  "    </div>" ++ nl ++
  "    " ++ nl ++
  "    <div class=" ++ dq ++ "security" ++ dq ++ ">" ++ nl ++
  "      🔒 Your token is sent directly to ChatGPT. This page does not store any data." ++ nl ++
  "    </div>" ++ nl ++
  "  </div>" ++ nl ++
  "</body>" ++ nl ++
  "</html>".


(** Here the two values are interpolated as they are: [redirectUri || ""]
    and [state || ""]. *)
Definition getAuthPage (redirectUri state : option string) : string :=
  authPage_head ++ or_else redirectUri "" ++ authPage_between
    ++ or_else state "" ++ authPage_tail.

Definition corsHeaders : Headers :=
  [("Access-Control-Allow-Origin", "*");
   ("Access-Control-Allow-Methods", "GET, POST, OPTIONS");
   ("Access-Control-Allow-Headers", "Content-Type")].

Definition jsonHeaders : Headers :=
  ("Content-Type", "application/json") :: corsHeaders.

Definition htmlHeaders : Headers :=
  ("Content-Type", "text/html") :: corsHeaders.

(** Step 1: the authorization page. *)
Definition authorize (request : Request.t) : Completion Response.t :=
  let redirectUri := entries_get "redirect_uri" (Request.searchParams request) in
  let state := entries_get "state" (Request.searchParams request) in
  if falsy redirectUri then
    new_Response (Some "Missing redirect_uri")
      {| init_status := Some 400%Z; init_headers := [] |}
  else
    new_Response (Some (getAuthPage redirectUri state))
      {| init_status := None; init_headers := htmlHeaders |}.

(** Step 2: the form submission. *)
Definition callback (env : Platform) (request : Request.t)
  : Completion Response.t :=
  formData <- Request.formData request ;;
  let token := entries_get "token" formData in
  let redirectUri := entries_get "redirect_uri" formData in
  let state := entries_get "state" formData in
  if falsy token || falsy redirectUri then
    new_Response (Some "Missing token or redirect_uri")
      {| init_status := Some 400%Z; init_headers := [] |}
  else
    let redirectUrl :=
      ToString redirectUri ++ "?code=" ++ encodeURIComponent (ToString token)
        ++ "&state=" ++ encodeURIComponent (or_else state "") in
    Response_redirect env redirectUrl 302.

(** Step 3, first half: where the code is read from. The right injection
    is the early [return] of the [catch] block. *)
Definition read_code (request : Request.t)
  : Completion (JsValue + Response.t) :=
  let contentType :=
    or_else (Headers_get "Content-Type" (Request.headers request)) "" in
  if includes contentType "application/x-www-form-urlencoded" then
    formData <- Request.formData request ;;
    Return (inl (of_nullable (entries_get "code" formData)))
  else if includes contentType "application/json" then
    json <- Request.json request ;;
    code <- get_property json "code" ;;
    Return (inl code)
  else
    match Request.formData request with
    | Return formData =>
        Return (inl (of_nullable (entries_get "code" formData)))
    | Throw _ =>
        r <- new_Response
               (Some (stringify_object
                        [("error", JString "Invalid request format")]))
               {| init_status := Some 400%Z; init_headers := jsonHeaders |} ;;
        Return (inr r)
    end.

(** Step 3: the token exchange. *)
Definition token (request : Request.t) : Completion Response.t :=
  got <- read_code request ;;
  match got with
  | inr response => Return response
  | inl code =>
      if negb (ToBoolean code) then
        new_Response
          (Some (stringify_object [("error", JString "Missing code")]))
          {| init_status := Some 400%Z; init_headers := jsonHeaders |}
      else
        new_Response
          (Some (stringify_object
                   [("access_token", code);
                    ("token_type", JString "Bearer");
                    ("scope", JString "read write")]))
          {| init_status := None; init_headers := jsonHeaders |}
  end.

(** The exported handler: no proxy branch. *)
Definition fetch (env : Platform) (request : Request.t)
  : Completion Response.t :=
  if Request.method request =? "OPTIONS" then
    new_Response None {| init_status := None; init_headers := corsHeaders |}
  else if (Request.pathname request =? "/")
          || (Request.pathname request =? "") then
    new_Response (Some getHomePage)
      {| init_status := None; init_headers := htmlHeaders |}
  else if Request.pathname request =? "/authorize" then
    authorize request
  else if (Request.pathname request =? "/callback")
          && (Request.method request =? "POST") then
    callback env request
  else if (Request.pathname request =? "/token")
          && (Request.method request =? "POST") then
    token request
  else
    new_Response (Some "Not found")
      {| init_status := Some 404%Z; init_headers := corsHeaders |}.

End Part000.

(** ** What a client reads back from a response

    The written specification speaks of HTML-decoding the hidden fields,
    URL-decoding the [code] query parameter, and of the JSON value of
    [access_token]. These readers follow the specification's words; they
    are the browser's and the calling client's side, not the Worker's. *)

Module Client.
Import JS Web.

(** [s] without its prefix [p], when [p] is a prefix of [s]. *)
Fixpoint strip_prefix (p s : string) : option string :=
  match p with
  | EmptyString => Some s
  | String a p' =>
      match s with
      | String b s' => if Ascii.eqb a b then strip_prefix p' s' else None
      | EmptyString => None
      end
  end.

(** The text after the first occurrence of [marker]. *)
Fixpoint after (marker s : string) : option string :=
  match strip_prefix marker s with
  | Some rest => Some rest
  | None =>
      match s with
      | EmptyString => None
      | String _ rest => after marker rest
      end
  end.

(** The characters before the first [c]. *)
Fixpoint upto (c : ascii) (s : string) : string :=
  match s with
  | EmptyString => EmptyString
  | String x rest => if Ascii.eqb x c then EmptyString else String x (upto c rest)
  end.

(** The characters after the first [c], if there is one. *)
Fixpoint behind (c : ascii) (s : string) : option string :=
  match s with
  | EmptyString => None
  | String x rest => if Ascii.eqb x c then Some rest else behind c rest
  end.

(** The opening of a hidden input named [name], up to the quote that
    opens its value. *)
Definition hidden_marker (name : string) : string :=
  "<input type=" ++ dq ++ "hidden" ++ dq ++ " name=" ++ dq ++ name ++ dq
    ++ " value=" ++ dq.

(** The raw [value] attribute of the first hidden input named [name]:
    everything up to the closing quote. *)
Definition hiddenValue (name page : string) : option string :=
  option_map (upto (ascii_of_nat 34)) (after (hidden_marker name) page).

(** HTML-decoding of an attribute value: the four character references
    [escapeHtml] writes. [skip] counts characters of a reference still to
    be passed over. *)
Fixpoint htmlDecode_from (skip : nat) (s : string) : string :=
  match s with
  | EmptyString => EmptyString
  | String c rest =>
      match skip with
      | S k => htmlDecode_from k rest
      | O =>
          if Ascii.eqb c "&" then
            if startsWith rest "amp;"
            then String "&" (htmlDecode_from 4 rest)
            else if startsWith rest "quot;"
            then String (ascii_of_nat 34) (htmlDecode_from 5 rest)
            else if startsWith rest "lt;"
            then String "<" (htmlDecode_from 3 rest)
            else if startsWith rest "gt;"
            then String ">" (htmlDecode_from 3 rest)
            else String c (htmlDecode_from 0 rest)
          else String c (htmlDecode_from 0 rest)
      end
  end.

Definition htmlDecode (s : string) : string := htmlDecode_from 0 s.

(** The value of a hexadecimal digit, in either case. *)
Definition unhex (c : ascii) : option nat :=
  let n := nat_of_ascii c in
  if in_range "0" "9" c then Some (n - 48)
  else if in_range "A" "F" c then Some (n - 55)
  else if in_range "a" "f" c then Some (n - 87)
  else None.

(** Percent-decoding, as [decodeURIComponent] does it: [%XX] is the byte
    [XX]; a [%] not followed by two digits is an error ([None]). *)
Fixpoint decodeURIComponent_from (skip : nat) (s : string) : option string :=
  match s with
  | EmptyString => Some EmptyString
  | String c rest =>
      match skip with
      | S k => decodeURIComponent_from k rest
      | O =>
          if Ascii.eqb c "%" then
            match rest with
            | String h (String l _) =>
                match unhex h, unhex l with
                | Some a, Some b =>
                    option_map (String (ascii_of_nat (16 * a + b)))
                      (decodeURIComponent_from 2 rest)
                | _, _ => None
                end
            | _ => None
            end
          else option_map (String c) (decodeURIComponent_from 0 rest)
      end
  end.

Definition decodeURIComponent (s : string) : option string :=
  decodeURIComponent_from 0 s.

(** The pieces of [s] between occurrences of [c]. *)
Fixpoint split (c : ascii) (s : string) : list string :=
  match s with
  | EmptyString => [EmptyString]
  | String x rest =>
      if Ascii.eqb x c then EmptyString :: split c rest
      else match split c rest with
           | [] => [String x EmptyString]
           | piece :: pieces => String x piece :: pieces
           end
  end.

(** The query component of a URL: what stands after the first [?] of the
    part before the first [#]. *)
Definition url_query (url : string) : option string :=
  behind "?" (upto "#" url).

(** One [name=value] piece of a query, cut at its first [=]. *)
Definition query_pair (piece : string) : string * string :=
  (upto "=" piece,
   match behind "=" piece with
   | Some v => v
   | None => EmptyString
   end).

(** The raw value of the first query parameter named [name]. *)
Definition queryParam (name url : string) : option string :=
  match url_query url with
  | None => None
  | Some q => entries_get name (map query_pair (split "&" q))
  end.

(** Reading a JSON string literal: the text after the opening quote, up to
    the closing quote, with the escapes [QuoteJSONString] writes undone.
    Returns the value and what follows the closing quote. *)
Fixpoint read_json_chars (skip : nat) (s : string) : option (string * string) :=
  match s with
  | EmptyString => None
  | String c rest =>
      match skip with
      | S k => read_json_chars k rest
      | O =>
          if Ascii.eqb c (ascii_of_nat 34) then Some (EmptyString, rest)
          else if Ascii.eqb c "\" then
            match rest with
            | String e rest1 =>
                let emit (x : ascii) (n : nat) :=
                  match read_json_chars n rest with
                  | Some (v, r) => Some (String x v, r)
                  | None => None
                  end in
                if Ascii.eqb e (ascii_of_nat 34) then emit e 1
                else if Ascii.eqb e "\" then emit e 1
                else if Ascii.eqb e "/" then emit e 1
                else if Ascii.eqb e "b" then emit (ascii_of_nat 8) 1
                else if Ascii.eqb e "t" then emit (ascii_of_nat 9) 1
                else if Ascii.eqb e "n" then emit (ascii_of_nat 10) 1
                else if Ascii.eqb e "f" then emit (ascii_of_nat 12) 1
                else if Ascii.eqb e "r" then emit (ascii_of_nat 13) 1
                else if Ascii.eqb e "u" then
                  match rest1 with
                  | String "0" (String "0" (String h (String l _))) =>
                      match unhex h, unhex l with
                      | Some a, Some b =>
                          if (16 * a + b <? 128)%nat
                          then emit (ascii_of_nat (16 * a + b)) 5
                          else None
                      | _, _ => None
                      end
                  | _ => None
                  end
                else None
            | EmptyString => None
            end
          else
            match read_json_chars 0 rest with
            | Some (v, r) => Some (String c v, r)
            | None => None
            end
      end
  end.

Definition read_json_string (s : string) : option (string * string) :=
  match s with
  | String c rest =>
      if Ascii.eqb c (ascii_of_nat 34) then read_json_chars 0 rest else None
  | EmptyString => None
  end.

(** The three permissive cross-origin headers, read the way a browser
    reads response headers. *)
Definition carries_cors (r : Response.t) : bool :=
  match Headers_get "Access-Control-Allow-Origin" (Response.headers r),
        Headers_get "Access-Control-Allow-Methods" (Response.headers r),
        Headers_get "Access-Control-Allow-Headers" (Response.headers r) with
  | Some o, Some m, Some h =>
      (o =? "*") && (m =? "GET, POST, OPTIONS") && (h =? "Content-Type")
  | _, _, _ => false
  end.

(** No cross-origin header at all. *)
Definition lacks_cors (r : Response.t) : bool :=
  match Headers_get "Access-Control-Allow-Origin" (Response.headers r),
        Headers_get "Access-Control-Allow-Methods" (Response.headers r),
        Headers_get "Access-Control-Allow-Headers" (Response.headers r) with
  | None, None, None => true
  | _, _, _ => false
  end.

(** A plain-text body: the content type a string body gets by default. *)
Definition is_plain_text (r : Response.t) : bool :=
  match Headers_get "Content-Type" (Response.headers r) with
  | Some ct => startsWith ct "text/plain"
  | None => false
  end.

End Client.

(** ** Sides of the contract the statements below refer to *)

Module Contract.
Import JS Web.

(** [request.headers.get("Content-Type") || ""]. *)
Definition contentType (request : Request.t) : string :=
  or_else (Headers_get "Content-Type" (Request.headers request)) "".

Definition plainText : Headers :=
  [("Content-Type", "text/plain;charset=UTF-8")].

(** The plain-text rejection carrying [msg]. *)
Definition plain400 (msg : string) : Response.t :=
  Response.mk 400 plainText (Some msg).

(** The JSON error [{"error": msg}] with status [st]. *)
Definition json_error (st : Z) (msg : string) : Response.t :=
  Response.mk st Index.jsonHeaders
    (Some (stringify_object [("error", JString msg)])).

(** The token document for the credential [t]. *)
Definition token_json (t : string) : string :=
  stringify_object
    [("access_token", JString t);
     ("token_type", JString "Bearer");
     ("scope", JString "read write")].

Definition token_response (t : string) : Response.t :=
  Response.mk 200 Index.jsonHeaders (Some (token_json t)).

(** What follows the access token in the token document. *)
Definition token_json_rest : string :=
  "," ++ QuoteJSONString "token_type" ++ ":" ++ QuoteJSONString "Bearer"
    ++ "," ++ QuoteJSONString "scope" ++ ":" ++ QuoteJSONString "read write"
    ++ "}".

Definition preflight : Response.t :=
  Response.mk 200 Index.corsHeaders None.

Definition not_found : Response.t :=
  Response.mk 404 (Index.corsHeaders ++ plainText)%list (Some "Not found").

(** The 200 response that serves the HTML document [page]. *)
Definition html_page (page : string) : Response.t :=
  Response.mk 200 Index.htmlHeaders (Some page).

(** The redirect that hands the credential back. *)
Definition redirect_to (url : string) : Response.t :=
  Response.mk 302 [("Location", url)] None.

(** A token request carries [code = t]: in a form body, in a JSON body,
    or in a body of another content type that still parses as a form. *)
Inductive CarriesCode (request : Request.t) (t : string) : Prop :=
| code_in_form (fd : list (string * string)) :
    includes (contentType request) "application/x-www-form-urlencoded" = true ->
    Request.formData request = Return fd ->
    entries_get "code" fd = Some t ->
    CarriesCode request t
| code_in_json (props : list (string * JsValue)) :
    includes (contentType request) "application/x-www-form-urlencoded" = false ->
    includes (contentType request) "application/json" = true ->
    Request.json request = Return (JObject props) ->
    props_get "code" props = JString t ->
    CarriesCode request t
| code_in_fallback (fd : list (string * string)) :
    includes (contentType request) "application/x-www-form-urlencoded" = false ->
    includes (contentType request) "application/json" = false ->
    Request.formData request = Return fd ->
    entries_get "code" fd = Some t ->
    CarriesCode request t.

(** A token request whose body was read and holds no [code]. *)
Inductive NoCode (request : Request.t) : Prop :=
| no_code_in_form (fd : list (string * string)) :
    includes (contentType request) "application/x-www-form-urlencoded" = true ->
    Request.formData request = Return fd ->
    entries_get "code" fd = None ->
    NoCode request
| no_code_in_json (v : JsValue) :
    includes (contentType request) "application/x-www-form-urlencoded" = false ->
    includes (contentType request) "application/json" = true ->
    Request.json request = Return v ->
    get_property v "code" = Return JUndefined ->
    NoCode request
| no_code_in_fallback (fd : list (string * string)) :
    includes (contentType request) "application/x-www-form-urlencoded" = false ->
    includes (contentType request) "application/json" = false ->
    Request.formData request = Return fd ->
    entries_get "code" fd = None ->
    NoCode request.

(** The required-input failures and the client error each one earns. *)
Inductive RequiredInputFailure : Request.t -> Response.t -> Prop :=
| missing_redirect_uri request :
    Request.method request = "GET" ->
    Request.pathname request = "/authorize" ->
    entries_get "redirect_uri" (Request.searchParams request) = None ->
    RequiredInputFailure request (plain400 "Missing redirect_uri")
| missing_form_field request fd :
    Request.method request = "POST" ->
    Request.pathname request = "/callback" ->
    Request.formData request = Return fd ->
    entries_get "token" fd = None \/ entries_get "redirect_uri" fd = None ->
    RequiredInputFailure request (plain400 "Missing token or redirect_uri")
| missing_code request :
    Request.method request = "POST" ->
    Request.pathname request = "/token" ->
    NoCode request ->
    RequiredInputFailure request (json_error 400 "Missing code")
| invalid_format request e :
    Request.method request = "POST" ->
    Request.pathname request = "/token" ->
    includes (contentType request) "application/x-www-form-urlencoded" = false ->
    includes (contentType request) "application/json" = false ->
    Request.formData request = Throw e ->
    RequiredInputFailure request (json_error 400 "Invalid request format").

(** A required value that is present and empty, with the response the
    same request earns when the value is absent. *)
Inductive EmptyRequiredInput : Request.t -> Response.t -> Prop :=
| empty_redirect_uri request :
    Request.method request = "GET" ->
    Request.pathname request = "/authorize" ->
    entries_get "redirect_uri" (Request.searchParams request) = Some "" ->
    EmptyRequiredInput request (plain400 "Missing redirect_uri")
| empty_form_field request fd :
    Request.method request = "POST" ->
    Request.pathname request = "/callback" ->
    Request.formData request = Return fd ->
    entries_get "token" fd = Some "" \/ entries_get "redirect_uri" fd = Some "" ->
    EmptyRequiredInput request (plain400 "Missing token or redirect_uri")
| empty_code request :
    Request.method request = "POST" ->
    Request.pathname request = "/token" ->
    CarriesCode request "" ->
    EmptyRequiredInput request (json_error 400 "Missing code").

(** The body the proxy branch sends upstream: none under [GET] and
    [HEAD], otherwise the text of the request's body. *)
Definition forwarded_body (request : Request.t) : Completion (option string) :=
  if (Request.method request =? "GET") || (Request.method request =? "HEAD")
  then Return None
  else bytes <- Request.body request ;; Return (Some (utf8_decode bytes)).

(** The call the proxy branch makes upstream for a request whose
    [Authorization] header reads [a]: the fixed host, the request's path,
    query string and method, the body [body], and two headers. *)
Definition upstream_call (request : Request.t) (a : string)
  (body : option string) : FetchCall :=
  {| call_url :=
       "https://grambling.instructure.com" ++ Request.pathname request
         ++ Request.search request;
     call_method := Request.method request;
     call_headers :=
       [("Authorization", a);
        ("Content-Type",
         or_else (Headers_get "Content-Type" (Request.headers request))
           "application/json")];
     call_body := body |}.

(** What the proxy branch hands back for the upstream answer [up] whose
    body delivered [bytes]: the status, the content type, the
    cross-origin headers, and the text of the body, or no body on a
    null-body status. *)
Definition relayed (up : Upstream.t) (bytes : string) : Response.t :=
  Response.mk (Upstream.status up)
    (("Content-Type",
      or_else (Headers_get "Content-Type" (Upstream.headers up))
        "application/json") :: Index.corsHeaders)
    (if null_body_status (Upstream.status up) then None
     else Some (utf8_decode bytes)).

(** Well-formed UTF-8, after table 3-7 of the Unicode standard. *)
Definition second_of_three (b c : ascii) : bool :=
  (byte_in 224 224 b && byte_in 160 191 c)
  || (byte_in 225 236 b && byte_in 128 191 c)
  || (byte_in 237 237 b && byte_in 128 159 c)
  || (byte_in 238 239 b && byte_in 128 191 c).

Definition second_of_four (b c : ascii) : bool :=
  (byte_in 240 240 b && byte_in 144 191 c)
  || (byte_in 241 243 b && byte_in 128 191 c)
  || (byte_in 244 244 b && byte_in 128 143 c).

Inductive WellFormed : string -> Prop :=
| wf_end : WellFormed EmptyString
| wf_one b s :
    byte_in 0 127 b = true ->
    WellFormed s -> WellFormed (String b s)
| wf_two b c s :
    byte_in 194 223 b = true -> byte_in 128 191 c = true ->
    WellFormed s -> WellFormed (String b (String c s))
| wf_three b c d s :
    second_of_three b c = true -> byte_in 128 191 d = true ->
    WellFormed s -> WellFormed (String b (String c (String d s)))
| wf_four b c d e s :
    second_of_four b c = true -> byte_in 128 191 d = true ->
    byte_in 128 191 e = true ->
    WellFormed s -> WellFormed (String b (String c (String d (String e s)))).

(** The bytes the URL parser escapes in a query: the controls, the
    space, the quotation mark, [#], [<], [>] and everything beyond ASCII,
    and the apostrophe as well under a special scheme such as [https]. *)
Definition query_escaped (special : bool) (c : ascii) : bool :=
  byte_in 0 32 c || byte_in 127 255 c
  || existsb (Ascii.eqb c) [ascii_of_nat 34; "#"; "<"; ">"]%char
  || (special && Ascii.eqb c "'").

Fixpoint query_percent_encode (special : bool) (s : string) : string :=
  match s with
  | EmptyString => EmptyString
  | String c rest =>
      if query_escaped special c
      then String "%" (hex2 true c ++ query_percent_encode special rest)
      else String c (query_percent_encode special rest)
  end.

(** [href] keeps the query of [url]: its query is that of [url], escaped
    the way the URL parser escapes a query. What the parser makes of
    scheme, host and path is left open. *)
Definition keeps_query (url href : string) : Prop :=
  exists (q : string) (special : bool),
    Client.url_query url = Some q /\
    Client.url_query href = Some (query_percent_encode special q).

(** The same request with another method. *)
Definition with_method (m : string) (request : Request.t) : Request.t :=
  Request.mk m (Request.pathname request) (Request.search request)
    (Request.searchParams request) (Request.headers request)
    (Request.body request) (Request.formData request) (Request.json request).

End Contract.

(** ** Scanning support: occurrences of characters and markers *)

Module Scan.
Import JS Client.

Fixpoint char_free (c : ascii) (s : string) : bool :=
  match s with
  | EmptyString => true
  | String x rest => negb (Ascii.eqb x c) && char_free c rest
  end.

(** The image of one character under [escapeHtml]. *)
Definition escape_char (c : ascii) : string :=
  if Ascii.eqb c "&" then "&amp;"
  else if Ascii.eqb c (ascii_of_nat 34) then "&quot;"
  else if Ascii.eqb c "<" then "&lt;"
  else if Ascii.eqb c ">" then "&gt;"
  else String c EmptyString.

Fixpoint escape_chars (s : string) : string :=
  match s with
  | EmptyString => EmptyString
  | String c rest => escape_char c ++ escape_chars rest
  end.

(** [marker] and [t] agree as far as the shorter of them goes. *)
Fixpoint compatible (marker t : string) : bool :=
  match marker, t with
  | String a m', String b t' => Ascii.eqb a b && compatible m' t'
  | _, _ => true
  end.

(** No occurrence of [marker] starts inside [p], whatever follows [p]. *)
Fixpoint no_overlap (marker p : string) : bool :=
  match p with
  | EmptyString => true
  | String _ rest => negb (compatible marker p) && no_overlap marker rest
  end.

(** In [a ++ marker] the marker occurs first at the very end. *)
Fixpoint first_at_end (marker a : string) : bool :=
  match a with
  | EmptyString => true
  | String _ rest =>
      match strip_prefix marker (a ++ marker) with
      | None => first_at_end marker rest
      | Some _ => false
      end
  end.

(** [s] without its last [n] characters. *)
Definition chop (n : nat) (s : string) : string :=
  substring 0 (String.length s - n) s.

(** No quote and no angle bracket: nothing that could end an attribute
    value or open a tag. *)
Definition markup_free (s : string) : bool :=
  char_free (ascii_of_nat 34) s && char_free "<" s && char_free ">" s.

(** None of the characters that delimit a query or its parameters. *)
Definition delimiter_free (s : string) : bool :=
  char_free "&" s && char_free "=" s && char_free "#" s && char_free "?" s.

End Scan.

(** ** Sample requests *)

Module Samples.
Import JS Web.

(** A stand-in for the platform's URL parser, enough for the sample
    requests: an [https] URL is taken as it is written, anything else is
    refused. *)
Definition https_only (url : string) : option string :=
  if startsWith url "https://" then Some url else None.

(** A platform whose upstream cannot be reached. *)
Definition offline : Platform :=
  {| global_fetch := fun _ => Throw TypeError;
     URL_parse := https_only |}.

(** A stand-in that also escapes the apostrophe, as the parser does in
    the query of an [https] URL. *)
Definition https_escaping (url : string) : option string :=
  if startsWith url "https://"
  then Some (replaceAll "'" "%27" url) else None.

(** A platform whose upstream cannot be reached and whose parser escapes
    the apostrophe. *)
Definition escaping : Platform :=
  {| global_fetch := fun _ => Throw TypeError;
     URL_parse := https_escaping |}.

(** A platform whose upstream answers every call with the status, the
    headers and the body bytes of [r]. *)
Definition upstream_answers (r : Response.t) : Platform :=
  {| global_fetch := fun _ =>
       Return (Upstream.mk (Response.status r) (Response.headers r)
                 (Return (match Response.body r with
                          | Some bytes => bytes
                          | None => EmptyString
                          end)));
     URL_parse := https_only |}.

(** A platform whose upstream answers every call with the body it was
    sent. *)
Definition echo : Platform :=
  {| global_fetch := fun c =>
       Return (Upstream.mk 200 []
                 (Return (match call_body c with
                          | Some bytes => bytes
                          | None => EmptyString
                          end)));
     URL_parse := https_only |}.

(** A platform whose upstream answers, and whose answer breaks off while
    its body is read. *)
Definition upstream_breaks_off : Platform :=
  {| global_fetch := fun _ => Return (Upstream.mk 200 [] (Throw TypeError));
     URL_parse := https_only |}.

(** The two bytes [FF D8], which no UTF-8 text holds. *)
Definition not_text : string :=
  String (ascii_of_nat 255) (String (ascii_of_nat 216) EmptyString).

(** A request without a body. *)
Definition bodiless (m path : string) (query : list (string * string))
  (hs : Headers) : Request.t :=
  Request.mk m path EmptyString query hs (Return EmptyString)
    (Throw TypeError) (Throw SyntaxError).

(** A request whose body is the form [fd]. *)
Definition form_post (path : string) (fd : list (string * string))
  : Request.t :=
  Request.mk "POST" path EmptyString []
    [("Content-Type", "application/x-www-form-urlencoded")]
    (Return EmptyString) (Return fd) (Throw SyntaxError).

(** A request whose body is the JSON value [v]. *)
Definition json_post (path : string) (v : JsValue) : Request.t :=
  Request.mk "POST" path EmptyString []
    [("Content-Type", "application/json")] (Return EmptyString)
    (Throw TypeError) (Return v).

(** A request whose body is neither, under the content type [ct]. *)
Definition raw_post (path ct : string) : Request.t :=
  Request.mk "POST" path EmptyString [] [("Content-Type", ct)]
    (Return EmptyString) (Throw TypeError) (Throw SyntaxError).

(** A request with the body bytes [bytes], which parse neither as a form
    nor as JSON, and with the caller's token. *)
Definition bytes_post (path bytes : string) : Request.t :=
  Request.mk "POST" path EmptyString []
    [("Authorization", "Bearer abc123")]
    (Return bytes) (Throw TypeError) (Throw SyntaxError).

(** A redirect target that closes the attribute it is written into. *)
Definition injected_uri : string :=
  "https://chat.example/cb" ++ dq ++ "><script>alert(1)</script>".

End Samples.

(** ** The flow around the dispatcher, and what its exceptions are *)

Module Flow.
Import JS Web Client Contract Scan.

(** How often [c] occurs in [s]. *)
Fixpoint count_char (c : ascii) (s : string) : nat :=
  match s with
  | EmptyString => 0
  | String x rest => (if Ascii.eqb x c then 1 else 0) + count_char c rest
  end.

(** None of the four characters [escapeHtml] rewrites. *)
Definition special_free (s : string) : bool :=
  char_free "&" s && char_free (ascii_of_nat 34) s
  && char_free "<" s && char_free ">" s.

(** A form submission: a [POST] to [path] whose body is the form [fd]. *)
Definition post_form (path : string) (fd : list (string * string))
  : Request.t :=
  Request.mk "POST" path EmptyString []
    [("Content-Type", "application/x-www-form-urlencoded")]
    (Return EmptyString) (Return fd) (Throw SyntaxError).

(** What a browser submits from the login form once the user has typed
    the credential [t]: the two hidden fields, HTML-decoded, and the
    password field, in document order. *)
Definition submit (page t : string) : option (list (string * string)) :=
  match hiddenValue "redirect_uri" page, hiddenValue "state" page with
  | Some r, Some s =>
      Some [("redirect_uri", htmlDecode r); ("state", htmlDecode s);
            ("token", t)]
  | _, _ => None
  end.

(** The opening tag of the login form and the name of its password
    field, as the page writes them. *)
Definition form_tag : string :=
  "<form action=" ++ dq ++ "/callback" ++ dq ++ " method=" ++ dq ++ "POST"
    ++ dq ++ ">".

Definition token_field : string := "name=" ++ dq ++ "token" ++ dq.

(** The same request with other results of its three body readers:
    other bytes under [text()], another form, another JSON value. *)
Definition with_body (tx : Completion string)
  (fd : Completion (list (string * string)))
  (j : Completion JsValue) (request : Request.t) : Request.t :=
  Request.mk (Request.method request) (Request.pathname request)
    (Request.search request) (Request.searchParams request)
    (Request.headers request) tx fd j.

(** The URL the form submission redirects to. *)
Definition redirect_url (fd : list (string * string)) : string :=
  ToString (entries_get "redirect_uri" fd) ++ "?code="
    ++ encodeURIComponent (ToString (entries_get "token" fd))
    ++ "&state=" ++ encodeURIComponent (or_else (entries_get "state" fd) "").

(** Every way the handler of [src/index.js] can end in an exception: an
    unreadable form or an unparsable redirect URL on [/callback]; a body
    that its reader rejects, or a JSON value without properties, on
    [/token]; on the proxy a request body that cannot be read, a failing
    upstream call, an upstream body that cannot be read, an upstream
    status outside 200..599, or text under an upstream status that admits
    no body. *)
Inductive Raises (env : Platform) (request : Request.t) : JsError -> Prop :=
| raises_callback_form e :
    Request.method request = "POST" ->
    Request.pathname request = "/callback" ->
    Request.formData request = Throw e ->
    Raises env request e
| raises_callback_url fd :
    Request.method request = "POST" ->
    Request.pathname request = "/callback" ->
    Request.formData request = Return fd ->
    falsy (entries_get "token" fd) = false ->
    falsy (entries_get "redirect_uri" fd) = false ->
    URL_parse env (redirect_url fd) = None ->
    Raises env request TypeError
| raises_token_form e :
    Request.method request = "POST" ->
    Request.pathname request = "/token" ->
    includes (contentType request) "application/x-www-form-urlencoded" = true ->
    Request.formData request = Throw e ->
    Raises env request e
| raises_token_json e :
    Request.method request = "POST" ->
    Request.pathname request = "/token" ->
    includes (contentType request) "application/x-www-form-urlencoded" = false ->
    includes (contentType request) "application/json" = true ->
    Request.json request = Throw e ->
    Raises env request e
| raises_token_property v e :
    Request.method request = "POST" ->
    Request.pathname request = "/token" ->
    includes (contentType request) "application/x-www-form-urlencoded" = false ->
    includes (contentType request) "application/json" = true ->
    Request.json request = Return v ->
    get_property v "code" = Throw e ->
    Raises env request e
| raises_request_body a e :
    Request.method request <> "OPTIONS" ->
    startsWith (Request.pathname request) "/api/v1/" = true ->
    Headers_get "Authorization" (Request.headers request) = Some a ->
    a <> "" ->
    forwarded_body request = Throw e ->
    Raises env request e
| raises_upstream a body e :
    Request.method request <> "OPTIONS" ->
    startsWith (Request.pathname request) "/api/v1/" = true ->
    Headers_get "Authorization" (Request.headers request) = Some a ->
    a <> "" ->
    forwarded_body request = Return body ->
    global_fetch env (upstream_call request a body) = Throw e ->
    Raises env request e
| raises_upstream_body a body up e :
    Request.method request <> "OPTIONS" ->
    startsWith (Request.pathname request) "/api/v1/" = true ->
    Headers_get "Authorization" (Request.headers request) = Some a ->
    a <> "" ->
    forwarded_body request = Return body ->
    global_fetch env (upstream_call request a body) = Return up ->
    Upstream.body up = Throw e ->
    Raises env request e
| raises_relay_range a body up bytes :
    Request.method request <> "OPTIONS" ->
    startsWith (Request.pathname request) "/api/v1/" = true ->
    Headers_get "Authorization" (Request.headers request) = Some a ->
    a <> "" ->
    forwarded_body request = Return body ->
    global_fetch env (upstream_call request a body) = Return up ->
    Upstream.body up = Return bytes ->
    (Upstream.status up < 200 \/ 599 < Upstream.status up)%Z ->
    Raises env request RangeError
| raises_relay_null_body a body up bytes :
    Request.method request <> "OPTIONS" ->
    startsWith (Request.pathname request) "/api/v1/" = true ->
    Headers_get "Authorization" (Request.headers request) = Some a ->
    a <> "" ->
    forwarded_body request = Return body ->
    global_fetch env (upstream_call request a body) = Return up ->
    Upstream.body up = Return bytes ->
    (200 <= Upstream.status up <= 599)%Z ->
    null_body_status (Upstream.status up) = true ->
    utf8_decode bytes <> "" ->
    Raises env request TypeError.

(** The statuses the handler sets itself. *)
Definition own_status (st : Z) : bool :=
  (st =? 200)%Z || (st =? 302)%Z || (st =? 400)%Z || (st =? 401)%Z
  || (st =? 404)%Z.

End Flow.

(** * Properties *)

Import JS Web Client Contract Scan.

(** ** Strings *)

Lemma append_assoc (a b c : string) : (a ++ b) ++ c = a ++ b ++ c.
Proof. induction a as [|x a IH]; simpl; [reflexivity | now rewrite IH]. Qed.

Lemma length_append (a b : string) :
  String.length (a ++ b) = String.length a + String.length b.
Proof. induction a as [|x a IH]; simpl; [reflexivity | now rewrite IH]. Qed.

(** Every property of a single character is settled by trying all 256. *)
Ltac each_char c := destruct c as [[] [] [] [] [] [] [] []].

Lemma char_free_app (c : ascii) (a b : string) :
  char_free c (a ++ b) = char_free c a && char_free c b.
Proof.
  induction a as [|x a IH]; simpl; [reflexivity|].
  rewrite IH. now rewrite andb_assoc.
Qed.

Lemma upto_free (c : ascii) (s : string) :
  char_free c s = true -> upto c s = s.
Proof.
  induction s as [|x s IH]; simpl; [reflexivity|].
  intros H. apply andb_true_iff in H as [Hx Hs].
  apply negb_true_iff in Hx. rewrite Hx. now rewrite IH.
Qed.

Lemma upto_stop (c : ascii) (a b : string) :
  char_free c a = true -> upto c (a ++ String c b) = a.
Proof.
  induction a as [|x a IH]; simpl.
  - now rewrite Ascii.eqb_refl.
  - intros H. apply andb_true_iff in H as [Hx Ha].
    apply negb_true_iff in Hx. rewrite Hx. now rewrite IH.
Qed.

Lemma behind_stop (c : ascii) (a b : string) :
  char_free c a = true -> behind c (a ++ String c b) = Some b.
Proof.
  induction a as [|x a IH]; simpl.
  - now rewrite Ascii.eqb_refl.
  - intros H. apply andb_true_iff in H as [Hx Ha].
    apply negb_true_iff in Hx. rewrite Hx. now apply IH.
Qed.

Lemma split_free (c : ascii) (a : string) :
  char_free c a = true -> split c a = [a].
Proof.
  induction a as [|x a IH]; simpl; [reflexivity|].
  intros H. apply andb_true_iff in H as [Hx Ha].
  apply negb_true_iff in Hx. rewrite Hx. now rewrite IH.
Qed.

Lemma split_stop (c : ascii) (a b : string) :
  char_free c a = true -> split c (a ++ String c b) = a :: split c b.
Proof.
  induction a as [|x a IH]; simpl.
  - now rewrite Ascii.eqb_refl.
  - intros H. apply andb_true_iff in H as [Hx Ha].
    apply negb_true_iff in Hx. rewrite Hx. now rewrite IH.
Qed.

(** ** Searching for a marker *)

Lemma after_unfold (m s : string) :
  after m s =
  match strip_prefix m s with
  | Some rest => Some rest
  | None => match s with
            | EmptyString => None
            | String _ rest => after m rest
            end
  end.
Proof. destruct s; reflexivity. Qed.

Lemma strip_prefix_app (m x : string) : strip_prefix m (m ++ x) = Some x.
Proof.
  induction m as [|a m IH]; simpl; [reflexivity|].
  now rewrite Ascii.eqb_refl.
Qed.

Lemma strip_prefix_None_app (m u x : string) :
  strip_prefix m u = None ->
  String.length m <= String.length u ->
  strip_prefix m (u ++ x) = None.
Proof.
  revert u. induction m as [|a m IH]; intros u; simpl; [discriminate|].
  destruct u as [|b u]; simpl; [lia|].
  destruct (Ascii.eqb a b); [|reflexivity].
  intros H L. apply IH; [exact H | lia].
Qed.

Lemma strip_prefix_incompatible (m t x : string) :
  compatible m t = false -> strip_prefix m (t ++ x) = None.
Proof.
  revert t. induction m as [|a m IH]; intros t; simpl; [discriminate|].
  destruct t as [|b t]; simpl; [discriminate|].
  destruct (Ascii.eqb a b); simpl; [apply IH | reflexivity].
Qed.

Lemma after_first_at_end (m a x : string) :
  first_at_end m a = true -> after m (a ++ m ++ x) = Some x.
Proof.
  induction a as [|c a IH]; intros H.
  - simpl. rewrite after_unfold. now rewrite strip_prefix_app.
  - simpl in H.
    destruct (strip_prefix m (String c (a ++ m))) eqn:E; [discriminate|].
    rewrite after_unfold.
    replace (String c a ++ m ++ x) with (String c (a ++ m) ++ x)
      by (simpl; now rewrite append_assoc).
    rewrite (strip_prefix_None_app _ _ _ E).
    + simpl. rewrite append_assoc. now apply IH.
    + simpl. rewrite length_append. lia.
Qed.

Lemma after_no_overlap (m p x : string) :
  no_overlap m p = true -> after m (p ++ x) = after m x.
Proof.
  induction p as [|c p IH]; intros H; [reflexivity|].
  simpl in H. apply andb_true_iff in H as [Hc Hp].
  apply negb_true_iff in Hc.
  rewrite after_unfold.
  rewrite (strip_prefix_incompatible _ _ _ Hc).
  simpl. now apply IH.
Qed.

Lemma after_char_free (c : ascii) (m e x : string) :
  char_free c e = true ->
  after (String c m) (e ++ x) = after (String c m) x.
Proof.
  induction e as [|y e IH]; intros H; [reflexivity|].
  simpl in H. apply andb_true_iff in H as [Hy He].
  apply negb_true_iff in Hy.
  rewrite after_unfold. simpl strip_prefix.
  rewrite Ascii.eqb_sym, Hy. simpl. now apply IH.
Qed.

(** ** [escapeHtml] *)

Lemma replaceAll_app (c : ascii) (b x y : string) :
  replaceAll c b (x ++ y) = replaceAll c b x ++ replaceAll c b y.
Proof.
  induction x as [|a x IH]; simpl; [reflexivity|].
  destruct (Ascii.eqb a c); simpl; rewrite IH;
    [now rewrite append_assoc | reflexivity].
Qed.

(** The four chained replacements rewrite each character on its own: a
    reference written by an earlier replacement holds none of the
    characters a later one looks for. *)
Lemma replacements_char_by_char (s : string) :
  replaceAll ">" "&gt;"
    (replaceAll "<" "&lt;"
       (replaceAll (ascii_of_nat 34) "&quot;"
          (replaceAll "&" "&amp;" s))) = escape_chars s.
Proof.
  induction s as [|c s IH]; [reflexivity|].
  change (escape_chars (String c s)) with (escape_char c ++ escape_chars s).
  rewrite <- IH. clear IH.
  change (String c s) with (String c "" ++ s).
  rewrite !replaceAll_app.
  f_equal. each_char c; reflexivity.
Qed.

Lemma escapeHtml_char_by_char (s : string) :
  Index.escapeHtml (Some s) = escape_chars s.
Proof.
  unfold Index.escapeHtml. destruct s as [|c s]; [reflexivity|].
  change (String c s =? "") with false. cbv iota.
  apply replacements_char_by_char.
Qed.

Lemma escape_chars_markup_free (s : string) :
  markup_free (escape_chars s) = true.
Proof.
  unfold markup_free.
  induction s as [|c s IH]; [reflexivity|].
  simpl escape_chars. rewrite !char_free_app.
  apply andb_true_iff in IH as [IH Hgt].
  apply andb_true_iff in IH as [Hq Hlt].
  rewrite Hq, Hlt, Hgt. rewrite !andb_true_r.
  each_char c; reflexivity.
Qed.

Lemma escapeHtml_markup_free (o : option string) :
  markup_free (Index.escapeHtml o) = true.
Proof.
  destruct o as [s|]; [|reflexivity].
  rewrite escapeHtml_char_by_char. apply escape_chars_markup_free.
Qed.

Lemma htmlDecode_escape_char (c : ascii) (x : string) :
  htmlDecode_from 0 (escape_char c ++ x) = String c (htmlDecode_from 0 x).
Proof. each_char c; reflexivity. Qed.

Lemma htmlDecode_escape_chars (s : string) :
  htmlDecode (escape_chars s) = s.
Proof.
  unfold htmlDecode. induction s as [|c s IH]; [reflexivity|].
  simpl escape_chars. rewrite htmlDecode_escape_char. now rewrite IH.
Qed.

(** HTML-decoding undoes [escapeHtml]; an absent value reads back empty. *)
Lemma htmlDecode_escapeHtml (o : option string) :
  htmlDecode (Index.escapeHtml o) = or_else o "".
Proof.
  destruct o as [s|]; [|reflexivity].
  rewrite escapeHtml_char_by_char, htmlDecode_escape_chars.
  destruct s; reflexivity.
Qed.

(** ** [encodeURIComponent] *)

Lemma encodeURIComponent_app (a b : string) :
  encodeURIComponent (a ++ b) = encodeURIComponent a ++ encodeURIComponent b.
Proof.
  induction a as [|c a IH]; [reflexivity|].
  simpl. destruct (uriUnreserved c); simpl; now rewrite IH.
Qed.

Lemma decode_encoded_char (c : ascii) (x : string) :
  decodeURIComponent_from 0 (encodeURIComponent (String c "") ++ x) =
  option_map (String c) (decodeURIComponent_from 0 x).
Proof. each_char c; reflexivity. Qed.

(** URL-decoding undoes [encodeURIComponent]. *)
Lemma decodeURIComponent_encodeURIComponent (t : string) :
  decodeURIComponent (encodeURIComponent t) = Some t.
Proof.
  unfold decodeURIComponent. induction t as [|c t IH]; [reflexivity|].
  change (String c t) with (String c "" ++ t).
  rewrite encodeURIComponent_app, decode_encoded_char, IH. reflexivity.
Qed.

Lemma encodeURIComponent_delimiter_free (t : string) :
  delimiter_free (encodeURIComponent t) = true.
Proof.
  unfold delimiter_free. induction t as [|c t IH]; [reflexivity|].
  change (String c t) with (String c "" ++ t).
  rewrite encodeURIComponent_app, !char_free_app.
  apply andb_true_iff in IH as [IH H4].
  apply andb_true_iff in IH as [IH H3].
  apply andb_true_iff in IH as [H1 H2].
  rewrite H1, H2, H3, H4, !andb_true_r.
  each_char c; reflexivity.
Qed.

(** ** JSON strings *)

Lemma read_json_escaped_char (c : ascii) (x : string) :
  read_json_chars 0 (json_escape_char c ++ x) =
  match read_json_chars 0 x with
  | Some (v, r) => Some (String c v, r)
  | None => None
  end.
Proof. each_char c; reflexivity. Qed.

(** Reading the literal [QuoteJSONString] writes gives the string back. *)
Lemma read_json_string_quote (t rest : string) :
  read_json_string (QuoteJSONString t ++ rest) = Some (t, rest).
Proof.
  unfold QuoteJSONString, read_json_string. simpl.
  rewrite append_assoc.
  induction t as [|c t IH].
  - reflexivity.
  - simpl json_escape. rewrite append_assoc, read_json_escaped_char.
    now rewrite IH.
Qed.

(** ** The hidden fields of the authorization page of [src/index.js] *)

Lemma authPage_head_ends_with_marker :
  exists a,
    Index.authPage_head = a ++ hidden_marker "redirect_uri" /\
    first_at_end (hidden_marker "redirect_uri") a = true.
Proof.
  exists (chop (String.length (hidden_marker "redirect_uri")) Index.authPage_head).
  split; vm_compute; reflexivity.
Qed.

Lemma authPage_between_shape :
  exists b,
    Index.authPage_between = String (ascii_of_nat 34) b /\
    Index.authPage_between = chop (String.length (hidden_marker "state"))
                               Index.authPage_between
                             ++ hidden_marker "state" /\
    first_at_end (hidden_marker "state")
      (chop (String.length (hidden_marker "state")) Index.authPage_between)
    = true.
Proof.
  eexists. split; [|split]; vm_compute; reflexivity.
Qed.

Lemma authPage_tail_opens_with_quote :
  exists t, Index.authPage_tail = String (ascii_of_nat 34) t.
Proof. eexists. vm_compute. reflexivity. Qed.

Lemma state_marker_not_in_head :
  no_overlap (hidden_marker "state") Index.authPage_head = true.
Proof. vm_compute. reflexivity. Qed.

Lemma markup_free_quote (s : string) :
  markup_free s = true -> char_free (ascii_of_nat 34) s = true.
Proof.
  unfold markup_free. intros H.
  apply andb_true_iff in H as [H _]. now apply andb_true_iff in H as [H _].
Qed.

Lemma markup_free_lt (s : string) :
  markup_free s = true -> char_free "<" s = true.
Proof.
  unfold markup_free. intros H.
  apply andb_true_iff in H as [H _]. now apply andb_true_iff in H as [_ H].
Qed.

(** The [redirect_uri] field holds exactly what [escapeHtml] returned. *)
Lemma hiddenValue_redirect_uri (redirectUri state : option string) :
  hiddenValue "redirect_uri" (Index.getAuthPage redirectUri state)
  = Some (Index.escapeHtml redirectUri).
Proof.
  unfold hiddenValue, Index.getAuthPage.
  destruct authPage_head_ends_with_marker as (a & Ha & Hfirst).
  destruct authPage_between_shape as (b & Hb & _).
  rewrite Ha, append_assoc, (after_first_at_end _ _ _ Hfirst).
  unfold option_map. rewrite Hb.
  change (String (ascii_of_nat 34) b ++ ?x) with (String (ascii_of_nat 34) (b ++ x)).
  rewrite upto_stop; [reflexivity|].
  apply markup_free_quote, escapeHtml_markup_free.
Qed.

(** So does the [state] field: the escaped [redirect_uri] before it holds
    no [<] at which its marker could start early. *)
Lemma hiddenValue_state (redirectUri state : option string) :
  hiddenValue "state" (Index.getAuthPage redirectUri state)
  = Some (Index.escapeHtml state).
Proof.
  unfold hiddenValue, Index.getAuthPage.
  destruct authPage_between_shape as (b & _ & Hb & Hfirst).
  destruct authPage_tail_opens_with_quote as (t & Ht).
  rewrite (after_no_overlap _ _ _ state_marker_not_in_head).
  change (hidden_marker "state") with
    (String "<" (substring 1 (String.length (hidden_marker "state") - 1)
                   (hidden_marker "state"))) at 1.
  rewrite after_char_free by apply markup_free_lt, escapeHtml_markup_free.
  change (String "<" (substring 1 (String.length (hidden_marker "state") - 1)
                        (hidden_marker "state")))
    with (hidden_marker "state").
  rewrite Hb, append_assoc, (after_first_at_end _ _ _ Hfirst).
  unfold option_map. rewrite Ht.
  rewrite upto_stop; [reflexivity|].
  apply markup_free_quote, escapeHtml_markup_free.
Qed.

(** ** Routing *)

Lemma startsWith_split (s p : string) :
  startsWith s p = true -> exists r, s = p ++ r.
Proof.
  revert s. induction p as [|a p IH]; intros s H.
  - now exists s.
  - destruct s as [|b s]; [discriminate|]. simpl in H.
    apply andb_true_iff in H as [Hab Hs].
    apply Ascii.eqb_eq in Hab. subst b.
    destruct (IH _ Hs) as (r & ->). now exists r.
Qed.

Lemma api_path_is_no_other_route (p : string) :
  startsWith p "/api/v1/" = true ->
  (p =? "/") = false /\ (p =? "") = false /\ (p =? "/authorize") = false /\
  (p =? "/callback") = false /\ (p =? "/token") = false.
Proof.
  intros H. destruct (startsWith_split _ _ H) as (r & ->).
  repeat split; reflexivity.
Qed.

Lemma not_options (m : string) : m <> "OPTIONS" -> (m =? "OPTIONS") = false.
Proof. apply String.eqb_neq. Qed.

Section IndexRoutes.

Variable env : Platform.
Variable request : Request.t.

Lemma index_options :
  Request.method request = "OPTIONS" ->
  Index.fetch env request = Return preflight.
Proof. intros H. unfold Index.fetch. now rewrite H. Qed.

Lemma index_home :
  Request.method request <> "OPTIONS" ->
  Request.pathname request = "/" \/ Request.pathname request = "" ->
  Index.fetch env request = Return (html_page Index.getHomePage).
Proof.
  intros Hm Hp. unfold Index.fetch. rewrite (not_options _ Hm).
  destruct Hp as [-> | ->]; reflexivity.
Qed.

Lemma index_authorize :
  Request.method request <> "OPTIONS" ->
  Request.pathname request = "/authorize" ->
  Index.fetch env request = Index.authorize request.
Proof.
  intros Hm Hp. unfold Index.fetch. rewrite (not_options _ Hm), Hp.
  reflexivity.
Qed.

Lemma index_callback :
  Request.method request = "POST" ->
  Request.pathname request = "/callback" ->
  Index.fetch env request = Index.callback env request.
Proof. intros Hm Hp. unfold Index.fetch. now rewrite Hm, Hp. Qed.

Lemma index_token :
  Request.method request = "POST" ->
  Request.pathname request = "/token" ->
  Index.fetch env request = Index.token request.
Proof. intros Hm Hp. unfold Index.fetch. now rewrite Hm, Hp. Qed.

Lemma index_proxy :
  Request.method request <> "OPTIONS" ->
  startsWith (Request.pathname request) "/api/v1/" = true ->
  Index.fetch env request = Index.proxy env request.
Proof.
  intros Hm Hp. unfold Index.fetch. rewrite (not_options _ Hm), Hp.
  destruct (api_path_is_no_other_route _ Hp) as (-> & -> & -> & -> & ->).
  reflexivity.
Qed.

Lemma index_fallback :
  Request.method request <> "OPTIONS" ->
  Request.pathname request <> "/" ->
  Request.pathname request <> "" ->
  Request.pathname request <> "/authorize" ->
  ~ (Request.pathname request = "/callback" /\ Request.method request = "POST") ->
  ~ (Request.pathname request = "/token" /\ Request.method request = "POST") ->
  startsWith (Request.pathname request) "/api/v1/" = false ->
  Index.fetch env request = Return not_found.
Proof.
  intros Hm H1 H2 H3 H4 H5 H6. unfold Index.fetch.
  rewrite (not_options _ Hm), H6.
  apply String.eqb_neq in H1, H2, H3. rewrite H1, H2, H3.
  replace ((Request.pathname request =? "/callback")
           && (Request.method request =? "POST")) with false.
  2:{ symmetry. apply not_true_is_false. intros E.
      apply andb_true_iff in E as [E1 E2].
      apply String.eqb_eq in E1, E2. now apply H4. }
  replace ((Request.pathname request =? "/token")
           && (Request.method request =? "POST")) with false.
  2:{ symmetry. apply not_true_is_false. intros E.
      apply andb_true_iff in E as [E1 E2].
      apply String.eqb_eq in E1, E2. now apply H5. }
  reflexivity.
Qed.

End IndexRoutes.

(** The earlier copy routes the same way, except that it has no proxy. *)
Lemma part000_callback (env : Platform) (request : Request.t) :
  Request.method request = "POST" ->
  Request.pathname request = "/callback" ->
  Part000.fetch env request = Index.callback env request.
Proof. intros Hm Hp. unfold Part000.fetch. now rewrite Hm, Hp. Qed.

Lemma part000_token (env : Platform) (request : Request.t) :
  Request.method request = "POST" ->
  Request.pathname request = "/token" ->
  Part000.fetch env request = Index.token request.
Proof. intros Hm Hp. unfold Part000.fetch. now rewrite Hm, Hp. Qed.

Lemma part000_api_not_found (env : Platform) (request : Request.t) :
  Request.method request <> "OPTIONS" ->
  startsWith (Request.pathname request) "/api/v1/" = true ->
  Part000.fetch env request = Return not_found.
Proof.
  intros Hm Hp. unfold Part000.fetch. rewrite (not_options _ Hm).
  destruct (api_path_is_no_other_route _ Hp) as (-> & -> & -> & -> & ->).
  reflexivity.
Qed.

(** ** The branches *)

Lemma truthy_string (t : string) : t <> "" -> ToBoolean (JString t) = true.
Proof. intros H. simpl. apply String.eqb_neq in H. now rewrite H. Qed.

Lemma falsy_some (t : string) : t <> "" -> falsy (Some t) = false.
Proof. intros H. unfold falsy. simpl of_nullable. now rewrite truthy_string. Qed.

Lemma token_grants (request : Request.t) (code : JsValue) :
  Index.read_code request = Return (inl code) ->
  ToBoolean code = true ->
  Index.token request =
  Return (Response.mk 200 Index.jsonHeaders
            (Some (stringify_object
                     [("access_token", code);
                      ("token_type", JString "Bearer");
                      ("scope", JString "read write")]))).
Proof.
  intros Hread Hcode. unfold Index.token. rewrite Hread. simpl bind.
  rewrite Hcode. reflexivity.
Qed.

Lemma token_refuses (request : Request.t) (code : JsValue) :
  Index.read_code request = Return (inl code) ->
  ToBoolean code = false ->
  Index.token request = Return (json_error 400 "Missing code").
Proof.
  intros Hread Hcode. unfold Index.token. rewrite Hread. simpl bind.
  rewrite Hcode. reflexivity.
Qed.

Lemma read_code_carried (request : Request.t) (t : string) :
  CarriesCode request t ->
  Index.read_code request = Return (inl (JString t)).
Proof.
  intros [fd H1 H2 H3 | props H1 H2 H3 H4 | fd H1 H2 H3 H4];
    unfold contentType in *; unfold Index.read_code; cbv zeta;
    rewrite ?H1, ?H2, ?H3; simpl; rewrite ?H2, ?H3, ?H4; reflexivity.
Qed.

Lemma read_code_absent (request : Request.t) :
  NoCode request ->
  exists code,
    Index.read_code request = Return (inl code) /\ ToBoolean code = false.
Proof.
  intros [fd H1 H2 H3 | v H1 H2 H3 H4 | fd H1 H2 H3 H4];
    unfold contentType in *; unfold Index.read_code; cbv zeta;
    rewrite ?H1, ?H2, ?H3; simpl; rewrite ?H2, ?H3, ?H4; simpl;
    eexists; split; reflexivity.
Qed.

Lemma token_json_shape (t : string) :
  token_json t =
  "{" ++ QuoteJSONString "access_token" ++ ":" ++ QuoteJSONString t
    ++ token_json_rest.
Proof.
  unfold token_json, stringify_object, token_json_rest. simpl.
  unfold QuoteJSONString. simpl. now rewrite !append_assoc.
Qed.

(** ** The token exchange *)

(** C1 (as amended): for every non-empty credential string [t], a
    [POST /token] request carrying [code = t] in a form body, in a JSON
    body, or under another content type whose fallback form parse
    succeeds, is answered with status 200 and the JSON document
    [{access_token: t, token_type: "Bearer", scope: "read write"}]; both
    copies of the dispatcher do so, and reading the [access_token]
    literal of that document gives [t] back unchanged. *)
Theorem token_exchange_returns_nonempty_credential :
  forall (env : Platform) (request : Request.t)
         (t : string),
    Request.method request = "POST" ->
    Request.pathname request = "/token" ->
    CarriesCode request t ->
    t <> "" ->
    Index.fetch env request = Return (token_response t) /\
    Part000.fetch env request = Return (token_response t) /\
    token_json t =
      "{" ++ QuoteJSONString "access_token" ++ ":" ++ QuoteJSONString t
        ++ token_json_rest /\
    read_json_string (QuoteJSONString t ++ token_json_rest)
      = Some (t, token_json_rest).
Proof.
  intros env request t Hm Hp Hcode Ht.
  assert (Htoken : Index.token request = Return (token_response t)).
  { apply token_grants with (code := JString t).
    - now apply read_code_carried.
    - now apply truthy_string. }
  repeat split.
  - now rewrite index_token.
  - now rewrite part000_token.
  - apply token_json_shape.
  - apply read_json_string_quote.
Qed.

(** The JSON body [{"code":"abc123"}] is exchanged for its token. *)
Lemma token_exchange_returns_nonempty_credential_witness :
  CarriesCode
    (Samples.json_post "/token" (JObject [("code", JString "abc123")]))
    "abc123" /\
  Index.fetch Samples.offline
    (Samples.json_post "/token" (JObject [("code", JString "abc123")]))
  = Return (token_response "abc123").
Proof.
  assert (H : CarriesCode
                (Samples.json_post "/token"
                   (JObject [("code", JString "abc123")])) "abc123")
    by (eapply code_in_json; reflexivity).
  split; [exact H|].
  apply (token_exchange_returns_nonempty_credential Samples.offline
           (Samples.json_post "/token" (JObject [("code", JString "abc123")]))
           "abc123"); [reflexivity | reflexivity | exact H | discriminate].
Defined.

(** C1 as stated fails at the empty credential: a form body [code=] is
    answered with the 400 [Missing code] error, not with a token. *)
Lemma token_exchange_refuses_empty_credential :
  CarriesCode (Samples.form_post "/token" [("code", "")]) "" /\
  Index.fetch Samples.offline (Samples.form_post "/token" [("code", "")])
  = Return (json_error 400 "Missing code") /\
  Part000.fetch Samples.offline (Samples.form_post "/token" [("code", "")])
  = Return (json_error 400 "Missing code") /\
  Response.status (json_error 400 "Missing code") = 400%Z.
Proof.
  split; [eapply code_in_form; reflexivity|].
  repeat split.
Qed.

(** ** The form submission *)

Lemma callback_redirects (env : Platform) (request : Request.t)
  (fd : list (string * string)) (t r href : string) :
  Request.formData request = Return fd ->
  entries_get "token" fd = Some t ->
  entries_get "redirect_uri" fd = Some r ->
  t <> "" -> r <> "" ->
  URL_parse env
    (r ++ "?code=" ++ encodeURIComponent t ++ "&state="
       ++ encodeURIComponent (or_else (entries_get "state" fd) ""))
  = Some href ->
  Index.callback env request = Return (redirect_to href).
Proof.
  intros Hfd Ht Hr Hte Hre Hurl. unfold Index.callback. rewrite Hfd.
  cbn [bind]. rewrite Ht, Hr, (falsy_some _ Hte), (falsy_some _ Hre).
  cbn [orb]. cbv zeta. unfold Response_redirect. cbn [ToString].
  now rewrite Hurl.
Qed.

Lemma delimiter_free_parts (s : string) :
  delimiter_free s = true ->
  char_free "&" s = true /\ char_free "=" s = true /\
  char_free "#" s = true /\ char_free "?" s = true.
Proof.
  unfold delimiter_free. intros H.
  apply andb_true_iff in H as [H H4].
  apply andb_true_iff in H as [H H3].
  apply andb_true_iff in H as [H1 H2]. auto.
Qed.

(** The query of [r?code=c&state=s], provided [r] has no query or
    fragment of its own and [c], [s] are encoded. *)
Lemma url_query_of_redirect (r c s : string) :
  char_free "?" r = true -> char_free "#" r = true ->
  delimiter_free c = true -> delimiter_free s = true ->
  url_query (r ++ "?code=" ++ c ++ "&state=" ++ s)
  = Some ("code=" ++ c ++ "&state=" ++ s).
Proof.
  intros Hq Hh Hc Hs.
  apply delimiter_free_parts in Hc as (Hc1 & Hc2 & Hc3 & Hc4).
  apply delimiter_free_parts in Hs as (Hs1 & Hs2 & Hs3 & Hs4).
  unfold url_query. rewrite upto_free.
  - change ("?code=" ++ c ++ "&state=" ++ s)
      with (String "?" ("code=" ++ c ++ "&state=" ++ s)).
    now apply behind_stop.
  - rewrite !char_free_app, Hh, Hc3, Hs3. reflexivity.
Qed.

(** The two parameters of the query [code=c&state=s]. *)
Lemma params_of_query (c s : string) :
  delimiter_free c = true -> delimiter_free s = true ->
  map query_pair (split "&" ("code=" ++ c ++ "&state=" ++ s))
  = [("code", c); ("state", s)].
Proof.
  intros Hc Hs.
  apply delimiter_free_parts in Hc as (Hc1 & Hc2 & Hc3 & Hc4).
  apply delimiter_free_parts in Hs as (Hs1 & Hs2 & Hs3 & Hs4).
  assert (Hsplit : split "&" ("code=" ++ c ++ "&state=" ++ s)
                   = ["code=" ++ c; "state=" ++ s]).
  { replace ("code=" ++ c ++ "&state=" ++ s)
      with (("code=" ++ c) ++ String "&" ("state=" ++ s))
      by (now rewrite append_assoc).
    rewrite split_stop.
    - rewrite split_free; [reflexivity|].
      rewrite char_free_app, Hs1. reflexivity.
    - rewrite char_free_app, Hc1. reflexivity. }
  rewrite Hsplit. reflexivity.
Qed.

(** In [r?code=c&state=s] the query holds the two parameters, provided
    [r] has no query or fragment of its own and [c], [s] are encoded. *)
Lemma queryParam_of_redirect (r c s : string) :
  char_free "?" r = true -> char_free "#" r = true ->
  delimiter_free c = true -> delimiter_free s = true ->
  queryParam "code" (r ++ "?code=" ++ c ++ "&state=" ++ s) = Some c /\
  queryParam "state" (r ++ "?code=" ++ c ++ "&state=" ++ s) = Some s.
Proof.
  intros Hq Hh Hc Hs. unfold queryParam.
  rewrite (url_query_of_redirect _ _ _ Hq Hh Hc Hs),
    (params_of_query _ _ Hc Hs).
  split; reflexivity.
Qed.

(** *** The query as the URL parser serialises it *)

Lemma query_percent_encode_app (special : bool) (a b : string) :
  query_percent_encode special (a ++ b)
  = query_percent_encode special a ++ query_percent_encode special b.
Proof.
  induction a as [|c a IH]; [reflexivity|].
  simpl. destruct (query_escaped special c); simpl; now rewrite IH.
Qed.

(** The parser's escaping leaves an encoded component decoding to what it
    decoded to before: of the characters [encodeURIComponent] writes, it
    touches the apostrophe alone. *)
Lemma decode_escaped_char (special : bool) (c : ascii) (x : string) :
  decodeURIComponent_from 0
    (query_percent_encode special (encodeURIComponent (String c "")) ++ x)
  = option_map (String c) (decodeURIComponent_from 0 x).
Proof. destruct special; each_char c; reflexivity. Qed.

Lemma decode_escaped_component (special : bool) (t : string) :
  decodeURIComponent (query_percent_encode special (encodeURIComponent t))
  = Some t.
Proof.
  unfold decodeURIComponent. induction t as [|c t IH]; [reflexivity|].
  change (String c t) with (String c "" ++ t).
  rewrite encodeURIComponent_app, query_percent_encode_app,
    decode_escaped_char, IH.
  reflexivity.
Qed.

Lemma escaped_component_delimiter_free (special : bool) (t : string) :
  delimiter_free (query_percent_encode special (encodeURIComponent t)) = true.
Proof.
  unfold delimiter_free. induction t as [|c t IH]; [reflexivity|].
  change (String c t) with (String c "" ++ t).
  rewrite encodeURIComponent_app, query_percent_encode_app, !char_free_app.
  apply andb_true_iff in IH as [IH H4].
  apply andb_true_iff in IH as [IH H3].
  apply andb_true_iff in IH as [H1 H2].
  rewrite H1, H2, H3, H4, !andb_true_r.
  destruct special; each_char c; reflexivity.
Qed.

(** Where the redirect keeps the query of the URL the handler built, its
    two parameters decode to the credential and the state. *)
Lemma redirect_parameters_decode (r t s href : string) :
  char_free "?" r = true -> char_free "#" r = true ->
  keeps_query
    (r ++ "?code=" ++ encodeURIComponent t ++ "&state="
       ++ encodeURIComponent s) href ->
  exists c z : string,
    queryParam "code" href = Some c /\ decodeURIComponent c = Some t /\
    queryParam "state" href = Some z /\ decodeURIComponent z = Some s.
Proof.
  intros Hq Hh (q & special & Hurl & Hhref).
  rewrite url_query_of_redirect in Hurl
    by (try assumption; apply encodeURIComponent_delimiter_free).
  assert (Hquery : q = "code=" ++ encodeURIComponent t ++ "&state="
                         ++ encodeURIComponent s) by congruence.
  rewrite Hquery in Hhref. clear Hurl Hquery.
  exists (query_percent_encode special (encodeURIComponent t)),
    (query_percent_encode special (encodeURIComponent s)).
  assert (Hpairs :
    map query_pair
      (split "&"
         (query_percent_encode special
            ("code=" ++ encodeURIComponent t ++ "&state="
               ++ encodeURIComponent s)))
    = [("code", query_percent_encode special (encodeURIComponent t));
       ("state", query_percent_encode special (encodeURIComponent s))]).
  { rewrite !query_percent_encode_app.
    replace (query_percent_encode special "code=") with "code="
      by (now destruct special).
    replace (query_percent_encode special "&state=") with "&state="
      by (now destruct special).
    apply params_of_query; apply escaped_component_delimiter_free. }
  unfold queryParam. rewrite Hhref, Hpairs.
  repeat split; try reflexivity; apply decode_escaped_component.
Qed.

(** C2 (as amended): for every non-empty credential [t], non-empty
    redirect target [r] and optional state [s], a [POST /callback] whose
    form holds [token = t], [redirect_uri = r] (and [state = s], if any)
    builds the URL [r?code=<t URL-encoded>&state=<s URL-encoded, or
    empty>] and, when that string parses as a URL, answers with a 302
    redirect to the parser's serialisation of it; URL-decoding the
    encoded credential yields exactly [t], and likewise for the state;
    and when [r] has no [?] and no [#] of its own, the [code] and [state]
    query parameters of the URL built are the encoded credential and the
    encoded state, and those of the redirect, wherever its serialisation
    keeps the query up to the parser's escaping, URL-decode to exactly
    [t] and [s]. *)
Theorem callback_redirect_round_trips :
  forall (env : Platform) (request : Request.t)
         (fd : list (string * string)) (t r href : string),
    Request.method request = "POST" ->
    Request.pathname request = "/callback" ->
    Request.formData request = Return fd ->
    entries_get "token" fd = Some t ->
    entries_get "redirect_uri" fd = Some r ->
    t <> "" ->
    r <> "" ->
    let s := or_else (entries_get "state" fd) "" in
    let location :=
      r ++ "?code=" ++ encodeURIComponent t ++ "&state="
        ++ encodeURIComponent s in
    URL_parse env location = Some href ->
    Index.fetch env request = Return (redirect_to href) /\
    decodeURIComponent (encodeURIComponent t) = Some t /\
    decodeURIComponent (encodeURIComponent s) = Some s /\
    (char_free "?" r = true -> char_free "#" r = true ->
     (queryParam "code" location = Some (encodeURIComponent t) /\
      queryParam "state" location = Some (encodeURIComponent s)) /\
     (keeps_query location href ->
      exists c z : string,
        queryParam "code" href = Some c /\ decodeURIComponent c = Some t /\
        queryParam "state" href = Some z /\ decodeURIComponent z = Some s)).
Proof.
  intros env request fd t r href Hm Hp Hfd Ht Hr Hte Hre s location Hurl.
  split; [|split; [|split]].
  - rewrite index_callback by assumption.
    now apply callback_redirects with (fd := fd) (t := t) (r := r).
  - apply decodeURIComponent_encodeURIComponent.
  - apply decodeURIComponent_encodeURIComponent.
  - intros Hq Hh. split.
    + apply queryParam_of_redirect; try assumption;
        apply encodeURIComponent_delimiter_free.
    + now apply redirect_parameters_decode.
Qed.

(** A credential with an apostrophe, [it's], on a platform whose parser
    escapes the apostrophe in a query: the redirect carries [it%27s],
    which decodes to the credential. *)
Lemma callback_redirect_round_trips_witness :
  Index.fetch Samples.escaping
    (Samples.form_post "/callback"
       [("token", "it's"); ("redirect_uri", "https://chat.example/cb");
        ("state", "xyz")])
  = Return (redirect_to "https://chat.example/cb?code=it%27s&state=xyz") /\
  queryParam "code" "https://chat.example/cb?code=it%27s&state=xyz"
  = Some "it%27s" /\
  decodeURIComponent "it%27s" = Some "it's".
Proof.
  destruct (callback_redirect_round_trips Samples.escaping
              (Samples.form_post "/callback"
                 [("token", "it's");
                  ("redirect_uri", "https://chat.example/cb");
                  ("state", "xyz")])
              [("token", "it's"); ("redirect_uri", "https://chat.example/cb");
               ("state", "xyz")]
              "it's" "https://chat.example/cb"
              "https://chat.example/cb?code=it%27s&state=xyz"
              eq_refl eq_refl eq_refl eq_refl eq_refl
              ltac:(discriminate) ltac:(discriminate) eq_refl)
    as (Hfetch & _ & _ & Hquery).
  destruct (Hquery eq_refl eq_refl) as [_ Hkept].
  destruct (Hkept (ex_intro _ "code=it's&state=xyz"
                     (ex_intro _ true (conj eq_refl eq_refl))))
    as (c & z & Hc & Hdc & _).
  split; [exact Hfetch|].
  split; [reflexivity|].
  assert (Hsame : c = "it%27s")
    by (vm_compute in Hc; now injection Hc as <-).
  rewrite <- Hsame. exact Hdc.
Defined.

(** C2 as stated fails in four ways: an empty credential, or an empty
    redirect target, earns the 400 rejection; a redirect target that is
    no absolute URL makes [Response.redirect] throw; and a redirect
    target that already has a query, or a fragment, leaves the redirect
    without a [code] parameter to decode. *)
Lemma callback_redirect_fails_on_empty_token_and_on_query :
  Index.fetch Samples.offline
    (Samples.form_post "/callback"
       [("token", ""); ("redirect_uri", "https://chat.example/cb")])
  = Return (plain400 "Missing token or redirect_uri") /\
  Index.fetch Samples.offline
    (Samples.form_post "/callback"
       [("token", "abc123"); ("redirect_uri", "")])
  = Return (plain400 "Missing token or redirect_uri") /\
  Index.fetch Samples.offline
    (Samples.form_post "/callback"
       [("token", "abc123"); ("redirect_uri", "chat.example/cb")])
  = Throw TypeError /\
  Index.fetch Samples.offline
    (Samples.form_post "/callback"
       [("token", "abc123"); ("redirect_uri", "https://chat.example/cb?x=1")])
  = Return (redirect_to "https://chat.example/cb?x=1?code=abc123&state=") /\
  queryParam "code" "https://chat.example/cb?x=1?code=abc123&state=" = None /\
  queryParam "x" "https://chat.example/cb?x=1?code=abc123&state="
  = Some "1?code=abc123" /\
  Index.fetch Samples.offline
    (Samples.form_post "/callback"
       [("token", "abc123"); ("redirect_uri", "https://chat.example/cb#top")])
  = Return (redirect_to "https://chat.example/cb#top?code=abc123&state=") /\
  queryParam "code" "https://chat.example/cb#top?code=abc123&state=" = None.
Proof. repeat split. Qed.

(** ** The authorization page *)

Lemma authorize_serves_form (request : Request.t) (r : string) :
  entries_get "redirect_uri" (Request.searchParams request) = Some r ->
  r <> "" ->
  Index.authorize request =
  Return (html_page
            (Index.getAuthPage (Some r)
               (entries_get "state" (Request.searchParams request)))).
Proof.
  intros Hr Hre. unfold Index.authorize. rewrite Hr, (falsy_some _ Hre).
  reflexivity.
Qed.

(** The login form of [src/index.js] embeds [redirect_uri] and [state] in
    hidden fields whose raw values hold no quote and no angle bracket,
    and HTML-decoding those values gives the inputs back (an absent
    [state] reads back empty). *)
Theorem authorize_hidden_fields_round_trip :
  forall (env : Platform) (request : Request.t)
         (r : string),
    Request.method request <> "OPTIONS" ->
    Request.pathname request = "/authorize" ->
    entries_get "redirect_uri" (Request.searchParams request) = Some r ->
    r <> "" ->
    exists page raw_uri raw_state,
      Index.fetch env request = Return (html_page page) /\
      hiddenValue "redirect_uri" page = Some raw_uri /\
      hiddenValue "state" page = Some raw_state /\
      markup_free raw_uri = true /\
      markup_free raw_state = true /\
      htmlDecode raw_uri = r /\
      htmlDecode raw_state =
        or_else (entries_get "state" (Request.searchParams request)) "".
Proof.
  intros env request r Hm Hp Hr Hre.
  exists (Index.getAuthPage (Some r)
            (entries_get "state" (Request.searchParams request))),
    (Index.escapeHtml (Some r)),
    (Index.escapeHtml (entries_get "state" (Request.searchParams request))).
  repeat split.
  - rewrite index_authorize by assumption. now apply authorize_serves_form.
  - apply hiddenValue_redirect_uri.
  - apply hiddenValue_state.
  - apply escapeHtml_markup_free.
  - apply escapeHtml_markup_free.
  - rewrite htmlDecode_escapeHtml. simpl.
    apply String.eqb_neq in Hre. now rewrite Hre.
  - apply htmlDecode_escapeHtml.
Qed.

(** The specification's scenario: [redirect_uri] the client's callback,
    [state=xyz]. *)
Lemma authorize_hidden_fields_round_trip_witness :
  exists page raw_uri raw_state,
    Index.fetch Samples.offline
      (Samples.bodiless "GET" "/authorize"
         [("redirect_uri", "https://chat.example/cb"); ("state", "xyz")] [])
    = Return (html_page page) /\
    hiddenValue "redirect_uri" page = Some raw_uri /\
    hiddenValue "state" page = Some raw_state /\
    markup_free raw_uri = true /\
    markup_free raw_state = true /\
    htmlDecode raw_uri = "https://chat.example/cb" /\
    htmlDecode raw_state = "xyz".
Proof.
  apply (authorize_hidden_fields_round_trip Samples.offline
           (Samples.bodiless "GET" "/authorize"
              [("redirect_uri", "https://chat.example/cb"); ("state", "xyz")]
              [])
           "https://chat.example/cb");
    [discriminate | reflexivity | reflexivity | discriminate].
Defined.

(** C3 on the earlier copy of the dispatcher: a [redirect_uri] holding a
    quote closes the hidden field's attribute early. The field then reads
    back as the part before the quote, the markup after it stands in the
    page unescaped, and [src/index.js] on the same request round-trips. *)
Theorem earlier_copy_leaves_hidden_fields_unescaped :
  exists page page',
    Part000.fetch Samples.offline
      (Samples.bodiless "GET" "/authorize"
         [("redirect_uri", Samples.injected_uri); ("state", "xyz")] [])
    = Return (html_page page) /\
    hiddenValue "redirect_uri" page = Some "https://chat.example/cb" /\
    includes page (dq ++ "><script>alert(1)</script>") = true /\
    (Samples.injected_uri =? "https://chat.example/cb") = false /\
    Index.fetch Samples.offline
      (Samples.bodiless "GET" "/authorize"
         [("redirect_uri", Samples.injected_uri); ("state", "xyz")] [])
    = Return (html_page page') /\
    option_map htmlDecode (hiddenValue "redirect_uri" page')
    = Some Samples.injected_uri /\
    includes page' (dq ++ "><script>alert(1)</script>") = false.
Proof.
  do 2 eexists. repeat split; vm_compute; reflexivity.
Qed.

(** ** Required inputs *)

Lemma get_is_not_options (m : string) : m = "GET" -> m <> "OPTIONS".
Proof. intros ->. discriminate. Qed.

(** C4 (as amended): each required-input failure on a body the handler
    can read earns its client error. [GET /authorize] without
    [redirect_uri] gets the plain-text 400; so does [POST /callback]
    whose body parses as a form that lacks [token] or [redirect_uri];
    [POST /token] whose body was read according to its content type and
    holds no [code] (a form without that field, a JSON value other than
    [null] without that property) gets 400 with
    [{"error":"Missing code"}]; [POST /token] under an unrecognized
    content type whose fallback form parse fails gets 400 with
    [{"error":"Invalid request format"}]. *)
Theorem required_input_failures_are_client_errors :
  forall (env : Platform) (request : Request.t)
         (response : Response.t),
    RequiredInputFailure request response ->
    Index.fetch env request = Return response.
Proof.
  intros env request response H.
  destruct H as [request Hm Hp Hq | request fd Hm Hp Hfd Hmiss
                | request Hm Hp Hno | request e Hm Hp H1 H2 Hfd].
  - rewrite index_authorize by (auto using get_is_not_options).
    unfold Index.authorize. now rewrite Hq.
  - rewrite index_callback by assumption.
    unfold Index.callback. rewrite Hfd. simpl bind.
    destruct Hmiss as [H | H]; rewrite H.
    + reflexivity.
    + destruct (falsy (entries_get "token" fd)); reflexivity.
  - rewrite index_token by assumption.
    destruct (read_code_absent _ Hno) as (code & Hread & Hfalsy).
    now apply token_refuses with (code := code).
  - rewrite index_token by assumption.
    unfold contentType in *. unfold Index.token, Index.read_code. cbv zeta.
    rewrite H1, H2, Hfd. reflexivity.
Qed.

(** One request for each of the four failures. *)
Lemma required_input_failures_are_client_errors_witness :
  Index.fetch Samples.offline (Samples.bodiless "GET" "/authorize" [] [])
  = Return (plain400 "Missing redirect_uri") /\
  Index.fetch Samples.offline
    (Samples.form_post "/callback" [("redirect_uri", "https://chat.example/cb")])
  = Return (plain400 "Missing token or redirect_uri") /\
  Index.fetch Samples.offline (Samples.json_post "/token" (JObject []))
  = Return (json_error 400 "Missing code") /\
  Index.fetch Samples.offline (Samples.raw_post "/token" "text/plain")
  = Return (json_error 400 "Invalid request format").
Proof.
  split; [|split; [|split]];
    apply (required_input_failures_are_client_errors Samples.offline).
  - now apply missing_redirect_uri.
  - apply missing_form_field
      with (fd := [("redirect_uri", "https://chat.example/cb")]);
      [reflexivity | reflexivity | reflexivity | now left].
  - apply missing_code; [reflexivity | reflexivity |].
    now apply no_code_in_json with (v := JObject []).
  - now apply invalid_format with (e := TypeError).
Defined.

(** C4 as stated fails where no [code], [token] or [redirect_uri] can be
    found because the body is not what the handler reads: a [POST
    /callback] whose body is no form and a [POST /token] whose JSON body
    does not parse leave the handler as exceptions, and so does the valid
    JSON body [null], whose [code] property cannot be read. *)
Lemma missing_inputs_in_unreadable_or_null_body_throw :
  Index.fetch Samples.offline (Samples.raw_post "/callback" "text/plain")
  = Throw TypeError /\
  Index.fetch Samples.offline (Samples.raw_post "/token" "application/json")
  = Throw SyntaxError /\
  Request.json (Samples.json_post "/token" JNull) = Return JNull /\
  Index.fetch Samples.offline (Samples.json_post "/token" JNull)
  = Throw TypeError.
Proof. repeat split. Qed.

(** C8: a required value that is present but empty is treated exactly as
    an absent one. [GET /authorize] with [redirect_uri=] gets the 400 of
    a missing [redirect_uri]; [POST /callback] whose [token] or
    [redirect_uri] is empty gets the 400 of a missing field; [POST
    /token] carrying the empty [code] gets 400 with
    [{"error":"Missing code"}]. *)
Theorem empty_required_value_counts_as_absent :
  forall (env : Platform) (request : Request.t)
         (response : Response.t),
    EmptyRequiredInput request response ->
    Index.fetch env request = Return response.
Proof.
  intros env request response H.
  destruct H as [request Hm Hp Hq | request fd Hm Hp Hfd Hempty
                | request Hm Hp Hcode].
  - rewrite index_authorize by (auto using get_is_not_options).
    unfold Index.authorize. now rewrite Hq.
  - rewrite index_callback by assumption.
    unfold Index.callback. rewrite Hfd. simpl bind.
    destruct Hempty as [H | H]; rewrite H.
    + reflexivity.
    + destruct (falsy (entries_get "token" fd)); reflexivity.
  - rewrite index_token by assumption.
    apply token_refuses with (code := JString "").
    + now apply read_code_carried.
    + reflexivity.
Qed.

(** One request for each of the three empty values. *)
Lemma empty_required_value_counts_as_absent_witness :
  Index.fetch Samples.offline
    (Samples.bodiless "GET" "/authorize" [("redirect_uri", "")] [])
  = Return (plain400 "Missing redirect_uri") /\
  Index.fetch Samples.offline
    (Samples.form_post "/callback"
       [("token", "abc123"); ("redirect_uri", "")])
  = Return (plain400 "Missing token or redirect_uri") /\
  Index.fetch Samples.offline
    (Samples.json_post "/token" (JObject [("code", JString "")]))
  = Return (json_error 400 "Missing code").
Proof.
  split; [|split];
    apply (empty_required_value_counts_as_absent Samples.offline).
  - now apply empty_redirect_uri.
  - apply empty_form_field
      with (fd := [("token", "abc123"); ("redirect_uri", "")]);
      [reflexivity | reflexivity | reflexivity | now right].
  - apply empty_code; [reflexivity | reflexivity |].
    eapply code_in_json; reflexivity.
Defined.

(** ** Reading a body as text *)

Lemma utf8_lead_one (b : ascii) :
  byte_in 0 127 b = true -> utf8_lead b = (String b EmptyString, None).
Proof. intros H. unfold utf8_lead. now rewrite H. Qed.

Lemma utf8_lead_two (b : ascii) :
  byte_in 194 223 b = true ->
  utf8_lead b
  = (EmptyString,
     Some {| needed := 1; lower := 128; upper := 191;
             seen := String b EmptyString |}).
Proof. each_char b; intros H; first [discriminate H | reflexivity]. Qed.

Lemma utf8_lead_three (b c : ascii) :
  second_of_three b c = true ->
  exists lo hi,
    utf8_lead b
    = (EmptyString,
       Some {| needed := 2; lower := lo; upper := hi;
               seen := String b EmptyString |}) /\
    byte_in lo hi c = true.
Proof.
  unfold second_of_three. intros H.
  repeat (apply orb_true_iff in H as [H|H]);
    apply andb_true_iff in H as [Hb Hc];
    revert Hb; each_char b; intros Hb; try discriminate Hb;
    (do 2 eexists; split; [reflexivity | exact Hc]).
Qed.

Lemma utf8_lead_four (b c : ascii) :
  second_of_four b c = true ->
  exists lo hi,
    utf8_lead b
    = (EmptyString,
       Some {| needed := 3; lower := lo; upper := hi;
               seen := String b EmptyString |}) /\
    byte_in lo hi c = true.
Proof.
  unfold second_of_four. intros H.
  repeat (apply orb_true_iff in H as [H|H]);
    apply andb_true_iff in H as [Hb Hc];
    revert Hb; each_char b; intros Hb; try discriminate Hb;
    (do 2 eexists; split; [reflexivity | exact Hc]).
Qed.

(** Well-formed UTF-8 decodes to itself. *)
Lemma utf8_run_well_formed (s : string) :
  WellFormed s -> utf8_run None s = s.
Proof.
  induction 1 as [|b s Hb _ IH|b c s Hb Hc _ IH|b c d s Hbc Hd _ IH
                  |b c d e s Hbc Hd He _ IH].
  - reflexivity.
  - cbn [utf8_run]. rewrite (utf8_lead_one _ Hb), IH. reflexivity.
  - cbn [utf8_run]. rewrite (utf8_lead_two _ Hb).
    cbn [lower upper needed seen]. rewrite Hc, IH. reflexivity.
  - destruct (utf8_lead_three _ _ Hbc) as (lo & hi & Hlead & Hc).
    cbn [utf8_run]. rewrite Hlead. cbn [lower upper needed seen].
    rewrite Hc. cbn [lower upper needed seen]. rewrite Hd, IH. reflexivity.
  - destruct (utf8_lead_four _ _ Hbc) as (lo & hi & Hlead & Hc).
    cbn [utf8_run]. rewrite Hlead. cbn [lower upper needed seen].
    rewrite Hc. cbn [lower upper needed seen]. rewrite Hd.
    cbn [lower upper needed seen]. rewrite He, IH. reflexivity.
Qed.

Lemma strip_bom_unmarked (s : string) :
  startsWith s byte_order_mark = false -> strip_bom s = s.
Proof.
  destruct s as [|a [|b [|c rest]]]; try reflexivity.
  unfold byte_order_mark. cbn [startsWith strip_bom].
  rewrite andb_true_r.
  intros H.
  replace ((nat_of_ascii a =? 239)%nat && (nat_of_ascii b =? 187)%nat
           && (nat_of_ascii c =? 191)%nat) with false; [reflexivity|].
  rewrite <- H. symmetry.
  rewrite andb_assoc. f_equal; [f_equal|].
  - clear. each_char a; reflexivity.
  - clear. each_char b; reflexivity.
  - clear. each_char c; reflexivity.
Qed.

(** A body that is well-formed UTF-8 and opens with no byte order mark
    reads as text unchanged. *)
Lemma utf8_decode_well_formed (bytes : string) :
  WellFormed bytes -> startsWith bytes byte_order_mark = false ->
  utf8_decode bytes = bytes.
Proof.
  intros Hw Hb. unfold utf8_decode. rewrite (strip_bom_unmarked _ Hb).
  now apply utf8_run_well_formed.
Qed.

(** ** The pass-through proxy *)

Lemma proxy_unauthorized (env : Platform)
  (request : Request.t) :
  falsy (Headers_get "Authorization" (Request.headers request)) = true ->
  Index.proxy env request
  = Return (json_error 401 "Missing Authorization header").
Proof. intros H. unfold Index.proxy. now rewrite H. Qed.

(** The proxy branch behind its check, step by step: the request's body
    is read, the upstream is called, its body is read, and the answer is
    built. *)
Lemma proxy_calls_upstream (env : Platform)
  (request : Request.t) (a : string) :
  Headers_get "Authorization" (Request.headers request) = Some a ->
  a <> "" ->
  Index.proxy env request =
  (body <- forwarded_body request ;;
   up <- global_fetch env (upstream_call request a body) ;;
   bytes <- Upstream.body up ;;
   new_Response (Some (utf8_decode bytes))
     {| init_status := Some (Upstream.status up);
        init_headers := Response.headers (relayed up bytes) |}).
Proof.
  intros Ha Hne. unfold Index.proxy. rewrite Ha, (falsy_some _ Hne).
  unfold forwarded_body, upstream_call, Request.text. simpl ToString.
  assert (Hrelay : forall body : option string,
    (canvasResponse <-
       global_fetch env
         {| call_url :=
              "https://" ++ Index.CANVAS_DOMAIN ++ Request.pathname request
                ++ Request.search request;
            call_method := Request.method request;
            call_headers :=
              [("Authorization", a);
               ("Content-Type",
                or_else (Headers_get "Content-Type" (Request.headers request))
                  "application/json")];
            call_body := body |} ;;
     responseBody <- Upstream.text canvasResponse ;;
     new_Response (Some responseBody)
       {| init_status := Some (Upstream.status canvasResponse);
          init_headers :=
            ("Content-Type",
             or_else (Headers_get "Content-Type"
                        (Upstream.headers canvasResponse))
               "application/json") :: Index.corsHeaders |})
    = (up <-
         global_fetch env
           {| call_url :=
                "https://grambling.instructure.com"
                  ++ Request.pathname request ++ Request.search request;
              call_method := Request.method request;
              call_headers :=
                [("Authorization", a);
                 ("Content-Type",
                  or_else (Headers_get "Content-Type" (Request.headers request))
                    "application/json")];
              call_body := body |} ;;
       bytes <- Upstream.body up ;;
       new_Response (Some (utf8_decode bytes))
         {| init_status := Some (Upstream.status up);
            init_headers := Response.headers (relayed up bytes) |})).
  { intros body.
    change ("https://" ++ Index.CANVAS_DOMAIN ++ Request.pathname request
              ++ Request.search request)
      with ("https://grambling.instructure.com" ++ Request.pathname request
              ++ Request.search request).
    destruct (global_fetch env _) as [up|e]; [|reflexivity].
    cbn [bind]. unfold Upstream.text.
    destruct (Upstream.body up); reflexivity. }
  destruct (Request.method request =? "GET");
    destruct (Request.method request =? "HEAD"); cbn [negb andb orb bind];
    try apply Hrelay.
  destruct (Request.body request) as [bytes|e]; cbn [bind];
    [apply Hrelay | reflexivity].
Qed.

(** [new Response] takes an upstream answer whose status lies in
    200..599 and whose text is empty if that status admits no body. *)
Lemma relay_accepted (up : Upstream.t) (bytes : string) :
  (200 <= Upstream.status up <= 599)%Z ->
  (null_body_status (Upstream.status up) = true -> utf8_decode bytes = "") ->
  new_Response (Some (utf8_decode bytes))
    {| init_status := Some (Upstream.status up);
       init_headers := Response.headers (relayed up bytes) |}
  = Return (relayed up bytes).
Proof.
  intros [Hlo Hhi] Hnull. unfold new_Response, relayed.
  cbn [init_status init_headers Response.headers].
  replace ((Upstream.status up <? 200)%Z || (599 <? Upstream.status up)%Z)
    with false by (symmetry; apply orb_false_iff; split; lia).
  destruct (null_body_status (Upstream.status up)).
  - now rewrite (Hnull eq_refl).
  - reflexivity.
Qed.

(** C5 (as amended): for every request other than [OPTIONS] whose path
    begins with [/api/v1/]: without an [Authorization] header, or with an
    empty one, the answer is 401 with a JSON error; otherwise the request
    goes to the fixed upstream host with its method, path and query
    string, with exactly two headers, the caller's [Authorization] and
    the caller's [Content-Type] ([application/json] if it named none),
    and, unless the method is [GET] or [HEAD], with the text of its body:
    the body decoded as UTF-8, which is the body unchanged when it is
    well-formed UTF-8 without a byte order mark. A body that cannot be
    read, here or upstream, and a failure of the upstream call are the
    handler's failure. An upstream answer whose status lies in 200..599
    is relayed with its status, with the text of its body (none, when the
    status is 204, 205 or 304 and the text is empty), with its content
    type ([application/json] if it named none) and with the permissive
    cross-origin headers. *)
Theorem proxy_forwards_and_relays :
  forall (env : Platform) (request : Request.t),
    Request.method request <> "OPTIONS" ->
    startsWith (Request.pathname request) "/api/v1/" = true ->
    (falsy (Headers_get "Authorization" (Request.headers request)) = true ->
     Index.fetch env request
     = Return (json_error 401 "Missing Authorization header")) /\
    (forall a : string,
        Headers_get "Authorization" (Request.headers request) = Some a ->
        a <> "" ->
        (forall e : JsError,
            forwarded_body request = Throw e ->
            Index.fetch env request = Throw e) /\
        (forall body : option string,
            forwarded_body request = Return body ->
            (forall e : JsError,
                global_fetch env (upstream_call request a body) = Throw e ->
                Index.fetch env request = Throw e) /\
            (forall up : Upstream.t,
                global_fetch env (upstream_call request a body) = Return up ->
                (forall e : JsError,
                    Upstream.body up = Throw e ->
                    Index.fetch env request = Throw e) /\
                (forall bytes : string,
                    Upstream.body up = Return bytes ->
                    (200 <= Upstream.status up <= 599)%Z ->
                    (null_body_status (Upstream.status up) = true ->
                     utf8_decode bytes = "") ->
                    Index.fetch env request = Return (relayed up bytes))))) /\
    (forall bytes : string,
        WellFormed bytes ->
        startsWith bytes byte_order_mark = false ->
        (Request.body request = Return bytes ->
         Request.method request <> "GET" ->
         Request.method request <> "HEAD" ->
         forwarded_body request = Return (Some bytes)) /\
        (forall up : Upstream.t,
            null_body_status (Upstream.status up) = false ->
            Response.body (relayed up bytes) = Some bytes)).
Proof.
  intros env request Hm Hp. rewrite (index_proxy _ _ Hm Hp).
  split; [|split].
  - apply proxy_unauthorized.
  - intros a Ha Hne. rewrite (proxy_calls_upstream _ _ _ Ha Hne). split.
    + intros e He. now rewrite He.
    + intros body Hbody. rewrite Hbody. cbn [bind]. split.
      * intros e He. now rewrite He.
      * intros up Hup. rewrite Hup. cbn [bind]. split.
        -- intros e He. now rewrite He.
        -- intros bytes Hbytes Hrange Hnull. rewrite Hbytes. cbn [bind].
           now apply relay_accepted.
  - intros bytes Hwf Hbom. split.
    + intros Hbody Hget Hhead. unfold forwarded_body.
      apply String.eqb_neq in Hget, Hhead. rewrite Hget, Hhead, Hbody.
      cbn [orb bind]. now rewrite utf8_decode_well_formed.
    + intros up Hnull. unfold relayed. cbn [Response.body].
      now rewrite Hnull, utf8_decode_well_formed.
Qed.

(** A call without [Authorization]; a deletion the upstream answers with
    204 and no body; and a call relayed from an upstream that answers
    with a CSV document. *)
Lemma proxy_forwards_and_relays_witness :
  Index.fetch Samples.offline
    (Samples.bodiless "GET" "/api/v1/courses" [] [])
  = Return (json_error 401 "Missing Authorization header") /\
  Index.fetch (Samples.upstream_answers (Response.mk 204 [] None))
    (Samples.bodiless "DELETE" "/api/v1/courses/1" []
       [("Authorization", "Bearer abc123")])
  = Return
      (Response.mk 204
         (("Content-Type", "application/json") :: Index.corsHeaders) None) /\
  Index.fetch
    (Samples.upstream_answers
       (Response.mk 200 [("Content-Type", "text/csv")] (Some "id,name")))
    (Samples.bodiless "GET" "/api/v1/courses" []
       [("Authorization", "Bearer abc123")])
  = Return
      (Response.mk 200 (("Content-Type", "text/csv") :: Index.corsHeaders)
         (Some "id,name")).
Proof.
  split; [|split].
  - apply (proxy_forwards_and_relays Samples.offline
             (Samples.bodiless "GET" "/api/v1/courses" [] []));
      [discriminate | reflexivity | reflexivity].
  - refine (proj2
              (proj2
                 (proj2
                    (proj1
                       (proj2
                          (proxy_forwards_and_relays
                             (Samples.upstream_answers
                                (Response.mk 204 [] None))
                             (Samples.bodiless "DELETE" "/api/v1/courses/1" []
                                [("Authorization", "Bearer abc123")])
                             _ eq_refl))
                       "Bearer abc123" eq_refl _)
                    (Some EmptyString) eq_refl)
                 (Upstream.mk 204 [] (Return EmptyString)) eq_refl)
              EmptyString eq_refl _ _);
      [discriminate | discriminate | simpl; lia | reflexivity].
  - refine (proj2
              (proj2
                 (proj2
                    (proj1
                       (proj2
                          (proxy_forwards_and_relays
                             (Samples.upstream_answers
                                (Response.mk 200
                                   [("Content-Type", "text/csv")]
                                   (Some "id,name")))
                             (Samples.bodiless "GET" "/api/v1/courses" []
                                [("Authorization", "Bearer abc123")])
                             _ eq_refl))
                       "Bearer abc123" eq_refl _)
                    None eq_refl)
                 (Upstream.mk 200 [("Content-Type", "text/csv")]
                    (Return "id,name")) eq_refl)
              "id,name" eq_refl _ _);
      [discriminate | discriminate | simpl; lia | discriminate].
Defined.

(** C5 as stated fails on five requests under [/api/v1/]: an [OPTIONS]
    request without [Authorization] is answered 200 by the preflight
    branch; a request whose [Authorization] header is present but empty
    is answered 401 and not forwarded; an upstream answer that names no
    content type comes back as [application/json]; a request body that
    is no UTF-8 text goes upstream changed, each offending byte replaced
    by U+FFFD; and of an upstream body that opens with a byte order mark
    the mark is not relayed. *)
Lemma proxy_claim_fails_on_options_empty_header_and_missing_type :
  Index.fetch Samples.offline
    (Samples.bodiless "OPTIONS" "/api/v1/courses" [] [])
  = Return preflight /\
  Response.status preflight = 200%Z /\
  Headers_get "Authorization" [("Authorization", "")] = Some "" /\
  Index.fetch (Samples.upstream_answers (Response.mk 200 [] (Some "ok")))
    (Samples.bodiless "GET" "/api/v1/courses" [] [("Authorization", "")])
  = Return (json_error 401 "Missing Authorization header") /\
  Headers_get "Content-Type" (Response.headers (Response.mk 200 [] (Some "ok")))
  = None /\
  option_map (fun r => Headers_get "Content-Type" (Response.headers r))
    (match Index.fetch
             (Samples.upstream_answers (Response.mk 200 [] (Some "ok")))
             (Samples.bodiless "GET" "/api/v1/courses" []
                [("Authorization", "Bearer abc123")]) with
     | Return r => Some r
     | Throw _ => None
     end)
  = Some (Some "application/json") /\
  Request.body (Samples.bytes_post "/api/v1/files" Samples.not_text)
  = Return Samples.not_text /\
  forwarded_body (Samples.bytes_post "/api/v1/files" Samples.not_text)
  = Return (Some (replacement ++ replacement)) /\
  Index.fetch Samples.echo
    (Samples.bytes_post "/api/v1/files" Samples.not_text)
  = Return
      (Response.mk 200
         (("Content-Type", "application/json") :: Index.corsHeaders)
         (Some (replacement ++ replacement))) /\
  Index.fetch
    (Samples.upstream_answers
       (Response.mk 200 [] (Some (byte_order_mark ++ "{}"))))
    (Samples.bodiless "GET" "/api/v1/courses" []
       [("Authorization", "Bearer abc123")])
  = Return
      (Response.mk 200
         (("Content-Type", "application/json") :: Index.corsHeaders)
         (Some "{}")).
Proof. repeat split. Qed.

(** ** What each branch can answer *)

Lemma authorize_answers (request : Request.t) (response : Response.t) :
  Index.authorize request = Return response ->
  response = plain400 "Missing redirect_uri" \/
  exists page, response = html_page page.
Proof.
  unfold Index.authorize.
  destruct (falsy (entries_get "redirect_uri" (Request.searchParams request)));
    intros H; injection H as <-; [now left | right; now eexists].
Qed.

Lemma callback_answers (env : Platform) (request : Request.t)
  (response : Response.t) :
  Index.callback env request = Return response ->
  response = plain400 "Missing token or redirect_uri" \/
  exists url, response = redirect_to url.
Proof.
  unfold Index.callback.
  destruct (Request.formData request) as [fd|e]; [|discriminate].
  simpl bind.
  destruct (falsy (entries_get "token" fd)
            || falsy (entries_get "redirect_uri" fd)).
  - intros H. injection H as <-. now left.
  - cbv zeta. unfold Response_redirect.
    destruct (URL_parse env _) as [href|]; [|discriminate].
    intros H. injection H as <-. right. now exists href.
Qed.

Lemma read_code_answers (request : Request.t) (response : Response.t) :
  Index.read_code request = Return (inr response) ->
  response = json_error 400 "Invalid request format".
Proof.
  unfold Index.read_code. cbv zeta.
  destruct (includes _ "application/x-www-form-urlencoded").
  - destruct (Request.formData request); discriminate.
  - destruct (includes _ "application/json").
    + destruct (Request.json request) as [v|e]; [|discriminate].
      simpl bind. destruct (get_property v "code"); discriminate.
    + destruct (Request.formData request); [discriminate|].
      intros H. injection H as <-. reflexivity.
Qed.

Lemma token_answers (request : Request.t) (response : Response.t) :
  Index.token request = Return response ->
  Response.headers response = Index.jsonHeaders.
Proof.
  unfold Index.token.
  destruct (Index.read_code request) as [[code | early]|e] eqn:Hread;
    [| |discriminate]; simpl bind.
  - destruct (negb (ToBoolean code)); intros H; injection H as <-;
      reflexivity.
  - intros H. injection H as <-.
    now rewrite (read_code_answers _ _ Hread).
Qed.

Lemma new_Response_headers (b : string) (st : Z) (ct : string)
  (response : Response.t) :
  new_Response (Some b)
    {| init_status := Some st;
       init_headers := ("Content-Type", ct) :: Index.corsHeaders |}
  = Return response ->
  Response.headers response = ("Content-Type", ct) :: Index.corsHeaders.
Proof.
  unfold new_Response. cbn [init_status init_headers].
  destruct ((st <? 200)%Z || (599 <? st)%Z); [discriminate|].
  destruct (null_body_status st).
  - destruct (b =? ""); [|discriminate].
    intros H. injection H as <-. reflexivity.
  - intros H. injection H as <-. reflexivity.
Qed.

Lemma proxy_answers (env : Platform)
  (request : Request.t) (response : Response.t) :
  Index.proxy env request = Return response ->
  exists ct, Response.headers response = ("Content-Type", ct) :: Index.corsHeaders.
Proof.
  unfold Index.proxy.
  destruct (falsy (Headers_get "Authorization" (Request.headers request))).
  - intros H. vm_compute in H. injection H as <-. eexists. reflexivity.
  - destruct (if negb (Request.method request =? "GET")
                  && negb (Request.method request =? "HEAD")
               then text <- Request.text request ;; Return (Some text)
               else Return None) as [body|e]; [|discriminate].
    cbn [bind].
    destruct (global_fetch env _) as [up|e]; [|discriminate]. cbn [bind].
    destruct (Upstream.text up) as [responseBody|e]; [|discriminate].
    cbn [bind].
    intros H. apply new_Response_headers in H. eexists. exact H.
Qed.

Lemma typed_cors_headers_carry (response : Response.t) (ct : string) :
  Response.headers response = ("Content-Type", ct) :: Index.corsHeaders ->
  carries_cors response = true.
Proof. intros H. unfold carries_cors. now rewrite H. Qed.

(** The seven ways the dispatcher of [src/index.js] can go. *)
Lemma index_routes (env : Platform)
  (request : Request.t) :
  Index.fetch env request = Return preflight \/
  Index.fetch env request = Return (html_page Index.getHomePage) \/
  Index.fetch env request = Index.authorize request \/
  Index.fetch env request = Index.callback env request \/
  Index.fetch env request = Index.token request \/
  Index.fetch env request = Index.proxy env request \/
  Index.fetch env request = Return not_found.
Proof.
  unfold Index.fetch.
  destruct (Request.method request =? "OPTIONS"); [now left|].
  destruct ((Request.pathname request =? "/")
            || (Request.pathname request =? "")); [now right; left|].
  destruct (Request.pathname request =? "/authorize");
    [now right; right; left|].
  destruct ((Request.pathname request =? "/callback")
            && (Request.method request =? "POST"));
    [now right; right; right; left|].
  destruct ((Request.pathname request =? "/token")
            && (Request.method request =? "POST"));
    [now right; right; right; right; left|].
  destruct (startsWith (Request.pathname request) "/api/v1/");
    [now right; right; right; right; right; left|].
  now right; right; right; right; right; right.
Qed.

(** ** Cross-origin headers *)

(** C6 (as amended): every response of the dispatcher carries the three
    permissive cross-origin headers, except the two plain-text 400
    rejections and the 302 redirect of [/callback], which carry none of
    them; the plain-text 404 does carry them; and an [OPTIONS] request on
    any path is answered by the empty 200 response whose headers are
    exactly those three. *)
Theorem cors_on_all_but_bare_rejections_and_redirect :
  forall (env : Platform) (request : Request.t)
         (response : Response.t),
    Index.fetch env request = Return response ->
    (Request.method request = "OPTIONS" -> response = preflight) /\
    (Response.status response = 404%Z -> carries_cors response = true) /\
    (carries_cors response = true \/
     lacks_cors response = true /\
     (response = plain400 "Missing redirect_uri" \/
      response = plain400 "Missing token or redirect_uri" \/
      exists url, response = redirect_to url)).
Proof.
  intros env request response H.
  assert (Hclass :
            carries_cors response = true \/
            lacks_cors response = true /\
            (response = plain400 "Missing redirect_uri" \/
             response = plain400 "Missing token or redirect_uri" \/
             exists url, response = redirect_to url)).
  { destruct (index_routes env request)
      as [E | [E | [E | [E | [E | [E | E]]]]]]; rewrite E in H.
    - injection H as <-. now left.
    - injection H as <-. now left.
    - apply authorize_answers in H as [-> | (page & ->)];
        [right; split; [reflexivity | now left] | now left].
    - apply callback_answers in H as [-> | (url & ->)];
        right; (split; [reflexivity|]);
        [right; now left | right; right; now exists url].
    - apply token_answers in H. left.
      now apply typed_cors_headers_carry with (ct := "application/json").
    - apply proxy_answers in H as (ct & H). left.
      now apply typed_cors_headers_carry with (ct := ct).
    - injection H as <-. now left. }
  split; [|split].
  - intros Hm. rewrite (index_options _ _ Hm) in H. now injection H as <-.
  - intros Hst.
    destruct Hclass as [Hc | (_ & [-> | [-> | (url & ->)]])];
      [exact Hc | discriminate | discriminate | discriminate].
  - exact Hclass.
Qed.

(** The 404 of an unknown path carries the cross-origin headers. *)
Lemma cors_on_all_but_bare_rejections_and_redirect_witness :
  Index.fetch Samples.offline (Samples.bodiless "GET" "/nowhere" [] [])
  = Return not_found /\
  carries_cors not_found = true.
Proof.
  split; [reflexivity|].
  exact (proj1 (proj2 (cors_on_all_but_bare_rejections_and_redirect
                         Samples.offline
                         (Samples.bodiless "GET" "/nowhere" [] [])
                         not_found eq_refl))
           eq_refl).
Defined.

(** C6 as stated fails on both of its particulars: the 302 redirect of
    [/callback] carries no cross-origin header, and the plain-text 404
    carries all three. *)
Lemma redirect_lacks_cors_and_not_found_carries_them :
  Index.fetch Samples.offline
    (Samples.form_post "/callback"
       [("token", "abc123"); ("redirect_uri", "https://chat.example/cb");
        ("state", "xyz")])
  = Return (redirect_to "https://chat.example/cb?code=abc123&state=xyz") /\
  carries_cors (redirect_to "https://chat.example/cb?code=abc123&state=xyz")
  = false /\
  lacks_cors (redirect_to "https://chat.example/cb?code=abc123&state=xyz")
  = true /\
  Index.fetch Samples.offline (Samples.bodiless "GET" "/nowhere" [] [])
  = Return not_found /\
  Response.status not_found = 404%Z /\
  is_plain_text not_found = true /\
  carries_cors not_found = true.
Proof. repeat split. Qed.

(** ** The fallback *)

(** C7 (as amended): a request that is not [OPTIONS], whose path is none
    of [/], the empty path and [/authorize], that is not [POST /callback]
    or [POST /token], and whose path does not begin with [/api/v1/], is
    answered 404 with the plain-text body [Not found]. The paths [/] and
    [/authorize] are served to every method but [OPTIONS] exactly as to
    [GET], and never fall through to that 404. *)
Theorem unmatched_requests_get_404 :
  forall (env : Platform) (request : Request.t),
    Request.method request <> "OPTIONS" ->
    (Request.pathname request <> "/" ->
     Request.pathname request <> "" ->
     Request.pathname request <> "/authorize" ->
     ~ (Request.pathname request = "/callback"
        /\ Request.method request = "POST") ->
     ~ (Request.pathname request = "/token"
        /\ Request.method request = "POST") ->
     startsWith (Request.pathname request) "/api/v1/" = false ->
     Index.fetch env request = Return not_found /\
     Response.status not_found = 404%Z /\
     Response.body not_found = Some "Not found" /\
     is_plain_text not_found = true) /\
    (Request.pathname request = "/" \/ Request.pathname request = ""
     \/ Request.pathname request = "/authorize" ->
     Index.fetch env request = Index.fetch env (with_method "GET" request) /\
     forall response,
       Index.fetch env request = Return response ->
       (Response.status response =? 404)%Z = false).
Proof.
  intros env request Hm. split.
  - intros H1 H2 H3 H4 H5 H6. repeat split.
    now apply index_fallback.
  - intros Hp.
    assert (Hget : Request.method (with_method "GET" request) <> "OPTIONS")
      by (simpl; discriminate).
    destruct Hp as [Hp | [Hp | Hp]].
    + rewrite (index_home env request Hm (or_introl Hp)).
      rewrite (index_home env (with_method "GET" request) Hget (or_introl Hp)).
      split; [reflexivity|]. intros response H. now injection H as <-.
    + rewrite (index_home env request Hm (or_intror Hp)).
      rewrite (index_home env (with_method "GET" request) Hget (or_intror Hp)).
      split; [reflexivity|]. intros response H. now injection H as <-.
    + rewrite (index_authorize env request Hm Hp).
      rewrite (index_authorize env (with_method "GET" request) Hget Hp).
      split; [reflexivity|]. intros response H.
      apply authorize_answers in H as [-> | (page & ->)]; reflexivity.
Qed.

(** A [DELETE] on [/callback] falls through; a [POST] on [/] is served
    as a [GET] is. *)
Lemma unmatched_requests_get_404_witness :
  Index.fetch Samples.offline (Samples.bodiless "DELETE" "/callback" [] [])
  = Return not_found /\
  Index.fetch Samples.offline (Samples.bodiless "POST" "/" [] [])
  = Index.fetch Samples.offline (Samples.bodiless "GET" "/" [] []).
Proof.
  split.
  - apply (proj1 (unmatched_requests_get_404 Samples.offline
                    (Samples.bodiless "DELETE" "/callback" [] [])
                    ltac:(discriminate)));
      try discriminate; try reflexivity;
      intros [_ H]; discriminate H.
  - apply (proj2 (unmatched_requests_get_404 Samples.offline
                    (Samples.bodiless "POST" "/" [] [])
                    ltac:(discriminate))).
    now left.
Defined.

(** C7 as stated fails on its particular: a [POST] to [/] is served the
    landing page with status 200, and a [POST] to [/authorize] gets the
    page's own 400 or 200, not 404. *)
Lemma post_to_pages_is_served :
  Index.fetch Samples.offline (Samples.bodiless "POST" "/" [] [])
  = Return (html_page Index.getHomePage) /\
  Response.status (html_page Index.getHomePage) = 200%Z /\
  Index.fetch Samples.offline (Samples.bodiless "POST" "/authorize" [] [])
  = Return (plain400 "Missing redirect_uri") /\
  Response.status (plain400 "Missing redirect_uri") = 400%Z /\
  (exists page,
      Index.fetch Samples.offline
        (Samples.bodiless "POST" "/authorize"
           [("redirect_uri", "https://chat.example/cb")] [])
      = Return (html_page page)).
Proof. repeat split. eexists. reflexivity. Qed.

(** ** Parse failures of the token exchange *)

Lemma token_never_invalid_when_recognized (request : Request.t) :
  includes (contentType request) "application/x-www-form-urlencoded" = true
  \/ includes (contentType request) "application/json" = true ->
  forall code, Index.read_code request <> Return (inr code).
Proof.
  unfold contentType, Index.read_code. cbv zeta. intros H code.
  destruct (includes _ "application/x-www-form-urlencoded").
  - destruct (Request.formData request); discriminate.
  - destruct H as [H | H]; [discriminate|]. rewrite H.
    destruct (Request.json request) as [v|e]; [|discriminate].
    simpl bind. destruct (get_property v "code"); discriminate.
Qed.

(** C9: on [POST /token] the structured 400 [Invalid request format]
    guards the unrecognized-content-type fallback only. Under a content
    type containing [application/x-www-form-urlencoded] a failing form
    parse, and under one containing [application/json] (reached when the
    form test, which comes first, fails) a failing JSON parse, leave the
    handler as the exception they are; under either content type the
    handler never answers with the structured error; so [fetch] does not
    return a response for every request. *)
Theorem token_parse_failures_escape :
  forall (env : Platform) (request : Request.t)
         (e : JsError),
    Request.method request = "POST" ->
    Request.pathname request = "/token" ->
    (includes (contentType request) "application/x-www-form-urlencoded" = true ->
     Request.formData request = Throw e ->
     Index.fetch env request = Throw e) /\
    (includes (contentType request) "application/x-www-form-urlencoded" = false ->
     includes (contentType request) "application/json" = true ->
     Request.json request = Throw e ->
     Index.fetch env request = Throw e) /\
    (includes (contentType request) "application/x-www-form-urlencoded" = true
     \/ includes (contentType request) "application/json" = true ->
     Index.fetch env request
     <> Return (json_error 400 "Invalid request format")) /\
    (exists (request' : Request.t) (e' : JsError),
        Request.method request' = "POST" /\
        Request.pathname request' = "/token" /\
        Index.fetch env request' = Throw e').
Proof.
  intros env request e Hm Hp. rewrite (index_token _ _ Hm Hp).
  split; [|split; [|split]].
  - unfold contentType. intros Hct Hfd.
    unfold Index.token, Index.read_code. cbv zeta. now rewrite Hct, Hfd.
  - unfold contentType. intros Hform Hjson Hthrow.
    unfold Index.token, Index.read_code. cbv zeta.
    now rewrite Hform, Hjson, Hthrow.
  - intros Hct Heq. unfold Index.token in Heq.
    destruct (Index.read_code request) as [[code | early]|err] eqn:Hread.
    + simpl bind in Heq.
      destruct (negb (ToBoolean code)); discriminate Heq.
    + now apply (token_never_invalid_when_recognized _ Hct early).
    + discriminate Heq.
  - exists (Samples.raw_post "/token" "application/json"), SyntaxError.
    repeat split.
Qed.

(** A body that is neither JSON nor a form, under each of the two
    recognized content types. *)
Lemma token_parse_failures_escape_witness :
  Index.fetch Samples.offline (Samples.raw_post "/token" "application/json")
  = Throw SyntaxError /\
  Index.fetch Samples.offline
    (Samples.raw_post "/token" "application/x-www-form-urlencoded")
  = Throw TypeError.
Proof.
  split.
  - apply (proj1 (proj2 (token_parse_failures_escape Samples.offline
                           (Samples.raw_post "/token" "application/json")
                           SyntaxError eq_refl eq_refl)));
      reflexivity.
  - apply (proj1 (token_parse_failures_escape Samples.offline
                    (Samples.raw_post "/token"
                       "application/x-www-form-urlencoded")
                    TypeError eq_refl eq_refl));
      reflexivity.
Defined.

(** ** The two copies of the dispatcher *)

Lemma part000_options (env : Platform) (request : Request.t) :
  Request.method request = "OPTIONS" ->
  Part000.fetch env request = Return preflight.
Proof. intros H. unfold Part000.fetch. now rewrite H. Qed.

Lemma part000_home (env : Platform) (request : Request.t) :
  Request.method request <> "OPTIONS" ->
  Request.pathname request = "/" \/ Request.pathname request = "" ->
  Part000.fetch env request = Return (html_page Part000.getHomePage).
Proof.
  intros Hm Hp. unfold Part000.fetch. rewrite (not_options _ Hm).
  destruct Hp as [-> | ->]; reflexivity.
Qed.

Lemma part000_authorize (env : Platform) (request : Request.t) (r : string) :
  Request.method request <> "OPTIONS" ->
  Request.pathname request = "/authorize" ->
  entries_get "redirect_uri" (Request.searchParams request) = Some r ->
  r <> "" ->
  Part000.fetch env request =
  Return (html_page
            (Part000.getAuthPage (Some r)
               (entries_get "state" (Request.searchParams request)))).
Proof.
  intros Hm Hp Hr Hre. unfold Part000.fetch.
  rewrite (not_options _ Hm), Hp. simpl.
  unfold Part000.authorize. rewrite Hr, (falsy_some _ Hre). reflexivity.
Qed.

(** On [/callback] and [/token] the two copies agree for every method. *)
Lemma copies_agree_on_exchange (env : Platform)
  (request : Request.t) :
  Request.pathname request = "/callback"
  \/ Request.pathname request = "/token" ->
  Part000.fetch env request = Index.fetch env request.
Proof.
  intros Hp. unfold Part000.fetch, Index.fetch.
  destruct (Request.method request =? "OPTIONS"); [reflexivity|].
  destruct Hp as [-> | ->]; simpl;
    destruct (Request.method request =? "POST"); reflexivity.
Qed.

(** C10 (as amended): the two copies of the dispatcher are not equal as
    functions from requests to responses. They agree on every [OPTIONS]
    request and on every request to [/callback] and [/token]. On [/] both
    answer 200 with the same headers, but the two landing pages are
    different documents. On [/authorize] the earlier copy writes
    [redirect_uri] and [state] into the hidden fields as they are, where
    [src/index.js] writes them escaped (and decodable). A request under
    [/api/v1/] falls through to 404 in the earlier copy and reaches the
    proxy in [src/index.js]. *)
Theorem copies_differ_on_pages_and_proxy :
  forall (env : Platform) (request : Request.t),
    (Request.method request = "OPTIONS"
     \/ Request.pathname request = "/callback"
     \/ Request.pathname request = "/token" ->
     Part000.fetch env request = Index.fetch env request) /\
    (Request.method request <> "OPTIONS" ->
     Request.pathname request = "/" ->
     Index.fetch env request = Return (html_page Index.getHomePage) /\
     Part000.fetch env request = Return (html_page Part000.getHomePage) /\
     (Index.getHomePage =? Part000.getHomePage) = false) /\
    (Request.method request <> "OPTIONS" ->
     Request.pathname request = "/authorize" ->
     forall r : string,
       entries_get "redirect_uri" (Request.searchParams request) = Some r ->
       r <> "" ->
       let state := entries_get "state" (Request.searchParams request) in
       Index.fetch env request
       = Return (html_page (Index.getAuthPage (Some r) state)) /\
       hiddenValue "redirect_uri" (Index.getAuthPage (Some r) state)
       = Some (Index.escapeHtml (Some r)) /\
       htmlDecode (Index.escapeHtml (Some r)) = r /\
       Part000.fetch env request
       = Return (html_page (Part000.getAuthPage (Some r) state)) /\
       Part000.getAuthPage (Some r) state
       = Part000.authPage_head ++ r ++ Part000.authPage_between
           ++ or_else state "" ++ Part000.authPage_tail) /\
    (Request.method request <> "OPTIONS" ->
     startsWith (Request.pathname request) "/api/v1/" = true ->
     Part000.fetch env request = Return not_found /\
     Index.fetch env request = Index.proxy env request /\
     (falsy (Headers_get "Authorization" (Request.headers request)) = true ->
      Index.fetch env request
      = Return (json_error 401 "Missing Authorization header"))) /\
    (exists request' : Request.t,
        Part000.fetch env request' <> Index.fetch env request').
Proof.
  intros env request. split; [|split; [|split; [|split]]].
  - intros [Hm | Hp].
    + now rewrite part000_options, index_options.
    + now apply copies_agree_on_exchange.
  - intros Hm Hp. split; [|split].
    + apply index_home; auto.
    + apply part000_home; auto.
    + vm_compute. reflexivity.
  - intros Hm Hp r Hr Hre state. split; [|split; [|split; [|split]]].
    + rewrite index_authorize by assumption.
      now apply authorize_serves_form.
    + apply hiddenValue_redirect_uri.
    + rewrite htmlDecode_escapeHtml. simpl.
      apply String.eqb_neq in Hre. now rewrite Hre.
    + now apply part000_authorize.
    + unfold Part000.getAuthPage. simpl or_else.
      apply String.eqb_neq in Hre. now rewrite Hre.
  - intros Hm Hp. split; [|split].
    + now apply part000_api_not_found.
    + now apply index_proxy.
    + intros Ha. rewrite index_proxy by assumption.
      now apply proxy_unauthorized.
  - exists (Samples.bodiless "GET" "/" [] []).
    vm_compute. discriminate.
Qed.

(** The copies agree on a token exchange and part on a proxied path. *)
Lemma copies_differ_on_pages_and_proxy_witness :
  Part000.fetch Samples.offline (Samples.form_post "/token" [("code", "abc123")])
  = Index.fetch Samples.offline
      (Samples.form_post "/token" [("code", "abc123")]) /\
  Part000.fetch Samples.offline (Samples.bodiless "GET" "/api/v1/courses" [] [])
  = Return not_found.
Proof.
  split.
  - apply (proj1 (copies_differ_on_pages_and_proxy Samples.offline
                    (Samples.form_post "/token" [("code", "abc123")]))).
    right. now right.
  - apply (proj1 (proj2 (proj2 (proj2 (copies_differ_on_pages_and_proxy
                                         Samples.offline
                                         (Samples.bodiless "GET"
                                            "/api/v1/courses" [] []))))));
      [discriminate | reflexivity].
Defined.

(** C10 as stated fails on [/]: both copies answer [GET /] with status
    200 and the same headers, but with different HTML documents. *)
Lemma copies_serve_different_landing_pages :
  Index.fetch Samples.offline (Samples.bodiless "GET" "/" [] [])
  = Return (html_page Index.getHomePage) /\
  Part000.fetch Samples.offline (Samples.bodiless "GET" "/" [] [])
  = Return (html_page Part000.getHomePage) /\
  (Index.getHomePage =? Part000.getHomePage) = false /\
  includes Index.getHomePage "Connect ChatGPT to your Canvas account." = true /\
  includes Part000.getHomePage "Connect ChatGPT to your Canvas account." = false.
Proof. repeat split; vm_compute; reflexivity. Qed.

(** * Further properties of the code *)

Import Flow.

(** ** [escapeHtml] as a function on strings *)

Lemma escape_chars_app (a b : string) :
  escape_chars (a ++ b) = escape_chars a ++ escape_chars b.
Proof.
  induction a as [|c a IH]; [reflexivity|].
  simpl. now rewrite IH, append_assoc.
Qed.

(** [escapeHtml] rewrites every character on its own, whatever stands
    around it: it distributes over concatenation, sends the ampersand,
    the quote and the two angle brackets to their references and leaves
    every other character alone. The chained replacements never escape
    the ampersand of a reference written by an earlier one. *)
Theorem escapeHtml_rewrites_each_character :
  (forall a b : string,
      Index.escapeHtml (Some (a ++ b))
      = Index.escapeHtml (Some a) ++ Index.escapeHtml (Some b)) /\
  Index.escapeHtml (Some "&") = "&amp;" /\
  Index.escapeHtml (Some dq) = "&quot;" /\
  Index.escapeHtml (Some "<") = "&lt;" /\
  Index.escapeHtml (Some ">") = "&gt;" /\
  (forall c : ascii,
      special_free (String c "") = true ->
      Index.escapeHtml (Some (String c "")) = String c "") /\
  Index.escapeHtml (Some ("<a href=" ++ dq ++ "?x&y" ++ dq ++ ">"))
  = "&lt;a href=&quot;?x&amp;y&quot;&gt;".
Proof.
  split; [|repeat split].
  - intros a b. rewrite !escapeHtml_char_by_char. apply escape_chars_app.
  - intros c H. rewrite escapeHtml_char_by_char.
    revert H. each_char c; (reflexivity || discriminate).
Qed.

(** A string of plain characters is returned as it is. *)
Lemma escapeHtml_rewrites_each_character_witness :
  Index.escapeHtml (Some "x") = "x".
Proof.
  exact (proj1 (proj2 (proj2 (proj2 (proj2 (proj2
           escapeHtml_rewrites_each_character)))))
           "x"%char eq_refl).
Defined.

Lemma special_free_app (a b : string) :
  special_free (a ++ b) = special_free a && special_free b.
Proof.
  unfold special_free. rewrite !char_free_app.
  destruct (char_free "&" a), (char_free (ascii_of_nat 34) a),
    (char_free "<" a), (char_free ">" a), (char_free "&" b),
    (char_free (ascii_of_nat 34) b), (char_free "<" b); reflexivity.
Qed.

Lemma escape_chars_fixes_special_free (s : string) :
  special_free s = true -> escape_chars s = s.
Proof.
  induction s as [|c s IH]; [reflexivity|].
  change (String c s) with (String c "" ++ s) at 1.
  rewrite special_free_app. intros H.
  apply andb_true_iff in H as [Hc Hs].
  simpl escape_chars. rewrite (IH Hs).
  revert Hc. each_char c; (reflexivity || discriminate).
Qed.

Lemma escape_char_length (c : ascii) :
  1 <= String.length (escape_char c) /\
  (String.length (escape_char c) = 1 -> special_free (String c "") = true).
Proof. each_char c; split; simpl; (lia || reflexivity || discriminate). Qed.

Lemma escape_chars_length (s : string) :
  String.length s <= String.length (escape_chars s) /\
  (String.length (escape_chars s) = String.length s ->
   special_free s = true).
Proof.
  induction s as [|c s [IHle IHeq]]; [split; [simpl; lia | reflexivity]|].
  simpl escape_chars. rewrite length_append.
  destruct (escape_char_length c) as [Hle Heq]. simpl String.length.
  split; [lia|]. intros H.
  change (String c s) with (String c "" ++ s). rewrite special_free_app.
  apply andb_true_iff. split; [apply Heq | apply IHeq]; lia.
Qed.

Lemma escape_chars_special_free (s : string) :
  special_free (escape_chars s) = special_free s.
Proof.
  induction s as [|c s IH]; [reflexivity|].
  simpl escape_chars.
  change (String c s) with (String c "" ++ s).
  rewrite !special_free_app, IH. f_equal.
  each_char c; reflexivity.
Qed.

(** [escapeHtml] never shortens its argument; it returns its argument
    unchanged exactly when that holds none of the four characters, so a
    second application changes every string the first one changed (it is
    not idempotent); and different arguments give different results. *)
Theorem escapeHtml_fixed_points_and_injectivity :
  forall s : string,
    String.length s <= String.length (Index.escapeHtml (Some s)) /\
    (Index.escapeHtml (Some s) = s <-> special_free s = true) /\
    (Index.escapeHtml (Some (Index.escapeHtml (Some s)))
     = Index.escapeHtml (Some s) <-> special_free s = true) /\
    (forall s' : string,
        Index.escapeHtml (Some s) = Index.escapeHtml (Some s') -> s = s').
Proof.
  intros s. rewrite !escapeHtml_char_by_char.
  split; [|split; [|split]].
  - apply escape_chars_length.
  - split.
    + intros H. apply escape_chars_length. now rewrite H.
    + apply escape_chars_fixes_special_free.
  - split.
    + intros H. rewrite <- escape_chars_special_free.
      apply escape_chars_length. now rewrite H.
    + intros H. now rewrite !(escape_chars_fixes_special_free _ H).
  - intros s' H. rewrite escapeHtml_char_by_char in H.
    rewrite <- (htmlDecode_escape_chars s), <- (htmlDecode_escape_chars s').
    now rewrite H.
Qed.

(** Two arguments with the same result are the same argument. *)
Lemma escapeHtml_fixed_points_and_injectivity_witness :
  "a<b" = "a<b".
Proof.
  exact (proj2 (proj2 (proj2 (escapeHtml_fixed_points_and_injectivity "a<b")))
           "a<b" eq_refl).
Defined.

(** ** The markup of the authorization page *)

Lemma count_char_app (c : ascii) (a b : string) :
  count_char c (a ++ b) = count_char c a + count_char c b.
Proof.
  induction a as [|x a IH]; [reflexivity|].
  simpl. rewrite IH. lia.
Qed.

Lemma count_char_free (c : ascii) (s : string) :
  char_free c s = true -> count_char c s = 0.
Proof.
  induction s as [|x s IH]; [reflexivity|].
  simpl. intros H. apply andb_true_iff in H as [Hx Hs].
  apply negb_true_iff in Hx. rewrite Hx. now apply IH.
Qed.

Lemma markup_free_gt (s : string) :
  markup_free s = true -> char_free ">" s = true.
Proof.
  unfold markup_free. intros H. now apply andb_true_iff in H as [_ H].
Qed.

Lemma count_in_auth_page (c : ascii) (redirectUri state : option string) :
  char_free c (Index.escapeHtml redirectUri) = true ->
  char_free c (Index.escapeHtml state) = true ->
  count_char c (Index.getAuthPage redirectUri state)
  = count_char c (Index.getAuthPage None None).
Proof.
  intros Hr Hs. unfold Index.getAuthPage.
  rewrite !count_char_app.
  rewrite (count_char_free _ _ Hr), (count_char_free _ _ Hs).
  reflexivity.
Qed.

(** In the login form of [src/index.js] the number of quotes and of angle
    brackets is the same for every [redirect_uri] and every [state]: the
    interpolated values never open or close a tag or an attribute, and
    the page always holds its form tag and its password field. *)
Theorem auth_page_markup_is_independent_of_inputs :
  forall redirectUri state : option string,
    count_char "<" (Index.getAuthPage redirectUri state)
    = count_char "<" (Index.getAuthPage None None) /\
    count_char ">" (Index.getAuthPage redirectUri state)
    = count_char ">" (Index.getAuthPage None None) /\
    count_char (ascii_of_nat 34) (Index.getAuthPage redirectUri state)
    = count_char (ascii_of_nat 34) (Index.getAuthPage None None).
Proof.
  intros redirectUri state.
  pose proof (escapeHtml_markup_free redirectUri) as Hr.
  pose proof (escapeHtml_markup_free state) as Hs.
  split; [|split]; apply count_in_auth_page;
    auto using markup_free_lt, markup_free_gt, markup_free_quote.
Qed.

(** ** The hidden fields of the earlier copy *)









(** ** The whole login flow *)

Lemma startsWith_app (a m x : string) :
  startsWith a m = true -> startsWith (a ++ x) m = true.
Proof.
  revert a. induction m as [|c m IH]; intros a H; [reflexivity|].
  destruct a as [|d a]; [discriminate|]. simpl in *.
  apply andb_true_iff in H as [Hc Ha]. rewrite Hc. now apply IH.
Qed.

Lemma startsWith_own_prefix (r x : string) : startsWith (r ++ x) r = true.
Proof.
  induction r as [|c r IH]; [reflexivity|].
  simpl. now rewrite Ascii.eqb_refl.
Qed.

Lemma includes_app_l (a m x : string) :
  includes a m = true -> includes (a ++ x) m = true.
Proof.
  induction a as [|c a IH]; simpl.
  - destruct (startsWith "" m) eqn:E; [|discriminate].
    intros _. destruct m; [|discriminate]. destruct x; reflexivity.
  - destruct (startsWith (String c a) m) eqn:E.
    + intros _. change (String c (a ++ x)) with (String c a ++ x).
      now rewrite (startsWith_app _ _ x E).
    + intros H. destruct (startsWith (String c (a ++ x)) m); [reflexivity|].
      now apply IH.
Qed.

Lemma includes_app_r (a m x : string) :
  includes x m = true -> includes (a ++ x) m = true.
Proof.
  intros H. induction a as [|c a IH]; [exact H|].
  simpl. destruct (startsWith (String c (a ++ x)) m); [reflexivity | exact IH].
Qed.

Lemma or_else_twice (o : option string) :
  or_else (Some (or_else o "")) "" = or_else o "".
Proof.
  destruct o as [s|]; [|reflexivity]. simpl.
  destruct (s =? "") eqn:E; [reflexivity|]. now rewrite E.
Qed.

Lemma auth_page_holds_form (redirectUri state : option string) :
  includes (Index.getAuthPage redirectUri state) form_tag = true /\
  includes (Index.getAuthPage redirectUri state) token_field = true.
Proof.
  unfold Index.getAuthPage. split.
  - apply includes_app_l. vm_compute. reflexivity.
  - do 4 apply includes_app_r. vm_compute. reflexivity.
Qed.

(** The three steps of [src/index.js] compose. The page served for an
    authorization request with a non-empty [redirect_uri] [r] holds a
    form that posts to [/callback] with a field named [token]; submitting
    it with a non-empty credential [t] is answered by a redirect to a URL
    that begins with [r] (when the built URL is an absolute URL in
    serialised form); if [r] has no query or fragment, that URL's [state]
    parameter decodes to the [state] the flow began with and its [code]
    parameter decodes to [t]; and exchanging that code returns [t] as the
    access token. *)
Theorem login_flow_hands_credential_and_state_back :
  forall (env : Platform) (request : Request.t) (r t : string),
    Request.method request <> "OPTIONS" ->
    Request.pathname request = "/authorize" ->
    entries_get "redirect_uri" (Request.searchParams request) = Some r ->
    r <> "" ->
    t <> "" ->
    let s := or_else (entries_get "state" (Request.searchParams request)) "" in
    let location :=
      r ++ "?code=" ++ encodeURIComponent t ++ "&state="
        ++ encodeURIComponent s in
    URL_parse env location = Some location ->
    char_free "?" r = true ->
    char_free "#" r = true ->
    exists (page : string) (fd : list (string * string)) (code state : string),
      Index.fetch env request = Return (html_page page) /\
      includes page form_tag = true /\
      includes page token_field = true /\
      submit page t = Some fd /\
      Index.fetch env (post_form "/callback" fd)
      = Return (redirect_to location) /\
      startsWith location r = true /\
      queryParam "state" location = Some state /\
      decodeURIComponent state = Some s /\
      queryParam "code" location = Some code /\
      decodeURIComponent code = Some t /\
      Index.fetch env (post_form "/token" [("code", t)])
      = Return (token_response t).
Proof.
  intros env request r t Hm Hp Hr Hre Hte s location Hurl Hq Hh.
  set (state := entries_get "state" (Request.searchParams request)) in *.
  exists (Index.getAuthPage (Some r) state),
    [("redirect_uri", r); ("state", s); ("token", t)],
    (encodeURIComponent t), (encodeURIComponent s).
  destruct (auth_page_holds_form (Some r) state) as [Hform Hfield].
  destruct (queryParam_of_redirect r (encodeURIComponent t)
              (encodeURIComponent s) Hq Hh
              (encodeURIComponent_delimiter_free t)
              (encodeURIComponent_delimiter_free s)) as [Hcode Hstate].
  repeat match goal with |- _ /\ _ => split end.
  - rewrite index_authorize by assumption. now apply authorize_serves_form.
  - exact Hform.
  - exact Hfield.
  - unfold submit.
    rewrite hiddenValue_redirect_uri, hiddenValue_state.
    rewrite !htmlDecode_escapeHtml. simpl or_else at 1.
    apply String.eqb_neq in Hre. now rewrite Hre.
  - rewrite index_callback by reflexivity.
    apply callback_redirects
      with (fd := [("redirect_uri", r); ("state", s); ("token", t)])
           (t := t) (r := r); try reflexivity; try assumption.
    simpl entries_get. unfold s. rewrite or_else_twice. exact Hurl.
  - apply startsWith_own_prefix.
  - exact Hstate.
  - apply decodeURIComponent_encodeURIComponent.
  - exact Hcode.
  - apply decodeURIComponent_encodeURIComponent.
  - rewrite index_token by reflexivity.
    apply token_grants with (code := JString t).
    + apply read_code_carried. eapply code_in_form; reflexivity.
    + now apply truthy_string.
Qed.

(** The specification's three scenarios, chained. *)
Lemma login_flow_hands_credential_and_state_back_witness :
  exists (page : string) (fd : list (string * string)) (code state : string),
    Index.fetch Samples.offline
      (Samples.bodiless "GET" "/authorize"
         [("redirect_uri", "https://chat.example/cb"); ("state", "xyz")] [])
    = Return (html_page page) /\
    includes page form_tag = true /\
    includes page token_field = true /\
    submit page "abc123" = Some fd /\
    Index.fetch Samples.offline (post_form "/callback" fd)
    = Return (redirect_to "https://chat.example/cb?code=abc123&state=xyz") /\
    startsWith "https://chat.example/cb?code=abc123&state=xyz"
      "https://chat.example/cb" = true /\
    queryParam "state" "https://chat.example/cb?code=abc123&state=xyz"
    = Some state /\
    decodeURIComponent state = Some "xyz" /\
    queryParam "code" "https://chat.example/cb?code=abc123&state=xyz"
    = Some code /\
    decodeURIComponent code = Some "abc123" /\
    Index.fetch Samples.offline (post_form "/token" [("code", "abc123")])
    = Return (token_response "abc123").
Proof.
  apply (login_flow_hands_credential_and_state_back Samples.offline
           (Samples.bodiless "GET" "/authorize"
              [("redirect_uri", "https://chat.example/cb"); ("state", "xyz")]
              [])
           "https://chat.example/cb" "abc123");
    try discriminate; reflexivity.
Defined.

(** ** Exceptions *)

(** The dispatch of [src/index.js], with the condition of each branch. *)
Lemma index_dispatch (env : Platform) (request : Request.t) :
  Request.method request = "OPTIONS"
  /\ Index.fetch env request = Return preflight \/
  Request.method request <> "OPTIONS"
  /\ (Index.fetch env request = Return (html_page Index.getHomePage) \/
      Request.pathname request = "/authorize"
      /\ Index.fetch env request = Index.authorize request \/
      Request.method request = "POST"
      /\ Request.pathname request = "/callback"
      /\ Index.fetch env request = Index.callback env request \/
      Request.method request = "POST"
      /\ Request.pathname request = "/token"
      /\ Index.fetch env request = Index.token request \/
      startsWith (Request.pathname request) "/api/v1/" = true
      /\ Index.fetch env request = Index.proxy env request \/
      Index.fetch env request = Return not_found).
Proof.
  destruct (String.eqb_spec (Request.method request) "OPTIONS") as [Hm|Hm].
  { left. split; [exact Hm | now apply index_options]. }
  right. split; [exact Hm|].
  unfold Index.fetch. rewrite (not_options _ Hm).
  destruct ((Request.pathname request =? "/")
            || (Request.pathname request =? "")); [now left|].
  destruct (String.eqb_spec (Request.pathname request) "/authorize") as [Hp|Hp];
    [right; left; now split|].
  destruct (String.eqb_spec (Request.pathname request) "/callback") as [Hc|Hc];
    destruct (String.eqb_spec (Request.method request) "POST") as [Hpost|Hpost];
    cbn [andb]; try (right; right; left; now repeat split).
  - destruct (String.eqb_spec (Request.pathname request) "/token") as [Ht|Ht];
      cbn [andb]; [rewrite Hc in Ht; discriminate|].
    destruct (startsWith _ "/api/v1/");
      [right; right; right; right; left; now split | now repeat right].
  - destruct (String.eqb_spec (Request.pathname request) "/token") as [Ht|Ht];
      cbn [andb]; [right; right; right; left; now repeat split|].
    destruct (startsWith _ "/api/v1/");
      [right; right; right; right; left; now split | now repeat right].
  - destruct (String.eqb_spec (Request.pathname request) "/token") as [Ht|Ht];
      cbn [andb].
    + destruct (startsWith _ "/api/v1/");
        [right; right; right; right; left; now split | now repeat right].
    + destruct (startsWith _ "/api/v1/");
        [right; right; right; right; left; now split | now repeat right].
Qed.

Lemma authorize_never_throws (request : Request.t) (e : JsError) :
  Index.authorize request <> Throw e.
Proof.
  unfold Index.authorize.
  destruct (falsy (entries_get "redirect_uri" (Request.searchParams request)));
    discriminate.
Qed.

Lemma falsy_false (o : option string) :
  falsy o = false -> exists a, o = Some a /\ a <> "".
Proof.
  destruct o as [a|]; [|discriminate]. intros H. exists a. split; [reflexivity|].
  intros ->. discriminate.
Qed.

(** Breaks hypotheses down and closes a goal by contradiction or
    congruence. *)
Ltac settle :=
  repeat match goal with
         | H : _ /\ _ |- _ => destruct H
         | H : _ \/ _ |- _ => destruct H
         | H : exists _, _ |- _ => destruct H
         | H : Return _ = Return _ |- _ => injection H as H; subst
         | H : Throw _ = Throw _ |- _ => injection H as H; subst
         | H : Some _ = Some _ |- _ => injection H as H; subst
         end;
  try discriminate; try congruence; try lia.

Lemma callback_throws (env : Platform) (request : Request.t) (e : JsError) :
  Index.callback env request = Throw e <->
  Request.formData request = Throw e \/
  exists fd,
    Request.formData request = Return fd /\
    falsy (entries_get "token" fd) = false /\
    falsy (entries_get "redirect_uri" fd) = false /\
    URL_parse env (redirect_url fd) = None /\
    e = TypeError.
Proof.
  unfold Index.callback.
  destruct (Request.formData request) as [fd|e'] eqn:Hfd; cbn [bind].
  - cbv zeta. fold (redirect_url fd). unfold Response_redirect.
    destruct (falsy (entries_get "token" fd)) eqn:Ht;
      destruct (falsy (entries_get "redirect_uri" fd)) eqn:Hr; cbn [orb];
      try solve [split; intros H; settle].
    destruct (URL_parse env (redirect_url fd)) eqn:Hu; cbn [redirect_status].
    + split; intros H; settle.
    + split; intros H; [|settle].
      injection H as <-. right. exists fd. auto.
  - split; intros H; [|settle]. injection H as <-. now left.
Qed.

Lemma token_throws (request : Request.t) (e : JsError) :
  Index.token request = Throw e <->
  includes (contentType request) "application/x-www-form-urlencoded" = true
  /\ Request.formData request = Throw e \/
  includes (contentType request) "application/x-www-form-urlencoded" = false
  /\ includes (contentType request) "application/json" = true
  /\ (Request.json request = Throw e \/
      exists v, Request.json request = Return v
                /\ get_property v "code" = Throw e).
Proof.
  unfold contentType, Index.token, Index.read_code. cbv zeta.
  destruct (includes _ "application/x-www-form-urlencoded").
  - destruct (Request.formData request) as [fd|e']; cbn [bind].
    + destruct (negb (ToBoolean (of_nullable (entries_get "code" fd))));
        split; intros H; settle.
    + split; intros H; [|settle]. injection H as <-. now left.
  - destruct (includes _ "application/json").
    + destruct (Request.json request) as [v|e']; cbn [bind].
      * destruct (get_property v "code") as [code|e''] eqn:Hprop; cbn [bind].
        -- destruct (negb (ToBoolean code)); split; intros H; settle.
        -- split; intros H; [|settle].
           injection H as <-. right. repeat split. right. now exists v.
      * split; intros H; [|settle].
        injection H as <-. right. repeat split. now left.
    + destruct (Request.formData request) as [fd|e']; cbn [bind].
      * destruct (negb (ToBoolean (of_nullable (entries_get "code" fd))));
          split; intros H; settle.
      * split; intros H; settle.
Qed.

(** What [new Response] makes of an upstream answer. *)
Lemma relay_outcome (up : Upstream.t) (bytes : string) :
  new_Response (Some (utf8_decode bytes))
    {| init_status := Some (Upstream.status up);
       init_headers := Response.headers (relayed up bytes) |}
  = if ((Upstream.status up <? 200) || (599 <? Upstream.status up))%Z
    then Throw RangeError
    else if null_body_status (Upstream.status up)
            && negb (utf8_decode bytes =? "")
         then Throw TypeError
         else Return (relayed up bytes).
Proof.
  unfold new_Response, relayed.
  cbn [init_status init_headers Response.headers].
  destruct ((Upstream.status up <? 200)%Z || (599 <? Upstream.status up)%Z);
    [reflexivity|].
  destruct (null_body_status (Upstream.status up)); cbn [andb].
  - destruct (utf8_decode bytes =? ""); reflexivity.
  - reflexivity.
Qed.

Lemma out_of_range (st : Z) :
  (st < 200 \/ 599 < st)%Z <-> ((st <? 200) || (599 <? st))%Z = true.
Proof. rewrite orb_true_iff, Z.ltb_lt, Z.ltb_lt. reflexivity. Qed.

Lemma in_range_status (st : Z) :
  (200 <= st <= 599)%Z <-> ((st <? 200) || (599 <? st))%Z = false.
Proof. rewrite orb_false_iff, Z.ltb_ge, Z.ltb_ge. reflexivity. Qed.

(** An exception of the proxy branch is one of the five its steps can
    raise. *)
Lemma proxy_raises (env : Platform) (request : Request.t) (e : JsError) :
  Request.method request <> "OPTIONS" ->
  startsWith (Request.pathname request) "/api/v1/" = true ->
  Index.proxy env request = Throw e -> Raises env request e.
Proof.
  intros Hm Hp.
  destruct (falsy (Headers_get "Authorization" (Request.headers request)))
    eqn:Hauth.
  { rewrite (proxy_unauthorized _ _ Hauth). discriminate. }
  destruct (falsy_false _ Hauth) as (a & Ha & Hne).
  rewrite (proxy_calls_upstream _ _ _ Ha Hne).
  destruct (forwarded_body request) as [body|e'] eqn:Hbody; cbn [bind].
  2: { intros H. injection H as <-.
       now apply raises_request_body with (a := a). }
  destruct (global_fetch env (upstream_call request a body)) as [up|e']
    eqn:Hup; cbn [bind].
  2: { intros H. injection H as <-.
       now apply raises_upstream with (a := a) (body := body). }
  destruct (Upstream.body up) as [bytes|e'] eqn:Hbytes; cbn [bind].
  2: { intros H. injection H as <-.
       now apply raises_upstream_body with (a := a) (body := body) (up := up). }
  rewrite relay_outcome.
  destruct ((Upstream.status up <? 200)%Z || (599 <? Upstream.status up)%Z)
    eqn:Hrange.
  { intros H. injection H as <-. apply out_of_range in Hrange.
    now apply raises_relay_range
      with (a := a) (body := body) (up := up) (bytes := bytes). }
  apply in_range_status in Hrange.
  destruct (null_body_status (Upstream.status up)) eqn:Hnull; cbn [andb];
    [|discriminate].
  destruct (utf8_decode bytes =? "") eqn:Hempty; cbn [negb]; [discriminate|].
  intros H. injection H as <-. apply String.eqb_neq in Hempty.
  now apply raises_relay_null_body
    with (a := a) (body := body) (up := up) (bytes := bytes).
Qed.

(** The handler of [src/index.js] ends in an exception in exactly ten
    ways ([Flow.Raises]): on [POST /callback], an unreadable form or a
    redirect URL that does not parse; on [POST /token], a form or JSON
    body its reader rejects, or a JSON value ([null]) whose [code] cannot
    be read; on the proxy, a request body that cannot be read, a failing
    upstream call, an upstream body that cannot be read, an upstream
    status outside 200..599, or a non-empty text under an upstream status
    that admits no body. In particular the preflight, the two pages and
    the 404 never throw, and an upstream 204 without a body is relayed. *)
Theorem fetch_throws_exactly_when :
  forall (env : Platform) (request : Request.t) (e : JsError),
    Index.fetch env request = Throw e <-> Raises env request e.
Proof.
  intros env request e. split.
  - intros H.
    destruct (index_dispatch env request)
      as [[_ E] | (Hm & [E | [(Hp & E) | [(Hpost & Hp & E)
                               | [(Hpost & Hp & E) | [(Hp & E) | E]]]]])];
      rewrite E in H; try discriminate.
    + now apply authorize_never_throws in H.
    + apply callback_throws in H
        as [H | (fd & Hfd & Ht & Hr & Hu & ->)].
      * now apply raises_callback_form.
      * now apply raises_callback_url with (fd := fd).
    + apply token_throws in H
        as [[Hct H] | (Hct & Hj & [H | (v & Hv & H)])].
      * now apply raises_token_form.
      * now apply raises_token_json.
      * now apply raises_token_property with (v := v).
    + now apply proxy_raises.
  - intros H.
    destruct H as [e Hm Hp Hfd | fd Hm Hp Hfd Ht Hr Hu | e Hm Hp Hct Hfd
                  | e Hm Hp Hct Hj Hthrow | v e Hm Hp Hct Hj Hv Hprop
                  | a e Hm Hp Ha Hne Hbody
                  | a body e Hm Hp Ha Hne Hbody Hup
                  | a body up e Hm Hp Ha Hne Hbody Hup Hbytes
                  | a body up bytes Hm Hp Ha Hne Hbody Hup Hbytes Hout
                  | a body up bytes Hm Hp Ha Hne Hbody Hup Hbytes Hin Hnull
                      Htext].
    + rewrite index_callback by assumption. apply callback_throws. now left.
    + rewrite index_callback by assumption. apply callback_throws.
      right. exists fd. now repeat split.
    + rewrite index_token by assumption. apply token_throws. now left.
    + rewrite index_token by assumption. apply token_throws.
      right. repeat split; try assumption. now left.
    + rewrite index_token by assumption. apply token_throws.
      right. repeat split; try assumption. right. now exists v.
    + rewrite index_proxy, (proxy_calls_upstream _ _ _ Ha Hne), Hbody
        by assumption.
      reflexivity.
    + rewrite index_proxy, (proxy_calls_upstream _ _ _ Ha Hne), Hbody
        by assumption.
      cbn [bind]. now rewrite Hup.
    + rewrite index_proxy, (proxy_calls_upstream _ _ _ Ha Hne), Hbody
        by assumption.
      cbn [bind]. rewrite Hup. cbn [bind]. now rewrite Hbytes.
    + rewrite index_proxy, (proxy_calls_upstream _ _ _ Ha Hne), Hbody
        by assumption.
      cbn [bind]. rewrite Hup. cbn [bind]. rewrite Hbytes. cbn [bind].
      apply out_of_range in Hout. now rewrite relay_outcome, Hout.
    + rewrite index_proxy, (proxy_calls_upstream _ _ _ Ha Hne), Hbody
        by assumption.
      cbn [bind]. rewrite Hup. cbn [bind]. rewrite Hbytes. cbn [bind].
      apply in_range_status in Hin. apply String.eqb_neq in Htext.
      now rewrite relay_outcome, Hin, Hnull, Htext.
Qed.

(** An upstream answer that breaks off while its body is read is one of
    the ten. *)
Lemma fetch_throws_exactly_when_witness :
  Index.fetch Samples.upstream_breaks_off
    (Samples.bodiless "GET" "/api/v1/courses" []
       [("Authorization", "Bearer abc123")])
  = Throw TypeError.
Proof.
  apply (proj2 (fetch_throws_exactly_when Samples.upstream_breaks_off
                  (Samples.bodiless "GET" "/api/v1/courses" []
                     [("Authorization", "Bearer abc123")]) TypeError)).
  apply raises_upstream_body
    with (a := "Bearer abc123") (body := None)
         (up := Upstream.mk 200 [] (Throw TypeError));
    first [reflexivity | discriminate].
Defined.

(** ** Where the handler reaches out *)








(** ** The token exchange on any JSON value *)

Lemma stringify_token_object (code : JsValue) (text : string) :
  JSON_stringify code = Some text ->
  stringify_object
    [("access_token", code); ("token_type", JString "Bearer");
     ("scope", JString "read write")]
  = "{" ++ QuoteJSONString "access_token" ++ ":" ++ text ++ token_json_rest.
Proof.
  intros H. unfold stringify_object.
  change (JSON_stringify
            (JObject
               [("access_token", code); ("token_type", JString "Bearer");
                ("scope", JString "read write")]))
    with (Some ("{" ++ String.concat ","
                  (List.app
                     match JSON_stringify code with
                     | Some t => [QuoteJSONString "access_token" ++ ":" ++ t]
                     | None => []
                     end
                     [QuoteJSONString "token_type" ++ ":"
                        ++ QuoteJSONString "Bearer";
                      QuoteJSONString "scope" ++ ":"
                        ++ QuoteJSONString "read write"])
                  ++ "}")).
  rewrite H. unfold token_json_rest. cbn [app String.concat].
  now rewrite !append_assoc.
Qed.

Lemma truthy_stringifies (code : JsValue) :
  ToBoolean code = true -> exists text, JSON_stringify code = Some text.
Proof.
  destruct code as [| |[]| | | |]; try discriminate; intros _;
    eexists; reflexivity.
Qed.

(** On a JSON body the token exchange takes the [code] property of any
    type. A falsy one ([false], zero, the empty string, [null], or none:
    an object without the property, an array, a string, a number, a
    boolean) is answered 400 [Missing code]; a truthy one of any type is
    answered 200 with [access_token] set to its JSON text, so only a
    string [code] comes back as a string. *)
Theorem token_exchange_echoes_any_truthy_json_code :
  forall (env : Platform) (request : Request.t) (v code : JsValue),
    Request.method request = "POST" ->
    Request.pathname request = "/token" ->
    includes (contentType request) "application/x-www-form-urlencoded" = false ->
    includes (contentType request) "application/json" = true ->
    Request.json request = Return v ->
    get_property v "code" = Return code ->
    (ToBoolean code = false ->
     Index.fetch env request = Return (json_error 400 "Missing code")) /\
    (ToBoolean code = true ->
     exists text,
       JSON_stringify code = Some text /\
       Index.fetch env request
       = Return (Response.mk 200 Index.jsonHeaders
                   (Some ("{" ++ QuoteJSONString "access_token" ++ ":" ++ text
                            ++ token_json_rest)))).
Proof.
  intros env request v code Hm Hp Hform Hjson Hv Hcode.
  assert (Hread : Index.read_code request = Return (inl code)).
  { unfold contentType in *. unfold Index.read_code. cbv zeta.
    rewrite Hform, Hjson, Hv. cbn [bind]. now rewrite Hcode. }
  rewrite (index_token _ _ Hm Hp). split; intros Hb.
  - now apply token_refuses with (code := code).
  - destruct (truthy_stringifies _ Hb) as (text & Htext).
    exists text. split; [exact Htext|].
    rewrite (token_grants _ _ Hread Hb).
    now rewrite (stringify_token_object _ _ Htext).
Qed.

(** A numeric code comes back as a number, a zero code is refused. *)
Lemma token_exchange_echoes_any_truthy_json_code_witness :
  Index.fetch Samples.offline
    (Samples.json_post "/token"
       (JObject [("code", JNumber {| num_falsy := false; num_text := "42" |})]))
  = Return (Response.mk 200 Index.jsonHeaders
              (Some ("{" ++ QuoteJSONString "access_token" ++ ":" ++ "42"
                       ++ token_json_rest))) /\
  Index.fetch Samples.offline
    (Samples.json_post "/token"
       (JObject [("code", JNumber {| num_falsy := true; num_text := "0" |})]))
  = Return (json_error 400 "Missing code").
Proof.
  split.
  - destruct (proj2 (token_exchange_echoes_any_truthy_json_code Samples.offline
                       (Samples.json_post "/token"
                          (JObject [("code", JNumber {| num_falsy := false;
                                                        num_text := "42" |})]))
                       _ _ eq_refl eq_refl eq_refl eq_refl eq_refl eq_refl)
                eq_refl) as (text & Htext & Hfetch).
    injection Htext as <-. exact Hfetch.
  - exact (proj1 (token_exchange_echoes_any_truthy_json_code Samples.offline
                    (Samples.json_post "/token"
                       (JObject [("code", JNumber {| num_falsy := true;
                                                     num_text := "0" |})]))
                    _ _ eq_refl eq_refl eq_refl eq_refl eq_refl eq_refl)
             eq_refl).
Defined.

(** ** Reading the body *)

(** On every request the answer of the handler of [src/index.js] depends
    on the result of at most one of the three body readers: it stays the
    same when what the other two deliver, [text()] and [formData()], or
    [text()] and [json()], or [formData()] and [json()], is replaced by
    anything. *)
Theorem answer_depends_on_one_body_reader :
  forall (env : Platform) (request : Request.t),
    (forall tx fd,
        Index.fetch env (with_body tx fd (Request.json request) request)
        = Index.fetch env request) \/
    (forall tx j,
        Index.fetch env (with_body tx (Request.formData request) j request)
        = Index.fetch env request) \/
    (forall fd j,
        Index.fetch env (with_body (Request.body request) fd j request)
        = Index.fetch env request).
Proof.
  intros env [m p s q h tx fd j].
  unfold with_body, Index.fetch. cbn [Request.method Request.pathname
    Request.search Request.searchParams Request.headers Request.body
    Request.formData Request.json].
  destruct (m =? "OPTIONS"); [now left|].
  destruct ((p =? "/") || (p =? "")); [now left|].
  destruct (p =? "/authorize"); [now left|].
  destruct ((p =? "/callback") && (m =? "POST")); [right; now left|].
  destruct ((p =? "/token") && (m =? "POST")).
  - unfold Index.token, Index.read_code. cbv zeta.
    cbn [Request.headers Request.formData Request.json].
    destruct (includes _ "application/x-www-form-urlencoded");
      [right; now left|].
    destruct (includes _ "application/json"); [now left | right; now left].
  - destruct (startsWith p "/api/v1/"); now repeat right.
Qed.

(** ** The two copies, completed *)

(** The earlier copy answers as [src/index.js] does on every request that
    neither renders a page nor reaches the proxy: on every [OPTIONS]
    request, and otherwise whenever the path is not [/], not empty, not
    under [/api/v1/], and, if it is [/authorize], the [redirect_uri] is
    missing or empty. *)
Theorem copies_agree_off_pages_and_proxy :
  forall (env : Platform) (request : Request.t),
    Request.method request = "OPTIONS" \/
    (Request.pathname request <> "/" /\
     Request.pathname request <> "" /\
     startsWith (Request.pathname request) "/api/v1/" = false /\
     (Request.pathname request = "/authorize" ->
      falsy (entries_get "redirect_uri" (Request.searchParams request))
      = true)) ->
    Part000.fetch env request = Index.fetch env request.
Proof.
  intros env request [Hm | (H1 & H2 & H3 & H4)].
  - now rewrite part000_options, index_options.
  - unfold Part000.fetch, Index.fetch. rewrite H3.
    destruct (Request.method request =? "OPTIONS"); [reflexivity|].
    apply String.eqb_neq in H1, H2. rewrite H1, H2. cbn [orb].
    destruct (String.eqb_spec (Request.pathname request) "/authorize")
      as [Hp|Hp]; [|reflexivity].
    unfold Part000.authorize, Index.authorize. now rewrite (H4 Hp).
Qed.

(** A rejected authorization request and an unknown path. *)
Lemma copies_agree_off_pages_and_proxy_witness :
  Part000.fetch Samples.offline (Samples.bodiless "GET" "/authorize" [] [])
  = Index.fetch Samples.offline (Samples.bodiless "GET" "/authorize" [] []) /\
  Part000.fetch Samples.offline (Samples.bodiless "GET" "/favicon.ico" [] [])
  = Index.fetch Samples.offline (Samples.bodiless "GET" "/favicon.ico" [] []).
Proof.
  split; apply copies_agree_off_pages_and_proxy; right;
    (split; [discriminate|]); (split; [discriminate|]);
    (split; [reflexivity|]).
  - intros _. reflexivity.
  - discriminate.
Defined.

(** ** Status codes *)

Lemma proxy_returns (env : Platform) (request : Request.t)
  (response : Response.t) :
  Index.proxy env request = Return response ->
  response = json_error 401 "Missing Authorization header" \/
  exists a body up bytes,
    Headers_get "Authorization" (Request.headers request) = Some a /\
    forwarded_body request = Return body /\
    global_fetch env (upstream_call request a body) = Return up /\
    Upstream.body up = Return bytes /\
    response = relayed up bytes.
Proof.
  destruct (falsy (Headers_get "Authorization" (Request.headers request)))
    eqn:Hauth.
  - rewrite (proxy_unauthorized _ _ Hauth). intros H. left. now injection H.
  - destruct (falsy_false _ Hauth) as (a & Ha & Hne).
    rewrite (proxy_calls_upstream _ _ _ Ha Hne).
    destruct (forwarded_body request) as [body|e]; [|discriminate].
    cbn [bind].
    destruct (global_fetch env (upstream_call request a body)) as [up|e]
      eqn:Hup; [|discriminate].
    cbn [bind].
    destruct (Upstream.body up) as [bytes|e] eqn:Hbytes; [|discriminate].
    cbn [bind]. rewrite relay_outcome.
    destruct ((Upstream.status up <? 200)%Z || (599 <? Upstream.status up)%Z);
      [discriminate|].
    destruct (null_body_status (Upstream.status up)
              && negb (utf8_decode bytes =? "")); [discriminate|].
    intros H. injection H as <-. right. now exists a, body, up, bytes.
Qed.

Lemma token_returns (request : Request.t) (response : Response.t) :
  Index.token request = Return response ->
  Response.status response = 200%Z \/ Response.status response = 400%Z.
Proof.
  unfold Index.token.
  destruct (Index.read_code request) as [[code | early]|e] eqn:Hread;
    [| |discriminate]; cbn [bind].
  - destruct (negb (ToBoolean code)); intros H; injection H as <-;
      [now right | now left].
  - intros H. injection H as <-.
    rewrite (read_code_answers _ _ Hread). now right.
Qed.

Lemma part000_authorize_answers (request : Request.t)
  (response : Response.t) :
  Part000.authorize request = Return response ->
  response = plain400 "Missing redirect_uri" \/
  exists page, response = html_page page.
Proof.
  unfold Part000.authorize.
  destruct (falsy (entries_get "redirect_uri" (Request.searchParams request)));
    intros H; injection H as <-; [now left | right; now eexists].
Qed.

(** The handler of [src/index.js] sets only the statuses 200, 302, 400,
    401 and 404 itself; a response with any other status is the relay of
    an upstream answer: the answer to the call the proxy makes with the
    caller's own [Authorization] value, under its own status. The earlier
    copy answers with 200, 302, 400 and 404 only. *)
Theorem handler_sets_five_statuses :
  forall (env : Platform) (request : Request.t) (response : Response.t),
    (Index.fetch env request = Return response ->
     own_status (Response.status response) = true \/
     exists a body up bytes,
       startsWith (Request.pathname request) "/api/v1/" = true /\
       Headers_get "Authorization" (Request.headers request) = Some a /\
       forwarded_body request = Return body /\
       global_fetch env (upstream_call request a body) = Return up /\
       Upstream.body up = Return bytes /\
       response = relayed up bytes /\
       Response.status response = Upstream.status up) /\
    (Part000.fetch env request = Return response ->
     own_status (Response.status response) = true /\
     Response.status response <> 401%Z).
Proof.
  intros env request response. split; intros H.
  - destruct (index_dispatch env request)
      as [[_ E] | (Hm & [E | [(Hp & E) | [(Hpost & Hp & E)
                               | [(Hpost & Hp & E) | [(Hp & E) | E]]]]])];
      rewrite E in H.
    + injection H as <-. now left.
    + injection H as <-. now left.
    + apply authorize_answers in H as [-> | (page & ->)]; now left.
    + apply callback_answers in H as [-> | (url & ->)]; now left.
    + apply token_returns in H as [H | H]; left; now rewrite H.
    + apply proxy_returns in H
        as [-> | (a & body & up & bytes & Ha & Hbody & Hup & Hbytes & ->)];
        [now left | right; now exists a, body, up, bytes].
    + injection H as <-. now left.
  - revert H. unfold Part000.fetch.
    destruct (Request.method request =? "OPTIONS");
      [intros H; injection H as <-; now split|].
    destruct ((Request.pathname request =? "/")
              || (Request.pathname request =? ""));
      [intros H; injection H as <-; now split|].
    destruct (Request.pathname request =? "/authorize").
    { intros H. apply part000_authorize_answers in H as [-> | (page & ->)];
        now split. }
    destruct ((Request.pathname request =? "/callback")
              && (Request.method request =? "POST")).
    { intros H. change (Index.callback env request = Return response) in H.
      apply callback_answers in H as [-> | (url & ->)]; now split. }
    destruct ((Request.pathname request =? "/token")
              && (Request.method request =? "POST")).
    { intros H. change (Index.token request = Return response) in H.
      apply token_returns in H as [H | H]; rewrite H; now split. }
    intros H. injection H as <-. now split.
Qed.

(** A deletion the upstream answers with 204: the status is not one of
    the five, and the response is the relay of that answer. *)
Lemma handler_sets_five_statuses_witness :
  own_status 204 = false /\
  (own_status 204 = true \/
   exists a body up bytes,
     startsWith
       (Request.pathname
          (Samples.bodiless "DELETE" "/api/v1/courses/1" []
             [("Authorization", "Bearer abc123")]))
       "/api/v1/" = true /\
     Headers_get "Authorization"
       (Request.headers
          (Samples.bodiless "DELETE" "/api/v1/courses/1" []
             [("Authorization", "Bearer abc123")]))
     = Some a /\
     forwarded_body
       (Samples.bodiless "DELETE" "/api/v1/courses/1" []
          [("Authorization", "Bearer abc123")])
     = Return body /\
     global_fetch (Samples.upstream_answers (Response.mk 204 [] None))
       (upstream_call
          (Samples.bodiless "DELETE" "/api/v1/courses/1" []
             [("Authorization", "Bearer abc123")]) a body)
     = Return up /\
     Upstream.body up = Return bytes /\
     Response.mk 204
       (("Content-Type", "application/json") :: Index.corsHeaders) None
     = relayed up bytes /\
     204%Z = Upstream.status up).
Proof.
  split; [reflexivity|].
  exact (proj1 (handler_sets_five_statuses
                  (Samples.upstream_answers (Response.mk 204 [] None))
                  (Samples.bodiless "DELETE" "/api/v1/courses/1" []
                     [("Authorization", "Bearer abc123")])
                  (Response.mk 204
                     (("Content-Type", "application/json")
                        :: Index.corsHeaders) None))
           eq_refl).
Defined.
